(** * The Prebid cache Lambda ([cache_access.py]): model and properties

    A shallow embedding of
    [source/infrastructure/prebid_server/cache_lambda/cache_access.py]:
    the request router [handler], the three request handlers and the
    validation functions of the POST body.

    Python values are the values [json.loads] produces.  Exceptions are
    explicit results, and the handlers run in a state monad over a
    [world] that holds the Redis store, the record of backend calls, the
    emitted metrics and the source of uuids.  The functions of the Python
    runtime and of the [json] library that the handler calls are the
    fields of [PyRuntime]; [Ref] gives an executable instance on which
    the examples run. *)

From Stdlib Require Import ZArith List Bool Ascii String Lia.
From Stdlib Require Import Floats.SpecFloat.
From stdpp Require Import base option list strings gmap pretty.

Local Open Scope string_scope.
Local Open Scope Z_scope.
Local Set Warnings "-register-all".

(** ** Python values *)

(** The values [json.loads] returns: [None], [bool], [int], [float],
    [str], [list] and [dict].  A [dict] keeps its insertion order, which
    [json.dumps] prints; its keys are strings. A [float] is an IEEE
    value, given by sign, mantissa and binary exponent. *)
Inductive json : Type :=
| JNull
| JBool (b : bool)
| JInt (n : Z)
| JFloat (f : spec_float)
| JStr (s : string)
| JList (l : list json)
| JObj (d : list (string * json)).

(** The exception classes that occur in the module. *)
Inductive exn : Type :=
| RedisError
| KeyError
| TypeError
| ValueError
| AttributeError
| OverflowError
| JSONDecodeError
| UnicodeDecodeError
| RecursionError.

(** [isinstance(e, c)] on exception classes: [JSONDecodeError] and
    [UnicodeDecodeError] derive from [ValueError]. *)
Definition exn_isa (e c : exn) : bool :=
  match c, e with
  | RedisError, RedisError => true
  | KeyError, KeyError => true
  | TypeError, TypeError => true
  | ValueError, (ValueError | JSONDecodeError | UnicodeDecodeError) => true
  | AttributeError, AttributeError => true
  | OverflowError, OverflowError => true
  | JSONDecodeError, JSONDecodeError => true
  | UnicodeDecodeError, UnicodeDecodeError => true
  | RecursionError, RecursionError => true
  | _, _ => false
  end.

Arguments exn_isa : simpl never.

(** The outcome of an expression: a value, or a raised exception. *)
Inductive res (A : Type) : Type :=
| Ok (a : A)
| Raise (e : exn).
Arguments Ok {A} a.
Arguments Raise {A} e.

Definition res_bind {A B : Type} (r : res A) (k : A -> res B) : res B :=
  match r with
  | Ok a => k a
  | Raise e => Raise e
  end.

(** [try: r except c: h] on a pure expression. *)
Definition res_except {A : Type} (r : res A) (c : exn) (h : res A) : res A :=
  match r with
  | Ok a => Ok a
  | Raise e => if exn_isa e c then h else Raise e
  end.

Declare Scope res_scope.
Delimit Scope res_scope with res.
Notation "x <~ r ;; k" := (res_bind r (fun x => k))
  (at level 100, r at next level, right associativity) : res_scope.

(** ** The Python runtime *)

(** What the module calls in the interpreter and in the [json] library.
    - [int_of_str s] is [int(s)] on a [str]; [None] is [ValueError].
    - [json_dumps] is [json.dumps] with its default arguments; on the
      values of [json] it raises nothing.
    - [json_loads] is [json.loads] on a [str].
    - [py_repr] is [repr] on a [float], a [list] or a [dict].
    - [utf8_decode b] is [b.decode("utf-8")]; [None] is
      [UnicodeDecodeError]. *)
Class PyRuntime : Type := {
  int_of_str : string -> option Z;
  json_dumps : json -> string;
  json_loads : string -> res json;
  py_repr : json -> string;
  utf8_decode : list Byte.byte -> option string
}.

(** ** Operations of Python on these values *)

(** Truth value of an object, as [if not x] tests it. *)
Definition truthy (v : json) : bool :=
  match v with
  | JNull => false
  | JBool b => b
  | JInt n => negb (n =? 0)
  | JFloat (S754_zero _) => false
  | JFloat _ => true
  | JStr s => negb (String.eqb s "")
  | JList l => match l with [] => false | _ => true end
  | JObj d => match d with [] => false | _ => true end
  end.

(** [v == s] for a string literal [s]. *)
Definition eq_str (v : json) (s : string) : bool :=
  match v with
  | JStr x => String.eqb x s
  | _ => false
  end.

(** Lookup of a key in a [dict]. *)
Fixpoint dict_lookup (d : list (string * json)) (k : string) : option json :=
  match d with
  | [] => None
  | (k', v) :: d' => if String.eqb k' k then Some v else dict_lookup d' k
  end.

(** [k in v], for a [dict] [v]. *)
Definition has_key (d : list (string * json)) (k : string) : bool :=
  match dict_lookup d k with Some _ => true | None => false end.

(** [v[k]] for a string [k]: [KeyError] on a [dict] without the key,
    [TypeError] on the other types. *)
Definition subscript (v : json) (k : string) : res json :=
  match v with
  | JObj d => match dict_lookup d k with Some x => Ok x | None => Raise KeyError end
  | _ => Raise TypeError
  end.

(** [v.get(k, dflt)]: only a [dict] has the method. *)
Definition get_method (v : json) (k : string) (dflt : json) : res json :=
  match v with
  | JObj d => Ok (default dflt (dict_lookup d k))
  | _ => Raise AttributeError
  end.

(** [int(f)] on a [float]: truncation toward zero. *)
Definition float_trunc (f : spec_float) : res Z :=
  match f with
  | S754_zero _ => Ok 0
  | S754_infinity _ => Raise OverflowError
  | S754_nan => Raise ValueError
  | S754_finite s m e =>
      let mag := Z.shiftl (Z.pos m) e in
      Ok (if s then - mag else mag)
  end.

(** [int(v)]. *)
Definition py_int {RT : PyRuntime} (v : json) : res Z :=
  match v with
  | JNull => Raise TypeError
  | JBool b => Ok (if b then 1 else 0)
  | JInt n => Ok n
  | JFloat f => float_trunc f
  | JStr s => match int_of_str s with Some n => Ok n | None => Raise ValueError end
  | JList _ | JObj _ => Raise TypeError
  end.

(** [len(v)]. *)
Definition py_len (v : json) : res Z :=
  match v with
  | JStr s => Ok (Z.of_nat (String.length s))
  | JList l => Ok (Z.of_nat (length l))
  | JObj d => Ok (Z.of_nat (length d))
  | _ => Raise TypeError
  end.

(** The items a [for] loop visits: the elements of a [list], the keys
    of a [dict], the characters of a [str]. *)
Definition py_iter (v : json) : res (list json) :=
  match v with
  | JList l => Ok l
  | JObj d => Ok (map (fun kv => JStr (fst kv)) d)
  | JStr s => Ok (map (fun c => JStr (String c EmptyString)) (list_ascii_of_string s))
  | _ => Raise TypeError
  end.

(** [v in s] for a set [s] of strings: the value is hashed first, and a
    [list] or a [dict] is unhashable. *)
Definition in_str_set (v : json) (s : gset string) : res bool :=
  match v with
  | JStr x => Ok (bool_decide (x ∈ s))
  | JList _ | JObj _ => Raise TypeError
  | _ => Ok false
  end.

(** [s.lower()] on ASCII letters. *)
Definition lower_ascii (c : ascii) : ascii :=
  let n := nat_of_ascii c in
  if (Nat.leb 65 n && Nat.leb n 90)%bool then ascii_of_nat (n + 32) else c.

Fixpoint str_lower (s : string) : string :=
  match s with
  | EmptyString => EmptyString
  | String c s' => String (lower_ascii c) (str_lower s')
  end.

(** [v.lower()]: a method of [str]. *)
Definition lower_method (v : json) : res json :=
  match v with
  | JStr s => Ok (JStr (str_lower s))
  | _ => Raise AttributeError
  end.

(** What an f-string puts for [{v}]: [str(v)]. *)
Definition format_value {RT : PyRuntime} (v : json) : string :=
  match v with
  | JStr s => s
  | JInt n => pretty n
  | JNull => "None"
  | JBool true => "True"
  | JBool false => "False"
  | _ => py_repr v
  end.

(** ** Constants of the module *)

Definition ALLOWED_TYPES : gset string := {[ "xml"; "json" ]}.
Definition DEFAULT_TTL_SECONDS : Z := 300.
Definition TTL_MAX_SECONDS : Z := 3600.

(** ** Validation of the POST body *)

Section Validation.
Context {RT : PyRuntime}.
Local Open Scope res_scope.

Definition validate_post_ttlseconds (ttlseconds : json) : res bool :=
  res_except
    (ttl <~ py_int ttlseconds ;;
     if ((ttl <=? 0) || (ttl >? TTL_MAX_SECONDS))%bool then Ok false else Ok true)
    ValueError
    (Ok false).

(** One round of the loop of [validate_post_puts]: [Ok false] is the
    [return False], [Ok true] lets the loop go on. *)
Definition validate_post_item (item : json) : res bool :=
  match item with
  | JObj d =>
      if (negb (has_key d "type") || negb (has_key d "value"))%bool then Ok false
      else
        ty <~ subscript item "type" ;;
        allowed <~ in_str_set ty ALLOWED_TYPES ;;
        if negb allowed then Ok false
        else
          ttlseconds <~ get_method item "ttlseconds" (JInt 0) ;;
          ok <~ validate_post_ttlseconds ttlseconds ;;
          Ok ok
  | _ => Ok false
  end.

Fixpoint validate_post_puts (puts : list json) : res bool :=
  match puts with
  | [] => Ok true
  | item :: rest =>
      ok <~ validate_post_item item ;;
      if negb ok then Ok false else validate_post_puts rest
  end.

Definition validate_post_body (request_data : json) : res bool :=
  match request_data with
  | JObj d =>
      match dict_lookup d "puts" with
      | None => Ok false
      | Some (JList puts) =>
          ok <~ validate_post_puts puts ;;
          if negb ok then Ok false else Ok true
      | Some _ => Ok false
      end
  | _ => Ok false
  end.

End Validation.

(** ** The world of a request *)

(** A value held by Redis: text, or bytes that need not be text. *)
Inductive rvalue : Type :=
| RStr (s : string)
| RBytes (b : list Byte.byte).

(** The commands the module sends to Redis. *)
Inductive call : Type :=
| Ping
| Get (key : string)
| Setex (key : string) (ttl : Z) (value : string)
| Ttl (key : string).

(** The state around one invocation.
    - [db]: the entries of the cache, each with its remaining lifetime.
    - [faults]: for each coming backend command, whether it fails
      (connection refused, timeout, ...); past the end nothing fails.
    - [calls]: the commands sent so far, the oldest first.
    - [metrics]: the counters emitted so far, the oldest first.
    - [uuid_source], [uuid_next]: what [uuid.uuid4()] returns.
    - [now]: the current UTC time, as [strftime] prints it.
    - [errors]: the messages given to [logger.error]. *)
Record world : Type := World {
  db : gmap string (rvalue * Z);
  faults : list bool;
  calls : list call;
  metrics : list (string * Z);
  uuid_source : nat -> string;
  uuid_next : nat;
  now : string;
  errors : list string
}.

Definition set_db (f : gmap string (rvalue * Z) -> gmap string (rvalue * Z)) (w : world) : world :=
  World (f (db w)) (faults w) (calls w) (metrics w) (uuid_source w) (uuid_next w) (now w) (errors w).

Definition sent (c : call) (w : world) : world :=
  World (db w) (tail (faults w)) (calls w ++ [c]) (metrics w) (uuid_source w) (uuid_next w) (now w) (errors w).

Definition emitted (name : string) (value : Z) (w : world) : world :=
  World (db w) (faults w) (calls w) (metrics w ++ [(name, value)]) (uuid_source w) (uuid_next w) (now w) (errors w).

Definition drawn (w : world) : world :=
  World (db w) (faults w) (calls w) (metrics w) (uuid_source w) (S (uuid_next w)) (now w) (errors w).

Definition logged (msg : string) (w : world) : world :=
  World (db w) (faults w) (calls w) (metrics w) (uuid_source w) (uuid_next w) (now w) (msg :: errors w).

(** A statement: it reads and changes the world, and returns or raises.
    What it did before it raises stays done. *)
Definition M (A : Type) : Type := world -> res A * world.

Definition ret {A : Type} (a : A) : M A := fun w => (Ok a, w).

Definition raise {A : Type} (e : exn) : M A := fun w => (Raise e, w).

Definition bind {A B : Type} (m : M A) (k : A -> M B) : M B :=
  fun w =>
    match m w with
    | (Ok a, w') => k a w'
    | (Raise e, w') => (Raise e, w')
    end.

Definition lift {A : Type} (r : res A) : M A := fun w => (r, w).

(** [try: m except c: h] *)
Definition except {A : Type} (m : M A) (c : exn) (h : M A) : M A :=
  fun w =>
    match m w with
    | (Ok a, w') => (Ok a, w')
    | (Raise e, w') => if exn_isa e c then h w' else (Raise e, w')
    end.

(** [try: m except Exception: h] *)
Definition except_all {A : Type} (m : M A) (h : M A) : M A :=
  fun w =>
    match m w with
    | (Ok a, w') => (Ok a, w')
    | (Raise _, w') => h w'
    end.

Declare Scope py_scope.
Delimit Scope py_scope with py.
Notation "x <- m ;; k" := (bind m (fun x => k))
  (at level 100, m at next level, right associativity) : py_scope.
Notation "m ;;; k" := (bind m (fun _ => k))
  (at level 100, right associativity) : py_scope.

(** *** Redis *)

(** A command goes out: it is recorded, and fails when the backend is
    due to. *)
Definition send (c : call) : M unit :=
  fun w =>
    match faults w with
    | true :: _ => (Raise RedisError, sent c w)
    | _ => (Ok tt, sent c w)
    end.

(** How the client encodes a key: a [str] as it is, a number by its
    [repr]; the other types are refused ([DataError], a [RedisError])
    before anything is sent. *)
Definition redis_key {RT : PyRuntime} (key : json) : option string :=
  match key with
  | JStr s => Some s
  | JInt n => Some (pretty n)
  | JFloat f => Some (py_repr (JFloat f))
  | _ => None
  end.

Definition redis_ping : M unit := send Ping.

(** What the client makes of a reply. The pool of the module is built
    with [decode_responses=True]: the client decodes every reply as
    UTF-8 and hands a [str] to the caller; on bytes that are not UTF-8
    the decoding raises [UnicodeDecodeError], which is no
    [RedisError]. *)
Definition decode_reply {RT : PyRuntime} (raw : rvalue) : res rvalue :=
  match raw with
  | RStr s => Ok (RStr s)
  | RBytes b =>
      match utf8_decode b with
      | Some s => Ok (RStr s)
      | None => Raise UnicodeDecodeError
      end
  end.

(** The reply to [GET]: [None] without the key, the decoded value with
    it. *)
Definition get_reply {RT : PyRuntime} (entry : option (rvalue * Z)) : res (option rvalue) :=
  match entry with
  | None => Ok None
  | Some (raw, _) => (v <~ decode_reply raw ;; Ok (Some v))%res
  end.

(** [redis_client.get(key)]: the value, or [None]. *)
Definition redis_get {RT : PyRuntime} (key : json) : M (option rvalue) :=
  match redis_key key with
  | None => raise RedisError
  | Some k => (send (Get k) ;;; fun w => (get_reply (db w !! k), w))%py
  end.

(** [redis_client.ttl(key)]: the seconds left, [-2] without the key. *)
Definition redis_ttl {RT : PyRuntime} (key : json) : M Z :=
  match redis_key key with
  | None => raise RedisError
  | Some k => (send (Ttl k) ;;; fun w => (Ok (default (-2) (snd <$> db w !! k)), w))%py
  end.

(** [redis_client.setex(key, ttl, value)]: Redis refuses a lifetime
    that is not positive. *)
Definition redis_setex (key : string) (ttl : Z) (value : string) : M unit :=
  (send (Setex key ttl value) ;;;
   if ttl <=? 0 then raise RedisError
   else fun w => (Ok tt, set_db (insert key (RStr value, ttl)) w))%py.

(** *** Metrics, uuids, the log *)

(** Modelled from the spec: the client of the metrics layer
    ([cloudwatch_metrics.metrics.Metrics], not among these sources).
    [put_metrics_count_value_1] emits the named counter with value 1 and
    [put_metrics_count_value_custom] with the given value; the emission
    is best effort and does not affect the handling of the request. *)
Definition put_metrics_count_value_custom (metric_name : string) (value : Z) : M unit :=
  fun w => (Ok tt, emitted metric_name value w).

Definition put_metrics_count_value_1 (metric_name : string) : M unit :=
  put_metrics_count_value_custom metric_name 1.

(** [str(uuid.uuid4())] *)
Definition uuid4 : M string :=
  fun w => (Ok (uuid_source w (uuid_next w)), drawn w).

(** [logger.error(msg, exc_info=e)] *)
Definition logger_error (msg : string) : M unit :=
  fun w => (Ok tt, logged msg w).

(** ** The handlers *)

(** The [dict] a handler returns; [headers] is [None] when the key is
    absent. *)
Record response : Type := Response {
  statusCode : Z;
  headers : option (list (string * string));
  body : string
}.

Section Handlers.
Context {RT : PyRuntime}.
Local Open Scope py_scope.

(** [{"statusCode": code, "body": json.dumps({"error": msg})}] *)
Definition error_response (code : Z) (msg : string) : response :=
  Response code None (json_dumps (JObj [("error", JStr msg)])).

Definition handle_health_check : M response :=
  redis_ping ;;;
  fun w =>
    (Ok (Response 200 None
           (json_dumps (JObj [("status", JStr "healthy");
                              ("cache", JStr "connected");
                              ("timestamp", JStr (now w))]))), w).

(** The part of [handle_get_request] that follows the decoding of the
    value: the inner [try] with its [except json.JSONDecodeError]. *)
Definition get_parsed (key : json) (value : string) : M response :=
  except
    (parsed_value <- lift (json_loads value) ;;
     match parsed_value with
     | JObj d =>
         if (negb (has_key d "type") || negb (has_key d "value"))%bool
         then ret (error_response 500 "Invalid cached value structure")
         else
           remaining_ttl <- redis_ttl key ;;
           put_metrics_count_value_1 "GetSuccess" ;;;
           ty <- lift (subscript parsed_value "type") ;;
           v <- lift (subscript parsed_value "value") ;;
           ret (Response 200
                  (Some [("Cache-Control", "max-age=" +:+ pretty remaining_ttl);
                         ("Content-Type", "application/" +:+ format_value ty)])
                  (json_dumps v))
     | _ => ret (error_response 500 "Invalid cached value structure")
     end)
    JSONDecodeError
    (ret (error_response 500 "Invalid cached value format")).

Definition handle_get_request (event : json) : M response :=
  params <- lift (get_method event "queryStringParameters" (JObj [])) ;;
  key <- lift (get_method params "uuid" JNull) ;;
  if negb (truthy key) then ret (error_response 400 "Missing uuid parameter")
  else
    except
      (value <- redis_get key ;;
       match value with
       | None =>
           put_metrics_count_value_1 "GetNotFound" ;;;
           ret (error_response 404 "Uuid not found")
       | Some (RBytes b) =>
           match utf8_decode b with
           | None =>
               logger_error "Unicode decode error" ;;;
               ret (error_response 500 "Invalid encoding in cached value")
           | Some s => get_parsed key s
           end
       | Some (RStr s) => get_parsed key s
       end)
      RedisError
      (logger_error "Redis error" ;;;
       ret (error_response 500 "Cache error")).

(** [json.loads(v)]: the argument must be a [str]. *)
Definition loads_value (v : json) : res json :=
  match v with
  | JStr s => json_loads s
  | _ => Raise TypeError
  end.

(** The lifetime an item is stored with: the lines under
    [# Handle optional TTL]. *)
Definition resolve_ttl (item : json) : res Z :=
  (raw <~ get_method item "ttlseconds" (JInt DEFAULT_TTL_SECONDS) ;;
   ttlseconds <~ py_int raw ;;
   if ((ttlseconds <=? 0) || (ttlseconds >? TTL_MAX_SECONDS))%bool
   then Ok DEFAULT_TTL_SECONDS
   else Ok ttlseconds)%res.

(** [{"type": item["type"].lower(), "value": item["value"]}] *)
Definition cache_value_of (item : json) : res json :=
  (ty <~ subscript item "type" ;;
   lty <~ lower_method ty ;;
   v <~ subscript item "value" ;;
   Ok (JObj [("type", lty); ("value", v)]))%res.

(** One round of the loop of [handle_post_request]; the result is the
    [{"uuid": key}] appended to [responses]. *)
Definition store_item (item : json) : M json :=
  ttlseconds <- lift (resolve_ttl item) ;;
  key <- uuid4 ;;
  cache_value <- lift (cache_value_of item) ;;
  redis_setex key ttlseconds (json_dumps cache_value) ;;;
  ret (JObj [("uuid", JStr key)]).

Fixpoint store_items (items : list json) (responses : list json) : M (list json) :=
  match items with
  | [] => ret responses
  | item :: rest =>
      r <- store_item item ;;
      store_items rest (responses ++ [r])
  end.

Definition handle_post_request (event : json) : M response :=
  body <- lift (get_method event "body" JNull) ;;
  if negb (truthy body) then
    put_metrics_count_value_1 "PostFail" ;;;
    ret (error_response 400 "Missing request body")
  else
    request_data <- lift (loads_value body) ;;
    valid <- lift (validate_post_body request_data) ;;
    if negb valid then
      put_metrics_count_value_1 "PostFail" ;;;
      ret (error_response 400 "Invalid request body")
    else
      except
        (puts <- lift (subscript request_data "puts") ;;
         item_count <- lift (py_len puts) ;;
         put_metrics_count_value_custom "PostCount" item_count ;;;
         items <- lift (py_iter puts) ;;
         responses <- store_items items [] ;;
         put_metrics_count_value_1 "PostSuccess" ;;;
         ret (Response 200 None (json_dumps (JObj [("responses", JList responses)]))))
        RedisError
        (logger_error "Redis error" ;;;
         put_metrics_count_value_1 "PostFail" ;;;
         ret (error_response 500 "Cache error")).

(** The [try] block of [handler]. *)
Definition route (event : json) : M response :=
  path <- lift (subscript event "path") ;;
  if eq_str path "/cache/health" then handle_health_check
  else if negb (eq_str path "/cache") then ret (error_response 404 "Not found")
  else
    http_method <- lift (subscript event "httpMethod") ;;
    if eq_str http_method "GET" then handle_get_request event
    else if eq_str http_method "POST" then handle_post_request event
    else ret (error_response 405 "Method not allowed").

(** [except Exception as e:] of [handler]. *)
Definition internal_error : M response :=
  logger_error "Unexpected error" ;;;
  ret (error_response 500 "Internal server error").

Definition handler (event : json) : M response :=
  except_all (route event) internal_error.

End Handlers.

(** ** A reference runtime

    An executable instance of [PyRuntime] for text in ASCII, on which
    the examples below run: [int] on a decimal literal, a printer and a
    parser of JSON in the format of [json.dumps] and [json.loads], and
    [repr].  A [float] is printed by its exact decimal expansion, which
    is what Python prints when that expansion is the shortest one that
    reads back (as for [10.5]). *)
Module Ref.

Definition code (c : ascii) : Z := Z.of_nat (nat_of_ascii c).

Definition chr (n : Z) : ascii := ascii_of_nat (Z.to_nat n).

Definition is_digit (c : ascii) : bool := (48 <=? code c) && (code c <=? 57).

Definition digit_value (c : ascii) : Z := code c - 48.

(** The characters [str.strip] removes. *)
Definition is_space (c : ascii) : bool :=
  ((9 <=? code c) && (code c <=? 13)) || ((28 <=? code c) && (code c <=? 32)).

Fixpoint drop_spaces (s : list ascii) : list ascii :=
  match s with
  | c :: r => if is_space c then drop_spaces r else s
  | [] => []
  end.

Definition strip (s : list ascii) : list ascii :=
  rev (drop_spaces (rev (drop_spaces s))).

(** Decimal digits, with single underscores between them. *)
Fixpoint digits_value (acc : Z) (after_digit : bool) (s : list ascii) : option Z :=
  match s with
  | [] => if after_digit then Some acc else None
  | c :: r =>
      if is_digit c then digits_value (10 * acc + digit_value c) true r
      else if (code c =? 95) && after_digit then
        match r with
        | d :: _ => if is_digit d then digits_value acc false r else None
        | [] => None
        end
      else None
  end.

Definition int_of_str (s : string) : option Z :=
  match strip (list_ascii_of_string s) with
  | c :: r =>
      if code c =? 45 then Z.opp <$> digits_value 0 false r
      else if code c =? 43 then digits_value 0 false r
      else digits_value 0 false (c :: r)
  | [] => None
  end.

(** *** Printing *)

Definition hex_digit (n : Z) : ascii :=
  if n <? 10 then chr (48 + n) else chr (87 + n).

(** The double quote. *)
Definition dq : string := String (chr 34) EmptyString.

Definition escape_char (c : ascii) : string :=
  let n := code c in
  if n =? 34 then "\" +:+ dq
  else if n =? 92 then "\\"
  else if n =? 10 then "\n"
  else if n =? 13 then "\r"
  else if n =? 9 then "\t"
  else if n =? 8 then "\b"
  else if n =? 12 then "\f"
  else if (n <? 32) || (n =? 127) then
    "\u00" +:+ String (hex_digit (n / 16)) (String (hex_digit (n mod 16)) EmptyString)
  else String c EmptyString.

Fixpoint escape (s : string) : string :=
  match s with
  | EmptyString => EmptyString
  | String c r => escape_char c +:+ escape r
  end.

Definition quote (s : string) : string := dq +:+ escape s +:+ dq.

(** The digits of [n] after the point, in [k] places, without the
    zeros at the end (one digit at least). *)
Fixpoint fraction_digits (k : nat) (n : Z) : string :=
  match k with
  | O => EmptyString
  | S k' =>
      let d := n / 10 ^ Z.of_nat k' in
      let r := n mod 10 ^ Z.of_nat k' in
      String (chr (48 + d)) (if r =? 0 then EmptyString else fraction_digits k' r)
  end.

Definition float_text (f : spec_float) : string :=
  match f with
  | S754_nan => "NaN"
  | S754_infinity false => "Infinity"
  | S754_infinity true => "-Infinity"
  | S754_zero false => "0.0"
  | S754_zero true => "-0.0"
  | S754_finite s m e =>
      let sign := if s then "-" else "" in
      if 0 <=? e then sign +:+ pretty (Z.pos m * 2 ^ e) +:+ ".0"
      else
        let k := - e in
        let whole := Z.pos m / 2 ^ k in
        let part := (Z.pos m mod 2 ^ k) * 5 ^ k in
        sign +:+ pretty whole +:+ "." +:+
          (if part =? 0 then "0" else fraction_digits (Z.to_nat k) part)
  end.

Fixpoint join (sep : string) (l : list string) : string :=
  match l with
  | [] => ""
  | [x] => x
  | x :: r => x +:+ sep +:+ join sep r
  end.

(** [json.dumps]: the separators are [", "] and [": "]. *)
Fixpoint json_dumps (v : json) : string :=
  match v with
  | JNull => "null"
  | JBool true => "true"
  | JBool false => "false"
  | JInt n => pretty n
  | JFloat f => float_text f
  | JStr s => quote s
  | JList l => "[" +:+ join ", " (map json_dumps l) +:+ "]"
  | JObj d =>
      "{" +:+ join ", " (map (fun kv => quote (fst kv) +:+ ": " +:+ json_dumps (snd kv)) d) +:+ "}"
  end.

(** [repr] of a [str]: single quotes, or double quotes when the text
    has a single quote and no double quote. *)
Fixpoint has_char (n : Z) (s : string) : bool :=
  match s with
  | EmptyString => false
  | String c r => (code c =? n) || has_char n r
  end.

Definition repr_char (q : Z) (c : ascii) : string :=
  let n := code c in
  if n =? q then String "\" (String c EmptyString)
  else if n =? 92 then "\\"
  else if n =? 10 then "\n"
  else if n =? 13 then "\r"
  else if n =? 9 then "\t"
  else if (n <? 32) || (n =? 127) then
    "\x" +:+ String (hex_digit (n / 16)) (String (hex_digit (n mod 16)) EmptyString)
  else String c EmptyString.

Fixpoint repr_chars (q : Z) (s : string) : string :=
  match s with
  | EmptyString => EmptyString
  | String c r => repr_char q c +:+ repr_chars q r
  end.

Definition str_repr (s : string) : string :=
  let q := if has_char 39 s && negb (has_char 34 s) then 34 else 39 in
  String (chr q) (repr_chars q s) +:+ String (chr q) EmptyString.

Fixpoint py_repr (v : json) : string :=
  match v with
  | JNull => "None"
  | JBool true => "True"
  | JBool false => "False"
  | JInt n => pretty n
  | JFloat f =>
      match f with
      | S754_nan => "nan"
      | S754_infinity false => "inf"
      | S754_infinity true => "-inf"
      | _ => float_text f
      end
  | JStr s => str_repr s
  | JList l => "[" +:+ join ", " (map py_repr l) +:+ "]"
  | JObj d =>
      "{" +:+ join ", " (map (fun kv => str_repr (fst kv) +:+ ": " +:+ py_repr (snd kv)) d) +:+ "}"
  end.

(** *** Parsing *)

Definition is_ws (c : ascii) : bool :=
  (code c =? 32) || (code c =? 9) || (code c =? 10) || (code c =? 13).

Fixpoint skip_ws (s : list ascii) : list ascii :=
  match s with
  | c :: r => if is_ws c then skip_ws r else s
  | [] => []
  end.

(** The next character after blanks must be [n]. *)
Definition expect (n : Z) (s : list ascii) : option (list ascii) :=
  match skip_ws s with
  | c :: r => if code c =? n then Some r else None
  | [] => None
  end.

(** The text must go on with the characters of [lit]. *)
Fixpoint literal (lit : list ascii) (s : list ascii) : option (list ascii) :=
  match lit, s with
  | [], _ => Some s
  | a :: lit', c :: r => if code a =? code c then literal lit' r else None
  | _ :: _, [] => None
  end.

Definition hex_value (c : ascii) : option Z :=
  let n := code c in
  if is_digit c then Some (n - 48)
  else if (97 <=? n) && (n <=? 102) then Some (n - 87)
  else if (65 <=? n) && (n <=? 70) then Some (n - 55)
  else None.

(** The bytes of a code point of the basic plane in UTF-8. *)
Definition utf8_encode (n : Z) : list ascii :=
  if n <? 128 then [chr n]
  else if n <? 2048 then [chr (192 + n / 64); chr (128 + n mod 64)]
  else [chr (224 + n / 4096); chr (128 + (n / 64) mod 64); chr (128 + n mod 64)].

(** The rest of a string, after its opening quote; [acc] holds the
    characters read, the last one first. *)
Fixpoint parse_string (s : list ascii) (acc : list ascii) : option (string * list ascii) :=
  match s with
  | [] => None
  | c :: r =>
      if code c =? 34 then Some (string_of_list_ascii (rev acc), r)
      else if code c <? 32 then None
      else if code c =? 92 then
        match r with
        | e :: r1 =>
            let n := code e in
            if (n =? 34) || (n =? 92) || (n =? 47) then parse_string r1 (e :: acc)
            else if n =? 98 then parse_string r1 (chr 8 :: acc)
            else if n =? 102 then parse_string r1 (chr 12 :: acc)
            else if n =? 110 then parse_string r1 (chr 10 :: acc)
            else if n =? 114 then parse_string r1 (chr 13 :: acc)
            else if n =? 116 then parse_string r1 (chr 9 :: acc)
            else if n =? 117 then
              match r1 with
              | h1 :: h2 :: h3 :: h4 :: r2 =>
                  match hex_value h1, hex_value h2, hex_value h3, hex_value h4 with
                  | Some a, Some b, Some c', Some d =>
                      parse_string r2 (rev (utf8_encode (4096 * a + 256 * b + 16 * c' + d)) ++ acc)%list
                  | _, _, _, _ => None
                  end
              | _ => None
              end
            else None
        | [] => None
        end
      else parse_string r (c :: acc)
  end.

Fixpoint take_digits (s : list ascii) : list ascii * list ascii :=
  match s with
  | c :: r => if is_digit c then let '(ds, r') := take_digits r in (c :: ds, r') else ([], s)
  | [] => ([], [])
  end.

Definition digits_to_Z (ds : list ascii) : Z :=
  fold_left (fun acc c => 10 * acc + digit_value c) ds 0.

(** The [float] nearest to [d * 10 ^ k], for [d >= 0]. *)
Definition decimal_float (neg : bool) (d k : Z) : spec_float :=
  match d with
  | Z0 => S754_zero neg
  | Zpos p =>
      if 0 <=? k then binary_normalize 53 1024 (if neg then - (d * 10 ^ k) else d * 10 ^ k) 0 false
      else SFdiv 53 1024 (S754_finite neg p 0) (S754_finite false (Z.to_pos (10 ^ (- k))) 0)
  | Zneg _ => S754_nan
  end.

(** A number, after its sign: an [int] without fraction and exponent,
    a [float] otherwise. *)
Definition parse_number (neg : bool) (s : list ascii) : option (json * list ascii) :=
  let '(whole, r) := take_digits s in
  match whole with
  | [] => None
  | w :: ws =>
      if (code w =? 48) && negb (match ws with [] => true | _ => false end) then None
      else
        let '(frac, r1) :=
          match r with
          | p :: r' => if code p =? 46 then take_digits r' else ([], r)
          | [] => ([], r)
          end in
        let has_frac := match r with p :: _ => code p =? 46 | [] => false end in
        if has_frac && (match frac with [] => true | _ => false end) then None
        else
          let exponent :=
            match r1 with
            | e :: r2 =>
                if (code e =? 101) || (code e =? 69) then
                  let '(eneg, r3) :=
                    match r2 with
                    | sg :: r3 =>
                        if code sg =? 45 then (true, r3)
                        else if code sg =? 43 then (false, r3)
                        else (false, r2)
                    | [] => (false, r2)
                    end in
                  let '(eds, r4) := take_digits r3 in
                  match eds with
                  | [] => None
                  | _ => Some (if eneg then - digits_to_Z eds else digits_to_Z eds, r4)
                  end
                else None
            | [] => None
            end in
          match exponent with
          | Some (ex, r4) =>
              Some (JFloat (decimal_float neg (digits_to_Z (whole ++ frac)%list)
                              (ex - Z.of_nat (length frac))), r4)
          | None =>
              if has_frac then
                Some (JFloat (decimal_float neg (digits_to_Z (whole ++ frac)%list)
                                (- Z.of_nat (length frac))), r1)
              else Some (JInt (if neg then - digits_to_Z whole else digits_to_Z whole), r1)
          end
  end.

(** [d[k] = v] on a [dict]: a key that is there keeps its place. *)
Fixpoint dict_set (d : list (string * json)) (k : string) (v : json) : list (string * json) :=
  match d with
  | [] => [(k, v)]
  | (k', v') :: d' => if String.eqb k' k then (k', v) :: d' else (k', v') :: dict_set d' k v
  end.

Fixpoint parse_value (fuel : nat) (s : list ascii) : option (json * list ascii) :=
  match fuel with
  | O => None
  | S fuel' =>
      match skip_ws s with
      | [] => None
      | c :: r =>
          let n := code c in
          if n =? 123 then
            match expect 125 r with
            | Some r' => Some (JObj [], r')
            | None =>
                (fix members (m : nat) (s : list ascii) (acc : list (string * json)) :=
                   match m with
                   | O => None
                   | S m' =>
                       s1 ← expect 34 s;
                       ks ← parse_string s1 [];
                       s3 ← expect 58 (snd ks);
                       vs ← parse_value fuel' s3;
                       match expect 44 (snd vs) with
                       | Some s5 => members m' s5 (dict_set acc (fst ks) (fst vs))
                       | None =>
                           s5 ← expect 125 (snd vs);
                           Some (JObj (dict_set acc (fst ks) (fst vs)), s5)
                       end
                   end) (length r) r []
            end
          else if n =? 91 then
            match expect 93 r with
            | Some r' => Some (JList [], r')
            | None =>
                (fix elements (m : nat) (s : list ascii) (acc : list json) :=
                   match m with
                   | O => None
                   | S m' =>
                       vs ← parse_value fuel' s;
                       match expect 44 (snd vs) with
                       | Some s2 => elements m' s2 (acc ++ [fst vs])%list
                       | None =>
                           s2 ← expect 93 (snd vs);
                           Some (JList (acc ++ [fst vs])%list, s2)
                       end
                   end) (length r) r []
            end
          else if n =? 34 then
            ks ← parse_string r [];
            Some (JStr (fst ks), snd ks)
          else if n =? 116 then
            r' ← literal (list_ascii_of_string "rue") r; Some (JBool true, r')
          else if n =? 102 then
            r' ← literal (list_ascii_of_string "alse") r; Some (JBool false, r')
          else if n =? 110 then
            r' ← literal (list_ascii_of_string "ull") r; Some (JNull, r')
          else if n =? 78 then
            r' ← literal (list_ascii_of_string "aN") r; Some (JFloat S754_nan, r')
          else if n =? 73 then
            r' ← literal (list_ascii_of_string "nfinity") r;
            Some (JFloat (S754_infinity false), r')
          else if n =? 45 then
            match literal (list_ascii_of_string "Infinity") r with
            | Some r' => Some (JFloat (S754_infinity true), r')
            | None => parse_number true r
            end
          else parse_number false (c :: r)
      end
  end.

Definition json_loads (s : string) : res json :=
  let cs := list_ascii_of_string s in
  match parse_value (S (length cs)) cs with
  | Some (v, rest) =>
      match skip_ws rest with
      | [] => Ok v
      | _ => Raise JSONDecodeError
      end
  | None => Raise JSONDecodeError
  end.

(** *** Decoding of bytes *)

Definition continuation (b : Z) : bool := (128 <=? b) && (b <=? 191).

Fixpoint utf8_valid (l : list Z) : bool :=
  match l with
  | [] => true
  | b :: r =>
      if b <? 128 then utf8_valid r
      else if (194 <=? b) && (b <=? 223) then
        match r with
        | c1 :: r1 => continuation c1 && utf8_valid r1
        | _ => false
        end
      else if (224 <=? b) && (b <=? 239) then
        match r with
        | c1 :: c2 :: r2 =>
            (if b =? 224 then 160 <=? c1 else true) && (if b =? 237 then c1 <=? 159 else true)
            && continuation c1 && continuation c2 && utf8_valid r2
        | _ => false
        end
      else if (240 <=? b) && (b <=? 244) then
        match r with
        | c1 :: c2 :: c3 :: r3 =>
            (if b =? 240 then 144 <=? c1 else true) && (if b =? 244 then c1 <=? 143 else true)
            && continuation c1 && continuation c2 && continuation c3 && utf8_valid r3
        | _ => false
        end
      else false
  end.

Definition utf8_decode (b : list Byte.byte) : option string :=
  if utf8_valid (map (fun x => Z.of_N (Byte.to_N x)) b)
  then Some (string_of_list_ascii (map ascii_of_byte b))
  else None.

Definition runtime : PyRuntime :=
  Build_PyRuntime int_of_str json_dumps json_loads py_repr utf8_decode.

End Ref.

(** A world with an empty cache and a working backend. *)
Definition quiet_world : world :=
  World ∅ [] [] [] (fun n => "uuid-" +:+ pretty (Z.of_nat n)) 0 "2024-01-01 00:00:00 UTC" [].

(** An event as the API Gateway proxy integration gives it. *)
Definition http_event (method path : string) (params body : json) : json :=
  JObj [("httpMethod", JStr method); ("path", JStr path);
        ("queryStringParameters", params); ("body", body)].

(** ** Requests for the examples *)

(** A POST on /cache whose body is [json.dumps(request)], as the unit
    tests build it. *)
Definition post_event (request : json) : json :=
  http_event "POST" "/cache" JNull (JStr (Ref.json_dumps request)).

(** A GET on /cache with the query string [uuid=<uuid>]. *)
Definition get_event (uuid : string) : json :=
  http_event "GET" "/cache" (JObj [("uuid", JStr uuid)]) JNull.

(** [{"puts": [...]}] *)
Definition batch (puts : list json) : json := JObj [("puts", JList puts)].

(** [{"type": ty, "value": value, "ttlseconds": ttlseconds}] *)
Definition put (ty : string) (value ttlseconds : json) : json :=
  JObj [("type", JStr ty); ("value", value); ("ttlseconds", ttlseconds)].

(** [{"test": "data"}], the value the unit tests store. *)
Definition test_value : json := JObj [("test", JStr "data")].

(** The [float] 10.5, which is 21 * 2^48 * 2^-49, as [json.loads] reads
    the literal [10.5]. *)
Definition ten_and_a_half : spec_float := S754_finite false 5910974510923776 (-49).

(** A world whose backend carries out [n] commands and fails on the
    next one. *)
Definition failing_after (n : nat) : world :=
  World ∅ (replicate n false ++ [true]) [] []
    (fun n => "uuid-" +:+ pretty (Z.of_nat n)) 0 "2024-01-01 00:00:00 UTC" [].

(** A world whose cache holds, under the key "broken", a text that is
    not JSON. *)
Definition corrupted_world : world :=
  World {[ "broken" := (RStr "<html>", 60) ]} [] [] []
    (fun n => "uuid-" +:+ pretty (Z.of_nat n)) 0 "2024-01-01 00:00:00 UTC" [].

(** The item the unit tests store, [{"test": "data"}] as "json" for
    300 seconds, and two more. *)
Definition first_put : json := put "json" test_value (JInt 300).
Definition second_put : json := put "xml" (JStr "<ad/>") (JStr "45").
Definition third_put : json := put "json" (JList [JInt 1; JInt 2]) (JBool true).

(** ** Notions of the specification *)

Section SpecNotions.
Context {RT : PyRuntime}.

(** The text of a stored value, when it has one. *)
Definition entry_text (raw : rvalue) : option string :=
  match raw with
  | RStr s => Some s
  | RBytes b => utf8_decode b
  end.

(** From the spec: the raw stored value parses as "a JSON object
    containing both type and value fields". *)
Definition is_cached_record (raw : rvalue) : bool :=
  match entry_text raw with
  | Some s =>
      match json_loads s with
      | Ok (JObj d) => has_key d "type" && has_key d "value"
      | _ => false
      end
  | None => false
  end.

(** From the spec: an element of [puts] that is not an object, that
    misses "type" or "value", or whose type is a value outside the
    allowed set (a hashable one: the membership test has an answer). *)
Inductive bad_item : json -> Prop :=
| bad_not_object (item : json) :
    (forall d, item <> JObj d) -> bad_item item
| bad_no_type (d : list (string * json)) :
    dict_lookup d "type" = None -> bad_item (JObj d)
| bad_no_value (d : list (string * json)) :
    dict_lookup d "value" = None -> bad_item (JObj d)
| bad_type (d : list (string * json)) (ty : json) :
    dict_lookup d "type" = Some ty ->
    in_str_set ty ALLOWED_TYPES = Ok false ->
    bad_item (JObj d).

(** From the spec: a body that is not an object, that misses "puts",
    whose "puts" is not a list, or whose first element that is not
    valid is a bad one. *)
Inductive bad_body : json -> Prop :=
| bad_body_not_object (request_data : json) :
    (forall d, request_data <> JObj d) -> bad_body request_data
| bad_body_no_puts (d : list (string * json)) :
    dict_lookup d "puts" = None -> bad_body (JObj d)
| bad_body_puts_not_list (d : list (string * json)) (puts : json) :
    dict_lookup d "puts" = Some puts ->
    (forall l, puts <> JList l) -> bad_body (JObj d)
| bad_body_item (d : list (string * json)) (pre : list json) (item : json)
    (post : list json) :
    dict_lookup d "puts" = Some (JList (pre ++ item :: post)) ->
    validate_post_puts pre = Ok true ->
    bad_item item ->
    bad_body (JObj d).

(** The backend carries out the next command. *)
Definition next_ok (w : world) : bool :=
  match faults w with
  | true :: _ => false
  | _ => true
  end.

(** C1 as the spec words it: the effective lifetime is the supplied
    [ttlseconds] when it is present and an integer in (0, 3600], and the
    default otherwise. *)
Definition claimed_ttl (item : json) : Z :=
  match item with
  | JObj d =>
      match dict_lookup d "ttlseconds" with
      | Some (JInt n) =>
          if (0 <? n) && (n <=? TTL_MAX_SECONDS) then n else DEFAULT_TTL_SECONDS
      | _ => DEFAULT_TTL_SECONDS
      end
  | _ => DEFAULT_TTL_SECONDS
  end.

(** The effective lifetime with the conversion the code applies: it is
    [int(ttlseconds)] when [ttlseconds] is present and that integer is
    in (0, 3600], and the default otherwise. *)
Definition effective_ttl (item : json) : Z :=
  match item with
  | JObj d =>
      match dict_lookup d "ttlseconds" with
      | Some v =>
          match py_int v with
          | Ok n => if (0 <? n) && (n <=? TTL_MAX_SECONDS) then n else DEFAULT_TTL_SECONDS
          | Raise _ => DEFAULT_TTL_SECONDS
          end
      | None => DEFAULT_TTL_SECONDS
      end
  | _ => DEFAULT_TTL_SECONDS
  end.

(** The lifetime a command stores with. *)
Definition call_ttl (c : call) : option Z :=
  match c with
  | Setex _ ttl _ => Some ttl
  | _ => None
  end.

(** The record stored for an item of type [ty] and value [v]. *)
Definition cached_record (ty : string) (v : json) : json :=
  JObj [("type", JStr ty); ("value", v)].

(** The text stored for an item. *)
Definition entry_of (item : json) : string :=
  match cache_value_of item with
  | Ok cache_value => json_dumps cache_value
  | Raise _ => ""
  end.

(** The key the next item is stored under. *)
Definition next_key (w : world) : string := uuid_source w (uuid_next w).

(** The command that stores an item. *)
Definition setex_of (item : json) (w : world) : call :=
  Setex (next_key w) (effective_ttl item) (entry_of item).

(** The world after an item is stored. *)
Definition stored_item (item : json) (w : world) : world :=
  set_db (insert (next_key w) (RStr (entry_of item), effective_ttl item))
    (sent (setex_of item w) (drawn w)).

(** The world after the items are stored, one after the other. *)
Fixpoint store_all (items : list json) (w : world) : world :=
  match items with
  | [] => w
  | item :: rest => store_all rest (stored_item item w)
  end.

(** How many of [n] items are stored before the backend fails, under
    the schedule [fs]. *)
Fixpoint stored_count (fs : list bool) (n : nat) : nat :=
  match n with
  | O => O
  | S n' =>
      match fs with
      | true :: _ => O
      | _ => S (stored_count (tail fs) n')
      end
  end.

(** The keys of a batch of [n] items stored from the world [w] on. *)
Definition batch_keys (w : world) (n : nat) : list string :=
  map (fun j => uuid_source w (uuid_next w + j)%nat) (seq 0 n).

(** The list [responses] of a batch of [n] items. *)
Definition responses_of (w : world) (n : nat) : list json :=
  map (fun key => JObj [("uuid", JStr key)]) (batch_keys w n).

(** The commands that store a batch from the world [w] on. *)
Definition setex_calls (w : world) (items : list json) : list call :=
  zip_with (fun key item => Setex key (effective_ttl item) (entry_of item))
    (batch_keys w (length items)) items.

(** The response to a batch of [n] items that is stored. *)
Definition stored_response (w : world) (n : nat) : response :=
  Response 200 None (json_dumps (JObj [("responses", JList (responses_of w n))])).

End SpecNotions.

Arguments stored_count : simpl never.
Arguments effective_ttl : simpl never.
Arguments entry_of : simpl never.

(** ** Notions for the further properties *)

(** A statement keeps the relation [R] between the world it starts in
    and the world it ends in, whether it returns or raises. *)
Definition preserves (R : world -> world -> Prop) {A : Type} (m : M A) : Prop :=
  forall w, R w (m w).2.

(** A command that, when it stores, stores with a lifetime above 0 and
    of at most [TTL_MAX_SECONDS] seconds. *)
Definition bounded_call (c : call) : Prop :=
  forall (key : string) (ttl : Z) (value : string),
    c = Setex key ttl value -> 0 < ttl <= TTL_MAX_SECONDS.

(** The commands sent since [w] are bounded ones. *)
Definition sends_bounded (w w' : world) : Prop :=
  exists cs : list call, calls w' = (calls w ++ cs)%list /\ Forall bounded_call cs.

(** The cache is left as it was. *)
Definition same_db (w w' : world) : Prop := db w' = db w.

(** No key is lost from the cache. *)
Definition keeps_keys (w w' : world) : Prop := dom (db w) ⊆ dom (db w').

(** The counter a GET emits with a status. *)
Definition get_counter (status : Z) : list (string * Z) :=
  if status =? 200 then [("GetSuccess", 1)]
  else if status =? 404 then [("GetNotFound", 1)]
  else [].

(** A statement returns only values with the property [P]. *)
Definition returns {A : Type} (P : A -> Prop) (m : M A) : Prop :=
  forall w a w', m w = (Ok a, w') -> P a.

(** The error answers of the module: status and message. *)
Definition error_table : list (Z * string) :=
  [ (400, "Missing uuid parameter"); (404, "Uuid not found");
    (500, "Invalid encoding in cached value"); (500, "Invalid cached value structure");
    (500, "Invalid cached value format"); (500, "Cache error");
    (400, "Missing request body"); (400, "Invalid request body");
    (404, "Not found"); (405, "Method not allowed"); (500, "Internal server error") ].

(** A success, or one of the error answers. *)
Definition known_response {RT : PyRuntime} (r : response) : Prop :=
  statusCode r = 200
  \/ exists (code : Z) (msg : string), (code, msg) ∈ error_table /\ r = error_response code msg.

(** The body of a healthy answer at the time [t]. *)
Definition healthy_body {RT : PyRuntime} (t : string) : string :=
  json_dumps (JObj [("status", JStr "healthy"); ("cache", JStr "connected");
                    ("timestamp", JStr t)]).

(** The outcomes of a POST on [/cache], by what the event holds and by
    how far the backend carries the batch: the answer and the world it
    leaves. With the body [event.get("body")]:
    - a body that is absent, null or empty;
    - a body that [json.loads] refuses;
    - a parsed body that the validation returns [False] on;
    - a parsed body that the validation raises on;
    - a valid batch that is stored to its end;
    - a valid batch that the backend fails on after some items. *)
Section PostOutcome.
Context {RT : PyRuntime}.

Inductive post_outcome (event : json) (w : world) : response -> world -> Prop :=
| post_missing (body : json) :
    get_method event "body" JNull = Ok body ->
    truthy body = false ->
    post_outcome event w
      (error_response 400 "Missing request body") (emitted "PostFail" 1 w)
| post_unparsed (body : json) (e : exn) :
    get_method event "body" JNull = Ok body ->
    truthy body = true ->
    loads_value body = Raise e ->
    post_outcome event w
      (error_response 500 "Internal server error") (logged "Unexpected error" w)
| post_invalid (body request_data : json) :
    get_method event "body" JNull = Ok body ->
    truthy body = true ->
    loads_value body = Ok request_data ->
    validate_post_body request_data = Ok false ->
    post_outcome event w
      (error_response 400 "Invalid request body") (emitted "PostFail" 1 w)
| post_unvalidated (body request_data : json) (e : exn) :
    get_method event "body" JNull = Ok body ->
    truthy body = true ->
    loads_value body = Ok request_data ->
    validate_post_body request_data = Raise e ->
    post_outcome event w
      (error_response 500 "Internal server error") (logged "Unexpected error" w)
| post_all_stored (body request_data : json) (items : list json) :
    get_method event "body" JNull = Ok body ->
    truthy body = true ->
    loads_value body = Ok request_data ->
    validate_post_body request_data = Ok true ->
    subscript request_data "puts" = Ok (JList items) ->
    stored_count (faults w) (length items) = length items ->
    post_outcome event w
      (stored_response w (length items))
      (emitted "PostSuccess" 1
         (store_all items (emitted "PostCount" (Z.of_nat (length items)) w)))
| post_interrupted (body request_data : json) (pre : list json) (item : json)
    (post : list json) :
    get_method event "body" JNull = Ok body ->
    truthy body = true ->
    loads_value body = Ok request_data ->
    validate_post_body request_data = Ok true ->
    subscript request_data "puts" = Ok (JList (pre ++ item :: post)) ->
    stored_count (faults w) (length (pre ++ item :: post)) = length pre ->
    post_outcome event w
      (error_response 500 "Cache error")
      (let w1 :=
         store_all pre
           (emitted "PostCount" (Z.of_nat (length (pre ++ item :: post))) w) in
       emitted "PostFail" 1 (logged "Redis error" (sent (setex_of item w1) (drawn w1)))).

End PostOutcome.

(** ** Worlds for the further examples *)

(** A world with the backend schedule [fs]. *)
Definition set_faults (fs : list bool) (w : world) : world :=
  World (db w) fs (calls w) (metrics w) (uuid_source w) (uuid_next w) (now w) (errors w).

(** A record with one field more than the module writes. *)
Definition ad_record : json :=
  JObj [("type", JStr "xml"); ("value", JStr "<ad/>"); ("source", JInt 7)].

(** A world whose cache holds the record above as bytes under "ad-1",
    bytes that are not UTF-8 under "raw", the JSON text of a list under
    "list", and a text that is not JSON under "broken". *)
Definition stocked_world : world :=
  World
    (<[ "ad-1" := (RBytes (list_byte_of_string (Ref.json_dumps ad_record)), 120) ]>
       (<[ "raw" := (RBytes [Byte.xff], 60) ]>
          (<[ "list" := (RStr "[1, 2]", 60) ]>
             (<[ "broken" := (RStr "<html>", 60) ]> ∅))))
    [] [] [] (fun n => "uuid-" +:+ pretty (Z.of_nat n)) 0 "2024-01-01 00:00:00 UTC" [].

(** An item whose lifetime is the float [Infinity]. *)
Definition endless_put : json := put "json" (JInt 1) (JFloat (S754_infinity false)).

(** An item whose type is a list. *)
Definition list_typed_put : json :=
  JObj [("type", JList [JStr "json"]); ("value", JInt 1); ("ttlseconds", JInt 300)].

(** * Properties *)

(** ** Basic facts *)

Lemma eq_str_true (v : json) (s : string) : eq_str v s = true <-> v = JStr s.
Proof.
  destruct v; simpl; try (split; [discriminate | intros [=]]).
  rewrite String.eqb_eq. split; [intros -> | intros [=]]; congruence.
Qed.

Lemma eq_str_false (v : json) (s : string) : eq_str v s = false <-> v <> JStr s.
Proof.
  rewrite <- eq_str_true. destruct (eq_str v s); split; congruence.
Qed.

Lemma subscript_ok_dict (v : json) (k : string) (x : json) :
  subscript v k = Ok x -> exists d, v = JObj d /\ dict_lookup d k = Some x.
Proof.
  destruct v; simpl; try discriminate.
  destruct (dict_lookup d k) eqn:E; intros [=]; subst. eauto.
Qed.

(** ** Running statements *)

Lemma bind_ok {A B : Type} (m : M A) (k : A -> M B) (w w' : world) (a : A) :
  m w = (Ok a, w') -> bind m k w = k a w'.
Proof. unfold bind. by intros ->. Qed.

Lemma bind_raise {A B : Type} (m : M A) (k : A -> M B) (w w' : world) (e : exn) :
  m w = (Raise e, w') -> bind m k w = (Raise e, w').
Proof. unfold bind. by intros ->. Qed.

Lemma bind_lift_ok {A B : Type} (r : res A) (k : A -> M B) (w : world) (a : A) :
  r = Ok a -> bind (lift r) k w = k a w.
Proof. by intros ->. Qed.

Lemma bind_lift_raise {A B : Type} (r : res A) (k : A -> M B) (w : world) (e : exn) :
  r = Raise e -> bind (lift r) k w = (Raise e, w).
Proof. by intros ->. Qed.

Lemma except_ok {A : Type} (m h : M A) (c : exn) (w w' : world) (a : A) :
  m w = (Ok a, w') -> except m c h w = (Ok a, w').
Proof. unfold except. by intros ->. Qed.

Lemma except_caught {A : Type} (m h : M A) (c e : exn) (w w' : world) :
  m w = (Raise e, w') -> exn_isa e c = true -> except m c h w = h w'.
Proof. unfold except. by intros -> ->. Qed.

Lemma except_passed {A : Type} (m h : M A) (c e : exn) (w w' : world) :
  m w = (Raise e, w') -> exn_isa e c = false -> except m c h w = (Raise e, w').
Proof. unfold except. by intros -> ->. Qed.

Lemma except_all_ext {A : Type} (m m' h : M A) (w : world) :
  m w = m' w -> except_all m h w = except_all m' h w.
Proof. unfold except_all. by intros ->. Qed.

Lemma except_all_ok {A : Type} (m h : M A) (w w' : world) (a : A) :
  m w = (Ok a, w') -> except_all m h w = (Ok a, w').
Proof. unfold except_all. by intros ->. Qed.

Lemma except_all_caught {A : Type} (m h : M A) (e : exn) (w w' : world) :
  m w = (Raise e, w') -> except_all m h w = h w'.
Proof. unfold except_all. by intros ->. Qed.

Lemma send_ok (c : call) (w : world) :
  next_ok w = true -> send c w = (Ok tt, sent c w).
Proof.
  unfold next_ok, send. by destruct (faults w) as [|[] ?].
Qed.

Lemma send_fault (c : call) (w : world) :
  next_ok w = false -> send c w = (Raise RedisError, sent c w).
Proof.
  unfold next_ok, send. by destruct (faults w) as [|[] ?].
Qed.

Section Backend.
Context {RT : PyRuntime}.

Lemma redis_get_ok (key : json) (k : string) (w : world) :
  redis_key key = Some k -> next_ok w = true ->
  redis_get key w = (get_reply (db w !! k), sent (Get k) w).
Proof.
  intros Hk Hup. unfold redis_get. rewrite Hk.
  by rewrite (bind_ok _ _ _ _ _ (send_ok _ _ Hup)).
Qed.

Lemma redis_get_missing (key : json) (k : string) (w : world) :
  redis_key key = Some k -> next_ok w = true -> db w !! k = None ->
  redis_get key w = (Ok None, sent (Get k) w).
Proof. intros Hk Hup Hdb. rewrite (redis_get_ok _ _ _ Hk Hup), Hdb. reflexivity. Qed.

Lemma redis_get_text (key : json) (k : string) (raw : rvalue) (t : Z) (s : string)
    (w : world) :
  redis_key key = Some k -> next_ok w = true ->
  db w !! k = Some (raw, t) -> entry_text raw = Some s ->
  redis_get key w = (Ok (Some (RStr s)), sent (Get k) w).
Proof.
  intros Hk Hup Hdb Hs. rewrite (redis_get_ok _ _ _ Hk Hup), Hdb.
  destruct raw as [s'|b]; simpl in *.
  - by injection Hs as ->.
  - by rewrite Hs.
Qed.

Lemma redis_get_undecodable (key : json) (k : string) (raw : rvalue) (t : Z) (w : world) :
  redis_key key = Some k -> next_ok w = true ->
  db w !! k = Some (raw, t) -> entry_text raw = None ->
  redis_get key w = (Raise UnicodeDecodeError, sent (Get k) w).
Proof.
  intros Hk Hup Hdb Hs. rewrite (redis_get_ok _ _ _ Hk Hup), Hdb.
  destruct raw as [s'|b]; simpl in *; [done|]. by rewrite Hs.
Qed.

Lemma redis_get_fault (key : json) (k : string) (w : world) :
  redis_key key = Some k -> next_ok w = false ->
  redis_get key w = (Raise RedisError, sent (Get k) w).
Proof.
  intros Hk Hup. unfold redis_get. rewrite Hk.
  by rewrite (bind_raise _ _ _ _ _ (send_fault _ _ Hup)).
Qed.

Lemma redis_ttl_ok (key : json) (k : string) (w : world) :
  redis_key key = Some k -> next_ok w = true ->
  redis_ttl key w = (Ok (default (-2) (snd <$> db w !! k)), sent (Ttl k) w).
Proof.
  intros Hk Hup. unfold redis_ttl. rewrite Hk.
  by rewrite (bind_ok _ _ _ _ _ (send_ok _ _ Hup)).
Qed.

Lemma redis_setex_ok (key : string) (ttl : Z) (value : string) (w : world) :
  next_ok w = true -> 0 < ttl ->
  redis_setex key ttl value w =
    (Ok tt, set_db (insert key (RStr value, ttl)) (sent (Setex key ttl value) w)).
Proof.
  intros Hup Httl. unfold redis_setex.
  rewrite (bind_ok _ _ _ _ _ (send_ok _ _ Hup)).
  destruct (Z.leb_spec ttl 0); [lia|done].
Qed.

Lemma redis_setex_fault (key : string) (ttl : Z) (value : string) (w : world) :
  next_ok w = false ->
  redis_setex key ttl value w = (Raise RedisError, sent (Setex key ttl value) w).
Proof.
  intros Hup. unfold redis_setex.
  by rewrite (bind_raise _ _ _ _ _ (send_fault _ _ Hup)).
Qed.

End Backend.

Section Routing.
Context {RT : PyRuntime}.

Lemma handler_total (event : json) (w : world) :
  exists r w', handler event w = (Ok r, w').
Proof.
  unfold handler, except_all. destruct (route event w) as [[r|e] w']; eauto.
Qed.

Lemma route_health (event : json) (w : world) :
  subscript event "path" = Ok (JStr "/cache/health") ->
  route event w = handle_health_check w.
Proof. intros Hp. unfold route, bind, lift. rewrite Hp. reflexivity. Qed.

Lemma route_unknown_path (event path : json) (w : world) :
  subscript event "path" = Ok path ->
  path <> JStr "/cache/health" -> path <> JStr "/cache" ->
  route event w = (Ok (error_response 404 "Not found"), w).
Proof.
  intros Hp H1 H2. unfold route, bind, lift. rewrite Hp.
  apply eq_str_false in H1, H2. rewrite H1, H2. reflexivity.
Qed.

Lemma route_cache (event : json) (w : world) :
  subscript event "path" = Ok (JStr "/cache") ->
  route event w =
    match subscript event "httpMethod" with
    | Ok m =>
        if eq_str m "GET" then handle_get_request event w
        else if eq_str m "POST" then handle_post_request event w
        else (Ok (error_response 405 "Method not allowed"), w)
    | Raise e => (Raise e, w)
    end.
Proof.
  intros Hp. unfold route, bind, lift. rewrite Hp. simpl.
  destruct (subscript event "httpMethod") as [m|e]; [|reflexivity].
  destruct (eq_str m "GET"); [reflexivity|].
  destruct (eq_str m "POST"); reflexivity.
Qed.

(** On the route GET /cache the router returns what the get handler
    returns, and answers 500 when it raises; likewise for POST. *)
Lemma handler_get (event : json) (w : world) :
  subscript event "path" = Ok (JStr "/cache") ->
  subscript event "httpMethod" = Ok (JStr "GET") ->
  handler event w = except_all (handle_get_request event) internal_error w.
Proof.
  intros Hp Hm. unfold handler, except_all. by rewrite (route_cache _ _ Hp), Hm.
Qed.

Lemma handler_post (event : json) (w : world) :
  subscript event "path" = Ok (JStr "/cache") ->
  subscript event "httpMethod" = Ok (JStr "POST") ->
  handler event w = except_all (handle_post_request event) internal_error w.
Proof.
  intros Hp Hm. unfold handler, except_all. by rewrite (route_cache _ _ Hp), Hm.
Qed.

Lemma internal_error_status (w : world) :
  internal_error w = (Ok (error_response 500 "Internal server error"), logged "Unexpected error" w).
Proof. reflexivity. Qed.

(** C3. The routing matrix of [handler].  A path equal to
    ["/cache/health"] goes to the health check whatever the method is; a
    path other than ["/cache"] and ["/cache/health"] gives 404; on
    ["/cache"], GET goes to the get handler, POST to the post handler and
    any other method gives 405; and a response with status 200 comes
    from one of the defined routes only. *)
Theorem routing_matrix (event : json) (w : world) :
  (subscript event "path" = Ok (JStr "/cache/health") ->
   handler event w = except_all handle_health_check internal_error w)
  /\ (forall path : json,
        subscript event "path" = Ok path ->
        path <> JStr "/cache" -> path <> JStr "/cache/health" ->
        handler event w = (Ok (error_response 404 "Not found"), w)
        /\ statusCode (error_response 404 "Not found") = 404)
  /\ (subscript event "path" = Ok (JStr "/cache") ->
      subscript event "httpMethod" = Ok (JStr "GET") ->
      handler event w = except_all (handle_get_request event) internal_error w)
  /\ (subscript event "path" = Ok (JStr "/cache") ->
      subscript event "httpMethod" = Ok (JStr "POST") ->
      handler event w = except_all (handle_post_request event) internal_error w)
  /\ (forall method : json,
        subscript event "path" = Ok (JStr "/cache") ->
        subscript event "httpMethod" = Ok method ->
        method <> JStr "GET" -> method <> JStr "POST" ->
        handler event w = (Ok (error_response 405 "Method not allowed"), w)
        /\ statusCode (error_response 405 "Method not allowed") = 405)
  /\ (forall (r : response) (w' : world),
        handler event w = (Ok r, w') -> statusCode r = 200 ->
        subscript event "path" = Ok (JStr "/cache/health")
        \/ (subscript event "path" = Ok (JStr "/cache")
            /\ (subscript event "httpMethod" = Ok (JStr "GET")
                \/ subscript event "httpMethod" = Ok (JStr "POST")))).
Proof.
  split; [|split; [|split; [|split; [|split]]]].
  - intros Hp. unfold handler, except_all. by rewrite (route_health _ _ Hp).
  - intros path Hp Hc Hh. split; [|done].
    unfold handler, except_all. by rewrite (route_unknown_path _ _ _ Hp Hh Hc).
  - apply handler_get.
  - apply handler_post.
  - intros method Hp Hm Hg Hpost. split; [|done].
    unfold handler, except_all. rewrite (route_cache _ _ Hp), Hm.
    apply eq_str_false in Hg, Hpost. by rewrite Hg, Hpost.
  - intros r w' Hrun Hst.
    destruct (subscript event "path") as [path|e] eqn:Hp.
    + destruct (eq_str path "/cache/health") eqn:E1.
      { apply eq_str_true in E1. subst. by left. }
      destruct (eq_str path "/cache") eqn:E2.
      * apply eq_str_true in E2. subst path. right. split; [done|].
        destruct (subscript event "httpMethod") as [m|e] eqn:Hm.
        -- destruct (eq_str m "GET") eqn:E3.
           { apply eq_str_true in E3. subst. by left. }
           destruct (eq_str m "POST") eqn:E4.
           { apply eq_str_true in E4. subst. by right. }
           exfalso. unfold handler, except_all in Hrun.
           rewrite (route_cache _ _ Hp), Hm, E3, E4 in Hrun.
           injection Hrun as <- <-. discriminate Hst.
        -- exfalso. unfold handler, except_all in Hrun.
           rewrite (route_cache _ _ Hp), Hm, internal_error_status in Hrun.
           injection Hrun as <- <-. discriminate Hst.
      * exfalso. apply eq_str_false in E1, E2.
        unfold handler, except_all in Hrun.
        rewrite (route_unknown_path _ _ _ Hp E1 E2) in Hrun.
        injection Hrun as <- <-. discriminate Hst.
    + exfalso. unfold handler, except_all, route, bind, lift in Hrun.
      rewrite Hp, internal_error_status in Hrun.
      injection Hrun as <- <-. discriminate Hst.
Qed.

End Routing.

(** ** The get handler *)

Lemma get_method_subscript (v : json) (k : string) (x dflt : json) :
  subscript v k = Ok x -> get_method v k dflt = Ok x.
Proof.
  intros (d & -> & Hd)%subscript_ok_dict. simpl. by rewrite Hd.
Qed.

Section GetHandlerFacts.
Context {RT : PyRuntime}.

(** The get handler on an event whose query parameters hold a uuid. *)
Lemma handle_get_with_key (event : json) (q : list (string * json)) (key : json) (w : world) :
  subscript event "queryStringParameters" = Ok (JObj q) ->
  dict_lookup q "uuid" = Some key ->
  truthy key = true ->
  handle_get_request event w =
    except
      (value <- redis_get key ;;
       match value with
       | None =>
           put_metrics_count_value_1 "GetNotFound" ;;;
           ret (error_response 404 "Uuid not found")
       | Some (RBytes b) =>
           match utf8_decode b with
           | None =>
               logger_error "Unicode decode error" ;;;
               ret (error_response 500 "Invalid encoding in cached value")
           | Some s => get_parsed key s
           end
       | Some (RStr s) => get_parsed key s
       end)%py
      RedisError
      (logger_error "Redis error" ;;;
       ret (error_response 500 "Cache error"))%py w.
Proof.
  intros Hq Hk Ht. unfold handle_get_request, bind at 1 2, lift.
  rewrite (get_method_subscript _ _ _ _ Hq). simpl. rewrite Hk. simpl.
  by rewrite Ht.
Qed.

(** Whatever the get handler does after a lookup that found a value
    which is not a cached record, the router answers 500. *)
Lemma get_parsed_corrupted (key : json) (s : string) (w : world) :
  match json_loads s with
  | Ok (JObj d) => has_key d "type" && has_key d "value"
  | _ => false
  end = false ->
  (exists r, get_parsed key s w = (Ok r, w) /\ statusCode r = 500)
  \/ (exists e, json_loads s = Raise e /\ exn_isa e JSONDecodeError = false
               /\ get_parsed key s w = (Raise e, w)).
Proof.
  intros Hbad. unfold get_parsed, except, bind at 1, lift.
  destruct (json_loads s) as [v|e] eqn:Hl.
  - left. destruct v; try (eexists; split; reflexivity).
    apply andb_false_iff in Hbad.
    assert (negb (has_key d "type") || negb (has_key d "value") = true) as ->.
    { destruct Hbad as [->| ->]; simpl; [|rewrite orb_true_r]; reflexivity. }
    eexists; split; reflexivity.
  - destruct (exn_isa e JSONDecodeError) eqn:He.
    + left. eexists. split; reflexivity.
    + right. exists e. unfold bind. simpl. by rewrite He.
Qed.

(** C4. Not found against corrupted.  On GET /cache with a uuid: when
    the backend returns no value the response is 404 with the body
    [{"error": "Uuid not found"}] (and the counter GetNotFound is
    emitted); when the raw value stored under the uuid does not parse as
    a JSON object with the fields "type" and "value", the response is
    500. *)
Theorem get_not_found_vs_corrupted
    (event : json) (q : list (string * json)) (key : json) (k : string) (w : world) :
  subscript event "path" = Ok (JStr "/cache") ->
  subscript event "httpMethod" = Ok (JStr "GET") ->
  subscript event "queryStringParameters" = Ok (JObj q) ->
  dict_lookup q "uuid" = Some key ->
  truthy key = true ->
  redis_key key = Some k ->
  (next_ok w = true -> db w !! k = None ->
   handler event w =
     (Ok (error_response 404 "Uuid not found"), emitted "GetNotFound" 1 (sent (Get k) w))
   /\ statusCode (error_response 404 "Uuid not found") = 404)
  /\ (forall (raw : rvalue) (t : Z),
        db w !! k = Some (raw, t) -> is_cached_record raw = false ->
        exists (r : response) (w' : world),
          handler event w = (Ok r, w') /\ statusCode r = 500).
Proof.
  intros Hp Hm Hq Hk Ht Hkey.
  rewrite (handler_get _ _ Hp Hm).
  rewrite (except_all_ext _ _ _ _ (handle_get_with_key _ _ _ _ Hq Hk Ht)).
  split.
  - intros Hup Hdb. split; [|done].
    apply except_all_ok, except_ok.
    by rewrite (bind_ok _ _ _ _ _ (redis_get_missing _ _ _ Hkey Hup Hdb)).
  - intros raw t Hdb Hbad.
    destruct (next_ok w) eqn:Hup.
    2: { erewrite except_all_ok.
         2: { erewrite except_caught;
                [reflexivity | apply bind_raise, (redis_get_fault _ _ _ Hkey Hup) | done]. }
         by eexists _, _. }
    assert (forall s, entry_text raw = Some s ->
              exists r w',
                except_all
                  (except (get_parsed key s) RedisError
                     (logger_error "Redis error" ;;;
                      ret (error_response 500 "Cache error"))%py)
                  internal_error (sent (Get k) w) = (Ok r, w')
                /\ statusCode r = 500) as Hs.
    { intros s Hs. unfold is_cached_record in Hbad. rewrite Hs in Hbad.
      destruct (get_parsed_corrupted key s (sent (Get k) w) Hbad)
        as [(r & Hrun & Hr)|(e & _ & _ & Hrun)].
      - eexists _, _. split; [|exact Hr].
        by apply except_all_ok, except_ok.
      - destruct (exn_isa e RedisError) eqn:He.
        + erewrite except_all_ok.
          2: { erewrite except_caught; [reflexivity | exact Hrun | exact He]. }
          by eexists _, _.
        + erewrite except_all_caught; [|by eapply except_passed].
          by eexists _, _. }
    destruct (entry_text raw) as [s|] eqn:Htext.
    + unfold except_all, except in *.
      rewrite (bind_ok _ _ _ _ _ (redis_get_text _ _ _ _ _ _ Hkey Hup Hdb Htext)).
      by apply Hs.
    + erewrite except_all_caught; [by eexists _, _|].
      eapply except_passed;
        [apply bind_raise, (redis_get_undecodable _ _ _ _ _ Hkey Hup Hdb Htext)|done].
Qed.

(** A GET on /cache without a uuid: the parameters are absent from the
    event, or they are a map in which "uuid" is absent or empty.  The
    response is 400 and the world is untouched: nothing is sent to the
    backend. *)
Lemma get_without_uuid (event : json) (q : list (string * json)) (w : world) :
  subscript event "path" = Ok (JStr "/cache") ->
  subscript event "httpMethod" = Ok (JStr "GET") ->
  get_method event "queryStringParameters" (JObj []) = Ok (JObj q) ->
  truthy (default JNull (dict_lookup q "uuid")) = false ->
  handler event w = (Ok (error_response 400 "Missing uuid parameter"), w).
Proof.
  intros Hp Hm Hq Hk. rewrite (handler_get _ _ Hp Hm).
  apply except_all_ok. unfold handle_get_request.
  rewrite (bind_lift_ok _ _ _ _ Hq). simpl. unfold bind, lift. by rewrite Hk.
Qed.

(** C7, at the event API Gateway sends for a request without a query
    string: [queryStringParameters] is null.  The uuid is missing, and
    the response is 500, not 400; the world shows that nothing went to
    the backend. *)
Theorem null_query_string_is_500 (w : world) :
  handler (http_event "GET" "/cache" JNull JNull) w =
    (Ok (error_response 500 "Internal server error"), logged "Unexpected error" w)
  /\ statusCode (error_response 500 "Internal server error") = 500
  /\ calls (logged "Unexpected error" w) = calls w.
Proof. by repeat split. Qed.

(** C8. On GET /cache with [queryStringParameters] present and null,
    the get handler raises [AttributeError]; the router catches it and
    answers 500 with the body [{"error": "Internal server error"}], not
    the 400 of a missing uuid. *)
Theorem get_null_parameters (event : json) (w : world) :
  subscript event "path" = Ok (JStr "/cache") ->
  subscript event "httpMethod" = Ok (JStr "GET") ->
  subscript event "queryStringParameters" = Ok JNull ->
  handle_get_request event w = (Raise AttributeError, w)
  /\ handler event w =
       (Ok (error_response 500 "Internal server error"), logged "Unexpected error" w)
  /\ statusCode (error_response 500 "Internal server error") = 500
  /\ handler event w <> (Ok (error_response 400 "Missing uuid parameter"), w).
Proof.
  intros Hp Hm Hq.
  assert (handle_get_request event w = (Raise AttributeError, w)) as Hget.
  { unfold handle_get_request.
    by rewrite (bind_lift_ok _ _ _ _ (get_method_subscript _ _ _ (JObj []) Hq)). }
  assert (handler event w =
            (Ok (error_response 500 "Internal server error"), logged "Unexpected error" w))
    as Hrun.
  { rewrite (handler_get _ _ Hp Hm). by rewrite (except_all_caught _ _ _ _ _ Hget). }
  repeat split; [done..|].
  rewrite Hrun. intros [=].
Qed.

End GetHandlerFacts.

(** ** Validation *)

Section ValidationFacts.
Context {RT : PyRuntime}.

Lemma allowed_type_cases (ty : string) :
  ty ∈ ALLOWED_TYPES -> ty = "xml" \/ ty = "json".
Proof. unfold ALLOWED_TYPES. set_solver. Qed.

Lemma allowed_type_lower (ty : string) :
  ty ∈ ALLOWED_TYPES -> str_lower ty = ty.
Proof. by intros [-> | ->]%allowed_type_cases. Qed.

(** What [validate_post_ttlseconds] accepts. *)
Lemma validate_post_ttlseconds_true (v : json) :
  validate_post_ttlseconds v = Ok true <->
  exists n, py_int v = Ok n /\ 0 < n <= TTL_MAX_SECONDS.
Proof.
  unfold validate_post_ttlseconds, res_except, res_bind.
  destruct (py_int v) as [n|e]; simpl.
  - destruct (Z.leb_spec n 0), (Z.gtb_spec n TTL_MAX_SECONDS); simpl.
    all: split; [|intros (m & [= <-] & ?)]; try lia; try done.
    intros _. exists n. split; [done|lia].
  - split; [|by intros (? & ? & ?)].
    destruct (exn_isa e ValueError); discriminate.
Qed.

(** What [validate_post_ttlseconds] refuses by returning [False]: a
    value that [int()] turns into an integer outside (0, 3600], and a
    value on which [int()] raises [ValueError]. *)
Lemma validate_post_ttlseconds_false (v : json) :
  (exists n, py_int v = Ok n /\ (n <= 0 \/ TTL_MAX_SECONDS < n))
  \/ py_int v = Raise ValueError ->
  validate_post_ttlseconds v = Ok false.
Proof.
  unfold validate_post_ttlseconds, res_except, res_bind.
  intros [(n & -> & Hn)| ->]; [|done].
  destruct (Z.leb_spec n 0), (Z.gtb_spec n TTL_MAX_SECONDS); simpl; try done. lia.
Qed.

(** What [validate_post_item] accepts. *)
Lemma validate_post_item_true (item : json) :
  validate_post_item item = Ok true <->
  exists d ty v t n,
    item = JObj d
    /\ dict_lookup d "type" = Some (JStr ty) /\ ty ∈ ALLOWED_TYPES
    /\ dict_lookup d "value" = Some v
    /\ dict_lookup d "ttlseconds" = Some t
    /\ py_int t = Ok n /\ 0 < n <= TTL_MAX_SECONDS.
Proof.
  split.
  - destruct item as [| | | | |?|d]; try discriminate. simpl.
    unfold has_key.
    destruct (dict_lookup d "type") as [ty|] eqn:Hty; [|discriminate].
    destruct (dict_lookup d "value") as [v|] eqn:Hv; [|discriminate].
    simpl. unfold res_bind at 1.
    destruct ty as [| | | |ty| |]; simpl; try discriminate.
    case_bool_decide as Hin; [|discriminate]. simpl.
    destruct (dict_lookup d "ttlseconds") as [t|] eqn:Ht; simpl.
    + unfold res_bind at 1.
      destruct (validate_post_ttlseconds t) as [[]|] eqn:Hvt; try discriminate.
      intros _. apply validate_post_ttlseconds_true in Hvt as (n & Hn & Hr).
      by exists d, ty, v, t, n.
    + discriminate.
  - intros (d & ty & v & t & n & -> & Hty & Hin & Hv & Ht & Hn & Hr).
    simpl. unfold has_key. rewrite Hty, Hv. simpl.
    rewrite bool_decide_true by done. simpl. rewrite Ht. simpl.
    assert (validate_post_ttlseconds t = Ok true) as ->; [|done].
    apply validate_post_ttlseconds_true. eauto.
Qed.

Lemma validate_post_puts_true (puts : list json) :
  validate_post_puts puts = Ok true <->
  Forall (fun item => validate_post_item item = Ok true) puts.
Proof.
  induction puts as [|item rest IH]; simpl.
  - split; [constructor|done].
  - unfold res_bind. destruct (validate_post_item item) as [[]|e] eqn:E; simpl.
    + rewrite IH. split; [by constructor|by inversion 1].
    + split; [discriminate|]. inversion 1; congruence.
    + split; [discriminate|]. inversion 1; congruence.
Qed.

Lemma validate_post_body_true (request_data : json) :
  validate_post_body request_data = Ok true <->
  exists d puts,
    request_data = JObj d
    /\ dict_lookup d "puts" = Some (JList puts)
    /\ validate_post_puts puts = Ok true.
Proof.
  split.
  - destruct request_data as [| | | | |?|d]; try discriminate. simpl.
    destruct (dict_lookup d "puts") as [[| | | | |puts|]|] eqn:Hp; try discriminate.
    unfold res_bind. destruct (validate_post_puts puts) as [[]|] eqn:E; try discriminate.
    intros _. by exists d, puts.
  - intros (d & puts & -> & Hp & Hv). simpl. by rewrite Hp, Hv.
Qed.

Lemma bad_item_refused (item : json) :
  bad_item item -> validate_post_item item = Ok false.
Proof.
  intros [v Hv|d Hty|d Hval|d ty Hty Hin].
  - destruct v; try done. by destruct (Hv d).
  - simpl. unfold has_key. by rewrite Hty.
  - simpl. unfold has_key. rewrite Hval. simpl. by rewrite orb_true_r.
  - simpl. unfold has_key. rewrite Hty.
    destruct (dict_lookup d "value"); [|done]. simpl. by rewrite Hin.
Qed.

Lemma validate_post_puts_refused (pre : list json) (item : json) (post : list json) :
  validate_post_puts pre = Ok true ->
  validate_post_item item = Ok false ->
  validate_post_puts (pre ++ item :: post) = Ok false.
Proof.
  intros Hpre Hitem. induction pre as [|first pre IH]; simpl in *.
  - by rewrite Hitem.
  - unfold res_bind in *.
    destruct (validate_post_item first) as [[]|]; simpl in *; try discriminate.
    by apply IH.
Qed.

(** Validation returns [False] on a bad body. *)
Lemma bad_body_refused (request_data : json) :
  bad_body request_data -> validate_post_body request_data = Ok false.
Proof.
  intros [v Hv|d Hp|d puts Hp Hl|d pre item post Hp Hpre Hbad].
  - destruct v; try done. by destruct (Hv d).
  - simpl. by rewrite Hp.
  - simpl. rewrite Hp. destruct puts; try done. by destruct (Hl l).
  - simpl. rewrite Hp.
    by rewrite (validate_post_puts_refused _ _ _ Hpre (bad_item_refused _ Hbad)).
Qed.

End ValidationFacts.

(** ** The storage loop *)

Section StorageFacts.
Context {RT : PyRuntime}.

(** A valid item is stored with its effective lifetime, which lies in
    (0, 3600], and its record holds its type, which [lower] leaves as it
    is, and its value. *)
Lemma valid_item_stored (item : json) :
  validate_post_item item = Ok true ->
  resolve_ttl item = Ok (effective_ttl item)
  /\ 0 < effective_ttl item <= TTL_MAX_SECONDS
  /\ exists (ty : string) (v : json),
       subscript item "type" = Ok (JStr ty)
       /\ subscript item "value" = Ok v
       /\ cache_value_of item = Ok (cached_record ty v).
Proof.
  intros (d & ty & v & t & n & -> & Hty & Hin & Hv & Ht & Hn & Hr)%validate_post_item_true.
  unfold resolve_ttl, effective_ttl, cache_value_of. simpl.
  rewrite Ht, Hty, Hv. simpl. rewrite Hn, (allowed_type_lower _ Hin). simpl.
  destruct (Z.leb_spec n 0); [lia|]. destruct (Z.gtb_spec n TTL_MAX_SECONDS); [lia|].
  destruct (Z.ltb_spec 0 n); [|lia]. destruct (Z.leb_spec n TTL_MAX_SECONDS); [|lia].
  simpl. eauto 10.
Qed.

Lemma store_item_ok (item : json) (w : world) :
  validate_post_item item = Ok true -> next_ok w = true ->
  store_item item w = (Ok (JObj [("uuid", JStr (next_key w))]), stored_item item w).
Proof.
  intros (Httl & Hr & ty & v & _ & _ & Hcv)%valid_item_stored Hup. unfold store_item.
  rewrite (bind_lift_ok _ _ _ _ Httl). unfold bind at 1, uuid4.
  rewrite (bind_lift_ok _ _ _ _ Hcv).
  rewrite (bind_ok _ _ _ _ _ (redis_setex_ok _ _ _ (drawn w) Hup (proj1 Hr))).
  unfold stored_item, setex_of, entry_of, next_key. by rewrite Hcv.
Qed.

Lemma store_item_fault (item : json) (w : world) :
  validate_post_item item = Ok true -> next_ok w = false ->
  store_item item w = (Raise RedisError, sent (setex_of item w) (drawn w)).
Proof.
  intros (Httl & Hr & ty & v & _ & _ & Hcv)%valid_item_stored Hup. unfold store_item.
  rewrite (bind_lift_ok _ _ _ _ Httl). unfold bind at 1, uuid4.
  rewrite (bind_lift_ok _ _ _ _ Hcv).
  rewrite (bind_raise _ _ _ _ _ (redis_setex_fault _ _ _ (drawn w) Hup)).
  unfold setex_of, entry_of, next_key. by rewrite Hcv.
Qed.

Lemma stored_count_ok (w : world) (n : nat) :
  next_ok w = true ->
  stored_count (faults w) (S n) = S (stored_count (tail (faults w)) n).
Proof. unfold next_ok, stored_count. by destruct (faults w) as [|[] ?]. Qed.

Lemma stored_count_fault (w : world) (n : nat) :
  next_ok w = false -> stored_count (faults w) (S n) = O.
Proof. unfold next_ok, stored_count. by destruct (faults w) as [|[] ?]. Qed.

Lemma stored_count_le (fs : list bool) (n : nat) : (stored_count fs n <= n)%nat.
Proof.
  revert fs. induction n as [|n IH]; intros fs; unfold stored_count; [lia|].
  fold stored_count. destruct fs as [|[] fs]; cbn [tail];
    [specialize (IH []); lia | lia | specialize (IH fs); lia].
Qed.

Lemma batch_keys_succ (item : json) (w : world) (n : nat) :
  batch_keys w (S n) = next_key w :: batch_keys (stored_item item w) n.
Proof.
  unfold batch_keys, next_key. simpl. rewrite Nat.add_0_r.
  f_equal. rewrite <- seq_shift, map_map.
  apply map_ext. intros j. f_equal. lia.
Qed.

Lemma responses_of_succ (item : json) (w : world) (n : nat) :
  responses_of w (S n) =
    JObj [("uuid", JStr (next_key w))] :: responses_of (stored_item item w) n.
Proof. unfold responses_of. by rewrite (batch_keys_succ item). Qed.

(** The loop stores every item when the backend fails on none. *)
Lemma store_items_all (items : list json) (responses : list json) (w : world) :
  Forall (fun item => validate_post_item item = Ok true) items ->
  stored_count (faults w) (length items) = length items ->
  store_items items responses w =
    (Ok (responses ++ responses_of w (length items))%list, store_all items w).
Proof.
  intros Hv. revert responses w.
  induction Hv as [|item rest Hi _ IH]; intros responses w Hc; simpl in *.
  - by rewrite app_nil_r.
  - destruct (next_ok w) eqn:Hup.
    2: { rewrite (stored_count_fault _ _ Hup) in Hc. discriminate. }
    rewrite (stored_count_ok _ _ Hup) in Hc. injection Hc as Hc.
    rewrite (bind_ok _ _ _ _ _ (store_item_ok _ _ Hi Hup)).
    rewrite IH by done.
    by rewrite (responses_of_succ item), <- app_assoc.
Qed.

(** The loop stops at the item on which the backend fails; the items
    before it are stored. *)
Lemma store_items_stop (pre : list json) (item : json) (post : list json)
    (responses : list json) (w : world) :
  Forall (fun item => validate_post_item item = Ok true) (pre ++ item :: post) ->
  stored_count (faults w) (length (pre ++ item :: post)) = length pre ->
  store_items (pre ++ item :: post) responses w =
    (Raise RedisError, sent (setex_of item (store_all pre w)) (drawn (store_all pre w))).
Proof.
  revert responses w.
  induction pre as [|first pre IH]; intros responses w Hv Hc; simpl in *.
  - apply Forall_cons in Hv as [Hi _].
    destruct (next_ok w) eqn:Hup.
    { rewrite (stored_count_ok _ _ Hup) in Hc. discriminate. }
    by rewrite (bind_raise _ _ _ _ _ (store_item_fault _ _ Hi Hup)).
  - apply Forall_cons in Hv as [Hi Hv].
    destruct (next_ok w) eqn:Hup.
    2: { rewrite (stored_count_fault _ _ Hup) in Hc. discriminate. }
    rewrite (stored_count_ok _ _ Hup) in Hc. injection Hc as Hc.
    rewrite (bind_ok _ _ _ _ _ (store_item_ok _ _ Hi Hup)).
    by apply IH.
Qed.

(** *** The world after a batch *)

Lemma store_all_metrics (items : list json) (w : world) :
  metrics (store_all items w) = metrics w.
Proof. revert w. induction items as [|item rest IH]; intros w; simpl; [done|by rewrite IH]. Qed.

Lemma store_all_calls (items : list json) (w : world) :
  calls (store_all items w) = (calls w ++ setex_calls w items)%list.
Proof.
  revert w. induction items as [|item rest IH]; intros w; simpl.
  - by rewrite app_nil_r.
  - rewrite IH. unfold setex_calls. simpl length.
    rewrite (batch_keys_succ item). simpl. by rewrite <- app_assoc.
Qed.

Lemma store_all_db_other (items : list json) (w : world) (k : string) :
  k ∉ batch_keys w (length items) ->
  db (store_all items w) !! k = db w !! k.
Proof.
  revert w. induction items as [|item rest IH]; intros w Hk; simpl; [done|].
  simpl length in Hk. rewrite (batch_keys_succ item) in Hk.
  apply not_elem_of_cons in Hk as [Hne Hk].
  rewrite IH by done. simpl. by rewrite lookup_insert_ne.
Qed.

(** With distinct keys every item of the batch is found under its key. *)
Lemma store_all_db_lookup (items : list json) (w : world) (j : nat) (item : json) :
  NoDup (batch_keys w (length items)) ->
  items !! j = Some item ->
  db (store_all items w) !! uuid_source w (uuid_next w + j)%nat =
    Some (RStr (entry_of item), effective_ttl item).
Proof.
  revert w j. induction items as [|first rest IH]; intros w j Hnd Hj; [done|].
  simpl length in Hnd. rewrite (batch_keys_succ first) in Hnd.
  apply NoDup_cons in Hnd as [Hfresh Hnd]. simpl.
  destruct j as [|j]; simpl in Hj.
  - injection Hj as ->. rewrite Nat.add_0_r.
    rewrite store_all_db_other by done. simpl. by rewrite lookup_insert_eq.
  - rewrite <- (IH (stored_item first w) j Hnd Hj). simpl.
    do 2 f_equal. lia.
Qed.

Lemma setex_calls_ttl (w : world) (items : list json) :
  map call_ttl (setex_calls w items) = map (fun item => Some (effective_ttl item)) items.
Proof.
  revert w. induction items as [|item rest IH]; intros w; [done|].
  unfold setex_calls. simpl length. rewrite (batch_keys_succ item). simpl.
  f_equal. apply IH.
Qed.

End StorageFacts.

(** ** The post handler *)

Section PostHandlerFacts.
Context {RT : PyRuntime}.

Lemma truthy_str (b : string) : b <> "" -> truthy (JStr b) = true.
Proof.
  intros Hb. simpl. apply negb_true_iff. by apply String.eqb_neq.
Qed.

(** The post handler on a body that [json.loads] parses. *)
Lemma handle_post_parsed (event : json) (b : string) (request_data : json) (w : world) :
  subscript event "body" = Ok (JStr b) -> b <> "" ->
  json_loads b = Ok request_data ->
  handle_post_request event w =
    (valid <- lift (validate_post_body request_data) ;;
     if negb valid then
       put_metrics_count_value_1 "PostFail" ;;;
       ret (error_response 400 "Invalid request body")
     else
       except
         (puts <- lift (subscript request_data "puts") ;;
          item_count <- lift (py_len puts) ;;
          put_metrics_count_value_custom "PostCount" item_count ;;;
          items <- lift (py_iter puts) ;;
          responses <- store_items items [] ;;
          put_metrics_count_value_1 "PostSuccess" ;;;
          ret (Response 200 None (json_dumps (JObj [("responses", JList responses)]))))
         RedisError
         (logger_error "Redis error" ;;;
          put_metrics_count_value_1 "PostFail" ;;;
          ret (error_response 500 "Cache error")))%py w.
Proof.
  intros Hb Hne Hl. unfold handle_post_request.
  rewrite (bind_lift_ok _ _ _ _ (get_method_subscript _ _ _ JNull Hb)).
  rewrite (truthy_str _ Hne). cbn [negb loads_value].
  by rewrite (bind_lift_ok _ _ _ _ Hl).
Qed.

(** A body that validation refuses: 400, the counter PostFail, and
    nothing else changes: no command goes to the backend. *)
Lemma post_refused (event : json) (b : string) (request_data : json) (w : world) :
  subscript event "path" = Ok (JStr "/cache") ->
  subscript event "httpMethod" = Ok (JStr "POST") ->
  subscript event "body" = Ok (JStr b) -> b <> "" ->
  json_loads b = Ok request_data ->
  validate_post_body request_data = Ok false ->
  handler event w =
    (Ok (error_response 400 "Invalid request body"), emitted "PostFail" 1 w).
Proof.
  intros Hp Hm Hb Hne Hl Hv. rewrite (handler_post _ _ Hp Hm).
  apply except_all_ok. rewrite (handle_post_parsed _ _ _ _ Hb Hne Hl).
  by rewrite (bind_lift_ok _ _ _ _ Hv).
Qed.

(** The bad bodies of the specification are refused so: 400 with the
    body [{"error": "Invalid request body"}], the counter PostFail, and
    no item of the batch is stored. *)
Lemma post_bad_body (event : json) (b : string) (request_data : json) (w : world) :
  subscript event "path" = Ok (JStr "/cache") ->
  subscript event "httpMethod" = Ok (JStr "POST") ->
  subscript event "body" = Ok (JStr b) -> b <> "" ->
  json_loads b = Ok request_data ->
  bad_body request_data ->
  handler event w =
    (Ok (error_response 400 "Invalid request body"), emitted "PostFail" 1 w)
  /\ metrics (emitted "PostFail" 1 w) = (metrics w ++ [("PostFail", 1)])%list
  /\ calls (emitted "PostFail" 1 w) = calls w
  /\ db (emitted "PostFail" 1 w) = db w.
Proof.
  intros Hp Hm Hb Hne Hl Hbad. split; [|done].
  apply (post_refused _ _ _ _ Hp Hm Hb Hne Hl (bad_body_refused _ Hbad)).
Qed.

(** A body on which validation raises: the router answers 500, and
    nothing is emitted or sent. *)
Lemma post_validation_raises (event : json) (b : string) (request_data : json)
    (e : exn) (w : world) :
  subscript event "path" = Ok (JStr "/cache") ->
  subscript event "httpMethod" = Ok (JStr "POST") ->
  subscript event "body" = Ok (JStr b) -> b <> "" ->
  json_loads b = Ok request_data ->
  validate_post_body request_data = Raise e ->
  handler event w =
    (Ok (error_response 500 "Internal server error"), logged "Unexpected error" w).
Proof.
  intros Hp Hm Hb Hne Hl Hv. rewrite (handler_post _ _ Hp Hm).
  erewrite except_all_caught; [done|].
  rewrite (handle_post_parsed _ _ _ _ Hb Hne Hl).
  by rewrite (bind_lift_raise _ _ _ _ Hv).
Qed.

(** The post handler on a valid batch, up to the loop. *)
Lemma handle_post_valid (event : json) (b : string) (request_data : json)
    (items : list json) (w : world) :
  subscript event "body" = Ok (JStr b) -> b <> "" ->
  json_loads b = Ok request_data ->
  validate_post_body request_data = Ok true ->
  subscript request_data "puts" = Ok (JList items) ->
  handle_post_request event w =
    except
      (responses <- store_items items [] ;;
       put_metrics_count_value_1 "PostSuccess" ;;;
       ret (Response 200 None (json_dumps (JObj [("responses", JList responses)]))))%py
      RedisError
      (logger_error "Redis error" ;;;
       put_metrics_count_value_1 "PostFail" ;;;
       ret (error_response 500 "Cache error"))%py
      (emitted "PostCount" (Z.of_nat (length items)) w).
Proof.
  intros Hb Hne Hl Hv Hputs.
  rewrite (handle_post_parsed _ _ _ _ Hb Hne Hl).
  rewrite (bind_lift_ok _ _ _ _ Hv). cbn [negb].
  unfold except. by rewrite (bind_lift_ok _ _ _ _ Hputs).
Qed.

Lemma valid_body_items (request_data : json) (items : list json) :
  validate_post_body request_data = Ok true ->
  subscript request_data "puts" = Ok (JList items) ->
  Forall (fun item => validate_post_item item = Ok true) items.
Proof.
  intros (d & puts & -> & Hp & Hv)%validate_post_body_true Hs.
  simpl in Hs. rewrite Hp in Hs. injection Hs as ->.
  by apply validate_post_puts_true.
Qed.

(** A valid batch on a backend that fails on none of its items. *)
Lemma post_stored (event : json) (b : string) (request_data : json)
    (items : list json) (w : world) :
  subscript event "body" = Ok (JStr b) -> b <> "" ->
  json_loads b = Ok request_data ->
  validate_post_body request_data = Ok true ->
  subscript request_data "puts" = Ok (JList items) ->
  stored_count (faults w) (length items) = length items ->
  handle_post_request event w =
    (Ok (stored_response w (length items)),
     emitted "PostSuccess" 1
       (store_all items (emitted "PostCount" (Z.of_nat (length items)) w))).
Proof.
  intros Hb Hne Hl Hv Hputs Hc.
  rewrite (handle_post_valid _ _ _ _ _ Hb Hne Hl Hv Hputs).
  apply except_ok.
  pose proof (store_items_all _ []
                (emitted "PostCount" (Z.of_nat (length items)) w)
                (valid_body_items _ _ Hv Hputs) Hc) as Hrun.
  by rewrite (bind_ok _ _ _ _ _ Hrun).
Qed.

(** A valid batch on a backend that fails on the item after [pre]. *)
Lemma post_stopped (event : json) (b : string) (request_data : json)
    (pre : list json) (item : json) (post : list json) (w : world) :
  subscript event "body" = Ok (JStr b) -> b <> "" ->
  json_loads b = Ok request_data ->
  validate_post_body request_data = Ok true ->
  subscript request_data "puts" = Ok (JList (pre ++ item :: post)) ->
  stored_count (faults w) (length (pre ++ item :: post)) = length pre ->
  handle_post_request event w =
    (Ok (error_response 500 "Cache error"),
     let w1 := store_all pre (emitted "PostCount" (Z.of_nat (length (pre ++ item :: post))) w) in
     emitted "PostFail" 1 (logged "Redis error" (sent (setex_of item w1) (drawn w1)))).
Proof.
  intros Hb Hne Hl Hv Hputs Hc.
  rewrite (handle_post_valid _ _ _ _ _ Hb Hne Hl Hv Hputs).
  pose proof (store_items_stop _ _ _ []
                (emitted "PostCount" (Z.of_nat (length (pre ++ item :: post))) w)
                (valid_body_items _ _ Hv Hputs) Hc) as Hrun.
  by rewrite (except_caught _ _ RedisError _ _ _ (bind_raise _ _ _ _ _ Hrun) eq_refl).
Qed.

End PostHandlerFacts.

(** ** Batches *)

Section BatchFacts.
Context {RT : PyRuntime}.


Lemma store_all_uuid (items : list json) (w : world) :
  uuid_source (store_all items w) = uuid_source w
  /\ uuid_next (store_all items w) = (uuid_next w + length items)%nat.
Proof.
  revert w. induction items as [|item rest IH]; intros w; simpl.
  - split; [done|lia].
  - destruct (IH (stored_item item w)) as [-> ->]. simpl. split; [done|lia].
Qed.

Lemma batch_keys_app (w : world) (n : nat) :
  batch_keys w (S n) = (batch_keys w n ++ [uuid_source w (uuid_next w + n)%nat])%list.
Proof. unfold batch_keys. by rewrite seq_S, map_app. Qed.

Lemma batch_keys_length (w : world) (n : nat) : length (batch_keys w n) = n.
Proof. unfold batch_keys. by rewrite length_map, length_seq. Qed.

Lemma setex_of_store_all (w : world) (pre : list json) (item : json) :
  setex_of item (store_all pre w) =
    Setex (uuid_source w (uuid_next w + length pre)%nat) (effective_ttl item) (entry_of item).
Proof.
  unfold setex_of, next_key. by destruct (store_all_uuid pre w) as [-> ->].
Qed.

Lemma setex_calls_snoc (w : world) (pre : list json) (item : json) :
  setex_calls w (pre ++ [item]) =
    (setex_calls w pre ++ [setex_of item (store_all pre w)])%list.
Proof.
  rewrite setex_of_store_all. unfold setex_calls.
  rewrite length_app. simpl. rewrite Nat.add_1_r, batch_keys_app.
  rewrite zip_with_app by apply batch_keys_length. done.
Qed.

(** The commands of a valid batch: one [setex] for each item up to the
    first on which the backend fails, that one included, and no other
    command. *)
Lemma post_calls (event : json) (b : string) (request_data : json)
    (items : list json) (w : world) :
  subscript event "body" = Ok (JStr b) -> b <> "" ->
  json_loads b = Ok request_data ->
  validate_post_body request_data = Ok true ->
  subscript request_data "puts" = Ok (JList items) ->
  calls (handle_post_request event w).2 =
    (calls w ++ setex_calls w (take (S (stored_count (faults w) (length items))) items))%list.
Proof.
  intros Hb Hne Hl Hv Hputs.
  pose proof (stored_count_le (faults w) (length items)) as Hle.
  destruct (decide (stored_count (faults w) (length items) = length items)) as [Hc|Hc].
  - rewrite (post_stored _ _ _ _ _ Hb Hne Hl Hv Hputs Hc). simpl.
    rewrite store_all_calls, Hc, firstn_all2 by lia. done.
  - set (c := stored_count (faults w) (length items)) in *.
    destruct (lookup_lt_is_Some_2 items c) as [item Hitem]; [lia|].
    pose proof (take_drop_middle _ _ _ Hitem) as Hsplit.
    assert (length (take c items) = c) as Hlen by (rewrite length_take; lia).
    rewrite <- Hsplit in Hputs.
    assert (stored_count (faults w) (length (take c items ++ item :: drop (S c) items))
            = length (take c items)) as Hc' by (by rewrite Hsplit, Hlen).
    rewrite (post_stopped _ _ _ _ _ _ _ Hb Hne Hl Hv Hputs Hc'). simpl.
    rewrite store_all_calls. simpl. rewrite <- app_assoc. f_equal.
    rewrite (take_S_r _ _ _ Hitem), (setex_calls_snoc w).
    by rewrite !setex_of_store_all.
Qed.

(** The post handler returns on a valid batch, so the router returns
    its response. *)
Lemma post_returns (event : json) (b : string) (request_data : json)
    (items : list json) (w : world) :
  subscript event "path" = Ok (JStr "/cache") ->
  subscript event "httpMethod" = Ok (JStr "POST") ->
  subscript event "body" = Ok (JStr b) -> b <> "" ->
  json_loads b = Ok request_data ->
  validate_post_body request_data = Ok true ->
  subscript request_data "puts" = Ok (JList items) ->
  handler event w = handle_post_request event w.
Proof.
  intros Hp Hm Hb Hne Hl Hv Hputs. rewrite (handler_post _ _ Hp Hm).
  pose proof (stored_count_le (faults w) (length items)) as Hle.
  destruct (decide (stored_count (faults w) (length items) = length items)) as [Hc|Hc].
  - pose proof (post_stored _ _ _ _ _ Hb Hne Hl Hv Hputs Hc) as Hrun.
    by rewrite (except_all_ok _ _ _ _ _ Hrun).
  - set (c := stored_count (faults w) (length items)) in *.
    destruct (lookup_lt_is_Some_2 items c) as [item Hitem]; [lia|].
    pose proof (take_drop_middle _ _ _ Hitem) as Hsplit.
    assert (length (take c items) = c) as Hlen by (rewrite length_take; lia).
    rewrite <- Hsplit in Hputs.
    assert (stored_count (faults w) (length (take c items ++ item :: drop (S c) items))
            = length (take c items)) as Hc' by (by rewrite Hsplit, Hlen).
    pose proof (post_stopped _ _ _ _ _ _ _ Hb Hne Hl Hv Hputs Hc') as Hrun.
    by rewrite (except_all_ok _ _ _ _ _ Hrun).
Qed.

Lemma resolve_ttl_present (d : list (string * json)) (t : json) (n : Z) :
  dict_lookup d "ttlseconds" = Some t -> py_int t = Ok n ->
  resolve_ttl (JObj d) =
    Ok (if (0 <? n) && (n <=? TTL_MAX_SECONDS) then n else DEFAULT_TTL_SECONDS).
Proof.
  intros Ht Hn. unfold resolve_ttl. simpl. rewrite Ht. simpl. rewrite Hn. simpl.
  destruct (Z.leb_spec n 0), (Z.gtb_spec n TTL_MAX_SECONDS),
    (Z.ltb_spec 0 n), (Z.leb_spec n TTL_MAX_SECONDS); simpl; try done; lia.
Qed.

Lemma refused_lifetime_item (d : list (string * json)) (ty : string) (t : json) :
  dict_lookup d "type" = Some (JStr ty) -> ty ∈ ALLOWED_TYPES ->
  has_key d "value" = true ->
  dict_lookup d "ttlseconds" = Some t ->
  (exists n, py_int t = Ok n /\ (n <= 0 \/ TTL_MAX_SECONDS < n))
  \/ py_int t = Raise ValueError ->
  validate_post_item (JObj d) = Ok false.
Proof.
  intros Hty Hin Hval Ht Hbad.
  pose proof (validate_post_ttlseconds_false t Hbad) as Hvt.
  simpl. unfold has_key in *. rewrite Hty in *. rewrite Hval. simpl.
  rewrite bool_decide_true by done. simpl. rewrite Ht. simpl. by rewrite Hvt.
Qed.

(** C1, amended.  For a POST on /cache and the items of [puts] that
    have a ["ttlseconds"]:
    - when the body passes validation, [int(ttlseconds)] is in
      (0, 3600] for each of them and is the lifetime the item is stored
      with; the commands the handler sends carry these lifetimes, item
      by item, up to the first command that fails, and when none fails
      that is every item of [puts];
    - when the validation reaches an item (the items before it pass,
      and it is an object with a value and an allowed type) whose
      ["ttlseconds"] [int()] turns into an integer outside (0, 3600],
      or on which [int()] raises [ValueError], the request is answered
      400 [Invalid request body] and counted as a failed POST, nothing
      is sent to the backend and the cache is left as it was: the item
      is not stored with the default;
    - the storage step of the handler, on its own, takes
      [int(ttlseconds)] when it is in (0, 3600] and the default 300
      when it is not, with 300 and 3600 the constants
      [DEFAULT_TTL_SECONDS] and [TTL_MAX_SECONDS] of the module. *)
Theorem post_effective_ttl (event : json) (b : string) (request_data : json) (w : world) :
  subscript event "path" = Ok (JStr "/cache") ->
  subscript event "httpMethod" = Ok (JStr "POST") ->
  subscript event "body" = Ok (JStr b) -> b <> "" ->
  json_loads b = Ok request_data ->
  (forall items : list json,
     validate_post_body request_data = Ok true ->
     subscript request_data "puts" = Ok (JList items) ->
     Forall
       (fun item =>
          resolve_ttl item = Ok (effective_ttl item)
          /\ forall ttlseconds : json,
               subscript item "ttlseconds" = Ok ttlseconds ->
               exists n : Z,
                 py_int ttlseconds = Ok n /\ 0 < n <= TTL_MAX_SECONDS
                 /\ effective_ttl item = n)
       items
     /\ map call_ttl (drop (length (calls w)) (calls (handler event w).2)) =
          map (fun item => Some (effective_ttl item))
            (take (S (stored_count (faults w) (length items))) items)
     /\ (stored_count (faults w) (length items) = length items ->
          map call_ttl (drop (length (calls w)) (calls (handler event w).2)) =
            map (fun item => Some (effective_ttl item)) items))
  /\ (forall (pre : list json) (d : list (string * json)) (post : list json)
        (ty : string) (t : json),
        subscript request_data "puts" = Ok (JList (pre ++ JObj d :: post)) ->
        validate_post_puts pre = Ok true ->
        dict_lookup d "type" = Some (JStr ty) -> ty ∈ ALLOWED_TYPES ->
        has_key d "value" = true ->
        dict_lookup d "ttlseconds" = Some t ->
        (exists n : Z, py_int t = Ok n /\ (n <= 0 \/ TTL_MAX_SECONDS < n))
        \/ py_int t = Raise ValueError ->
        handler event w =
          (Ok (error_response 400 "Invalid request body"), emitted "PostFail" 1 w)
        /\ statusCode (error_response 400 "Invalid request body") = 400
        /\ metrics (emitted "PostFail" 1 w) = (metrics w ++ [("PostFail", 1)])%list
        /\ calls (emitted "PostFail" 1 w) = calls w
        /\ db (emitted "PostFail" 1 w) = db w)
  /\ (forall (d : list (string * json)) (t : json) (n : Z),
        dict_lookup d "ttlseconds" = Some t -> py_int t = Ok n ->
        resolve_ttl (JObj d) =
          Ok (if (0 <? n) && (n <=? TTL_MAX_SECONDS) then n else DEFAULT_TTL_SECONDS))
  /\ DEFAULT_TTL_SECONDS = 300 /\ TTL_MAX_SECONDS = 3600.
Proof.
  intros Hp Hm Hb Hne Hl. split_and!; [| | |reflexivity|reflexivity].
  - intros items Hv Hputs.
    assert (map call_ttl (drop (length (calls w)) (calls (handler event w).2)) =
              map (fun item => Some (effective_ttl item))
                (take (S (stored_count (faults w) (length items))) items)) as Hcalls.
    { rewrite (post_returns _ _ _ _ _ Hp Hm Hb Hne Hl Hv Hputs).
      rewrite (post_calls _ _ _ _ _ Hb Hne Hl Hv Hputs).
      by rewrite drop_app_length, setex_calls_ttl. }
    split; [|split; [done|]].
    + eapply Forall_impl; [apply (valid_body_items _ _ Hv Hputs)|].
      intros item Hi. split; [by apply valid_item_stored|].
      apply validate_post_item_true in Hi
        as (d & ty & v & t & n & -> & _ & _ & _ & Ht & Hn & Hr).
      intros ttlseconds Hs. simpl in Hs. rewrite Ht in Hs. injection Hs as <-.
      exists n. split_and!; try done; try apply Hr.
      unfold effective_ttl. rewrite Ht, Hn.
      assert ((0 <? n) && (n <=? TTL_MAX_SECONDS) = true) as ->; [|done].
      apply andb_true_iff. split; [apply Z.ltb_lt|apply Z.leb_le]; lia.
    + intros Hc. rewrite Hcalls, Hc. by rewrite firstn_all2 by lia.
  - intros pre d post ty t Hputs Hpre Hty Hin Hval Ht Hbad.
    pose proof (refused_lifetime_item _ _ _ Hty Hin Hval Ht Hbad) as Hitem.
    pose proof (validate_post_puts_refused pre (JObj d) post Hpre Hitem) as Hall.
    assert (validate_post_body request_data = Ok false) as Hbody.
    { apply subscript_ok_dict in Hputs as (rd & -> & Hlk). simpl.
      by rewrite Hlk, Hall. }
    rewrite (post_refused _ _ _ _ Hp Hm Hb Hne Hl Hbody). by repeat split.
  - intros d t n. apply resolve_ttl_present.
Qed.


(** C9. A POST on /cache whose body is a non-empty string on which
    [json.loads] raises: the post handler raises before it emits
    anything, the router answers 500 with the body
    [{"error": "Internal server error"}], and no PostFail counter is
    emitted; the answer is not the 400 of a failed validation. *)
Theorem post_malformed_json (event : json) (b : string) (e : exn) (w : world) :
  subscript event "path" = Ok (JStr "/cache") ->
  subscript event "httpMethod" = Ok (JStr "POST") ->
  subscript event "body" = Ok (JStr b) -> b <> "" ->
  json_loads b = Raise e ->
  handle_post_request event w = (Raise e, w)
  /\ handler event w =
       (Ok (error_response 500 "Internal server error"), logged "Unexpected error" w)
  /\ statusCode (error_response 500 "Internal server error") = 500
  /\ metrics (handler event w).2 = metrics w
  /\ (forall w' : world,
        handler event w <> (Ok (error_response 400 "Invalid request body"), w')).
Proof.
  intros Hp Hm Hb Hne Hl.
  assert (handle_post_request event w = (Raise e, w)) as Hpost.
  { unfold handle_post_request.
    rewrite (bind_lift_ok _ _ _ _ (get_method_subscript _ _ _ JNull Hb)).
    rewrite (truthy_str _ Hne). cbn [negb loads_value].
    by rewrite (bind_lift_raise _ _ _ _ Hl). }
  assert (handler event w =
            (Ok (error_response 500 "Internal server error"), logged "Unexpected error" w))
    as Hrun.
  { rewrite (handler_post _ _ Hp Hm). by rewrite (except_all_caught _ _ _ _ _ Hpost). }
  rewrite Hrun. by repeat split.
Qed.

(** C10, amended.  [validate_post_ttlseconds] catches [ValueError]
    only.  When validation reaches the check of [ttlseconds] in an item
    (the items before it are valid, and the item is an object with
    "type" and "value" whose type is allowed) and [int()] raises
    [TypeError] on the value, the exception leaves the validation, and
    the router answers 500 with the body
    [{"error": "Internal server error"}], not the 400 of a failed
    validation. *)
Theorem ttl_type_error_escapes
    (event : json) (b : string) (request_data : json)
    (pre : list json) (d : list (string * json)) (post : list json)
    (ty : string) (t : json) (w : world) :
  subscript event "path" = Ok (JStr "/cache") ->
  subscript event "httpMethod" = Ok (JStr "POST") ->
  subscript event "body" = Ok (JStr b) -> b <> "" ->
  json_loads b = Ok request_data ->
  subscript request_data "puts" = Ok (JList (pre ++ JObj d :: post)) ->
  validate_post_puts pre = Ok true ->
  dict_lookup d "type" = Some (JStr ty) -> ty ∈ ALLOWED_TYPES ->
  has_key d "value" = true ->
  dict_lookup d "ttlseconds" = Some t ->
  py_int t = Raise TypeError ->
  validate_post_ttlseconds t = Raise TypeError
  /\ validate_post_body request_data = Raise TypeError
  /\ handler event w =
       (Ok (error_response 500 "Internal server error"), logged "Unexpected error" w)
  /\ statusCode (error_response 500 "Internal server error") = 500
  /\ (forall w' : world,
        handler event w <> (Ok (error_response 400 "Invalid request body"), w')).
Proof.
  intros Hp Hm Hb Hne Hl Hputs Hpre Hty Hin Hval Ht Hint.
  assert (validate_post_ttlseconds t = Raise TypeError) as Hvt.
  { unfold validate_post_ttlseconds. by rewrite Hint. }
  assert (validate_post_item (JObj d) = Raise TypeError) as Hitem.
  { simpl. unfold has_key in *. rewrite Hty in *. rewrite Hval. simpl.
    rewrite bool_decide_true by done. simpl. rewrite Ht. simpl. by rewrite Hvt. }
  assert (validate_post_puts (pre ++ JObj d :: post) = Raise TypeError) as Hall.
  { clear Hputs. induction pre as [|first pre IH]; simpl in *.
    - by rewrite Hitem.
    - unfold res_bind in *.
      destruct (validate_post_item first) as [[]|]; simpl in *; try discriminate.
      by apply IH. }
  assert (validate_post_body request_data = Raise TypeError) as Hbody.
  { apply subscript_ok_dict in Hputs as (rd & -> & Hlk). simpl.
    by rewrite Hlk, Hall. }
  pose proof (post_validation_raises _ _ _ _ w Hp Hm Hb Hne Hl Hbody) as Hrun.
  rewrite Hrun. by repeat split.
Qed.

End BatchFacts.

(** ** Storing and retrieving *)

Section RoundTrip.
Context {RT : PyRuntime}.

Lemma stored_count_two (w : world) (c : call) :
  stored_count (faults w) 2 = 2%nat ->
  next_ok w = true /\ next_ok (sent c w) = true.
Proof.
  unfold stored_count, next_ok. simpl.
  destruct (faults w) as [|[] [|[] ?]]; simpl; intros; by try discriminate.
Qed.

(** The get handler on a cached record. *)
Lemma get_parsed_record (key : json) (k : string) (text ty : string) (v : json)
    (remaining : Z) (w : world) :
  redis_key key = Some k ->
  json_loads text = Ok (cached_record ty v) ->
  next_ok w = true ->
  db w !! k = Some (RStr text, remaining) ->
  get_parsed key text w =
    (Ok (Response 200
           (Some [("Cache-Control", "max-age=" +:+ pretty remaining);
                  ("Content-Type", "application/" +:+ ty)])
           (json_dumps v)),
     emitted "GetSuccess" 1 (sent (Ttl k) w)).
Proof.
  intros Hk Hl Hup Hdb. unfold get_parsed.
  apply except_ok. rewrite (bind_lift_ok _ _ _ _ Hl). unfold cached_record. simpl.
  rewrite (bind_ok _ _ _ _ _ (redis_ttl_ok _ _ _ Hk Hup)), Hdb. reflexivity.
Qed.

(** C2.  The round trip stops at the POST when the item leaves
    ["ttlseconds"] out.  For every value [V], a POST on /cache of the
    one item [{"type": "json", "value": V}] is answered 400
    [Invalid request body] and counted as a failed POST; no uuid is
    drawn, nothing is sent to the backend and the cache is left as it
    was, so that no GET can read [V] back.  The refusal comes from
    [validate_post_puts], which reads the absent lifetime as 0
    ([item.get("ttlseconds", 0)]) and hands it to a check that refuses
    0.  The storage step of [handle_post_request] takes the lifetime as
    optional: on this item it resolves the default 300, and run on a
    working backend it stores the record of [V] for 300 seconds under
    a fresh uuid. *)
Theorem post_without_ttlseconds_is_400
    (event : json) (b : string) (request_data : json) (d : list (string * json))
    (V : json) (w : world) :
  subscript event "path" = Ok (JStr "/cache") ->
  subscript event "httpMethod" = Ok (JStr "POST") ->
  subscript event "body" = Ok (JStr b) -> b <> "" ->
  json_loads b = Ok request_data ->
  subscript request_data "puts" = Ok (JList [JObj d]) ->
  dict_lookup d "type" = Some (JStr "json") ->
  dict_lookup d "value" = Some V ->
  dict_lookup d "ttlseconds" = None ->
  handler event w =
    (Ok (error_response 400 "Invalid request body"), emitted "PostFail" 1 w)
  /\ statusCode (error_response 400 "Invalid request body") = 400
  /\ calls (emitted "PostFail" 1 w) = calls w
  /\ db (emitted "PostFail" 1 w) = db w
  /\ uuid_next (emitted "PostFail" 1 w) = uuid_next w
  /\ get_method (JObj d) "ttlseconds" (JInt 0) = Ok (JInt 0)
  /\ validate_post_ttlseconds (JInt 0) = Ok false
  /\ validate_post_body request_data = Ok false
  /\ resolve_ttl (JObj d) = Ok 300
  /\ (next_ok w = true ->
      store_item (JObj d) w =
        (Ok (JObj [("uuid", JStr (next_key w))]),
         set_db
           (insert (next_key w)
              (RStr (json_dumps (cached_record "json" V)), 300))
           (sent (Setex (next_key w) 300
                    (json_dumps (cached_record "json" V)))
              (drawn w)))).
Proof.
  intros Hp Hm Hb Hne Hl Hputs Hty Hval Hnone.
  assert (validate_post_item (JObj d) = Ok false) as Hitem.
  { simpl. unfold has_key. rewrite Hty, Hval. simpl.
    rewrite bool_decide_true by (unfold ALLOWED_TYPES; set_solver).
    simpl. by rewrite Hnone. }
  assert (validate_post_body request_data = Ok false) as Hbody.
  { apply subscript_ok_dict in Hputs as (rd & -> & Hlk).
    remember [JObj d] as items eqn:Hitems. simpl. rewrite Hlk.
    assert (validate_post_puts items = Ok false) as ->; [|done].
    subst items. exact (validate_post_puts_refused [] (JObj d) [] eq_refl Hitem). }
  assert (resolve_ttl (JObj d) = Ok 300) as Httl.
  { unfold resolve_ttl. simpl. by rewrite Hnone. }
  split_and!; try done.
  - by apply (post_refused _ _ _ _ Hp Hm Hb Hne Hl).
  - simpl. by rewrite Hnone.
  - intros Hup. unfold store_item.
    rewrite (bind_lift_ok _ _ _ _ Httl). unfold bind at 1, uuid4.
    assert (cache_value_of (JObj d) = Ok (cached_record "json" V)) as Hcv.
    { unfold cache_value_of. simpl. by rewrite Hty, Hval. }
    rewrite (bind_lift_ok _ _ _ _ Hcv).
    by rewrite (bind_ok _ _ _ _ _
                  (redis_setex_ok _ 300 _ (drawn w) Hup eq_refl)).
Qed.

(** X20.  The round trip across time, for an item that gives its
    lifetime.  A POST on /cache that stores one item of type "json"
    and value [V], with a ["ttlseconds"] that validation accepts and a
    store operation that succeeds, returns 200 with the generated uuid
    and leaves the record in the cache under it.  A later GET on /cache
    with that uuid, the backend still holding the entry with [remaining]
    seconds to live, returns 200 with the headers
    [Cache-Control: max-age=<remaining>] and
    [Content-Type: application/json], and with [V] serialized as its
    body.  ([json.loads] is taken to read back what [json.dumps] wrote
    for the record.) *)
Theorem post_get_round_trip
    (post_event get_event : json) (b : string) (request_data : json)
    (d q : list (string * json)) (V t : json) (n remaining : Z) (w w2 : world) :
  subscript post_event "path" = Ok (JStr "/cache") ->
  subscript post_event "httpMethod" = Ok (JStr "POST") ->
  subscript post_event "body" = Ok (JStr b) -> b <> "" ->
  json_loads b = Ok request_data ->
  subscript request_data "puts" = Ok (JList [JObj d]) ->
  dict_lookup d "type" = Some (JStr "json") ->
  dict_lookup d "value" = Some V ->
  dict_lookup d "ttlseconds" = Some t ->
  py_int t = Ok n -> 0 < n <= TTL_MAX_SECONDS ->
  next_ok w = true ->
  next_key w <> "" ->
  json_loads (json_dumps (cached_record "json" V)) = Ok (cached_record "json" V) ->
  subscript get_event "path" = Ok (JStr "/cache") ->
  subscript get_event "httpMethod" = Ok (JStr "GET") ->
  subscript get_event "queryStringParameters" = Ok (JObj q) ->
  dict_lookup q "uuid" = Some (JStr (next_key w)) ->
  db w2 !! next_key w = Some (RStr (json_dumps (cached_record "json" V)), remaining) ->
  stored_count (faults w2) 2 = 2%nat ->
  (exists w1 : world,
     handler post_event w =
       (Ok (Response 200 None
              (json_dumps (JObj [("responses", JList [JObj [("uuid", JStr (next_key w))]])]))),
        w1)
     /\ db w1 !! next_key w = Some (RStr (json_dumps (cached_record "json" V)), n))
  /\ (exists w3 : world,
        handler get_event w2 =
          (Ok (Response 200
                 (Some [("Cache-Control", "max-age=" +:+ pretty remaining);
                        ("Content-Type", "application/json")])
                 (json_dumps V)),
           w3)).
Proof.
  intros Hp Hm Hb Hne Hl Hputs Hty Hval Ht Hint Hn Hup Hkey Hrt Hgp Hgm Hq Hu Hdb Hf.
  assert (validate_post_item (JObj d) = Ok true) as Hitem.
  { apply validate_post_item_true. exists d, "json", V, t, n.
    split_and!; try done; try lia. }
  assert (validate_post_body request_data = Ok true) as Hv.
  { apply subscript_ok_dict in Hputs as (rd & -> & Hlk).
    apply validate_post_body_true. exists rd, [JObj d]. repeat split; try done.
    apply validate_post_puts_true. by constructor. }
  assert (entry_of (JObj d) = json_dumps (cached_record "json" V)) as Hentry.
  { unfold entry_of, cache_value_of. simpl. by rewrite Hty, Hval. }
  assert (effective_ttl (JObj d) = n) as Httl.
  { unfold effective_ttl. rewrite Ht, Hint.
    assert ((0 <? n) && (n <=? TTL_MAX_SECONDS) = true) as ->; [|done].
    apply andb_true_iff. split; [apply Z.ltb_lt|apply Z.leb_le]; lia. }
  split.
  - assert (stored_count (faults w) (length [JObj d]) = length [JObj d]) as Hc.
    { simpl. by rewrite (stored_count_ok _ 0 Hup). }
    eexists. split.
    + rewrite (post_returns _ _ _ _ _ Hp Hm Hb Hne Hl Hv Hputs).
      rewrite (post_stored _ _ _ _ _ Hb Hne Hl Hv Hputs Hc).
      unfold stored_response, responses_of, batch_keys, next_key. simpl.
      rewrite Nat.add_0_r. reflexivity.
    + simpl. unfold next_key. simpl. rewrite lookup_insert_eq.
      by rewrite Hentry, Httl.
  - destruct (stored_count_two w2 (Get (next_key w)) Hf) as [Hup1 Hup2].
    assert (truthy (JStr (next_key w)) = true) as Htr by by apply truthy_str.
    eexists.
    rewrite (handler_get _ _ Hgp Hgm).
    rewrite (except_all_ext _ _ _ _ (handle_get_with_key _ _ _ _ Hq Hu Htr)).
    apply except_all_ok, except_ok.
    rewrite (bind_ok _ _ _ _ _
               (redis_get_text (JStr (next_key w)) _ _ _ _ _ eq_refl Hup1 Hdb eq_refl)).
    apply (get_parsed_record (JStr (next_key w)) _ _ "json" V remaining
             (sent (Get (next_key w)) w2) eq_refl Hrt Hup2 Hdb).
Qed.

End RoundTrip.

(** * Further properties of the handlers *)

(** ** The lifetime an item is stored with *)

Section Lifetime.
Context {RT : PyRuntime}.

Lemma resolve_ttl_range (item : json) (n : Z) :
  resolve_ttl item = Ok n -> 0 < n <= TTL_MAX_SECONDS.
Proof.
  unfold resolve_ttl, res_bind, DEFAULT_TTL_SECONDS, TTL_MAX_SECONDS.
  destruct (get_method item "ttlseconds" (JInt 300)) as [raw|]; [|done].
  destruct (py_int raw) as [t|]; [|done].
  destruct ((t <=? 0) || (t >? 3600))%bool eqn:Hc; intros [= <-]; [lia|].
  apply orb_false_iff in Hc as [H1 H2]. lia.
Qed.

End Lifetime.

(** ** What a statement keeps *)

Section Preservation.
Context {RT : PyRuntime}.
Variable R : world -> world -> Prop.
Hypothesis R_refl : forall w, R w w.
Hypothesis R_trans : forall w1 w2 w3, R w1 w2 -> R w2 w3 -> R w1 w3.
Hypothesis R_sent : forall c w, bounded_call c -> R w (sent c w).
Hypothesis R_emitted : forall name value w, R w (emitted name value w).
Hypothesis R_logged : forall msg w, R w (logged msg w).

Lemma preserves_ret {A : Type} (a : A) : preserves R (ret a).
Proof. intros w. apply R_refl. Qed.

Lemma preserves_raise {A : Type} (e : exn) : preserves R (raise (A:=A) e).
Proof. intros w. apply R_refl. Qed.

Lemma preserves_lift {A : Type} (r : res A) : preserves R (lift r).
Proof. intros w. apply R_refl. Qed.

Lemma preserves_bind {A B : Type} (m : M A) (k : A -> M B) :
  preserves R m -> (forall a, preserves R (k a)) -> preserves R (bind m k).
Proof.
  intros Hm Hk w. unfold bind. specialize (Hm w).
  destruct (m w) as [[a|e] w1]; simpl in *; [|done].
  eapply R_trans; [exact Hm|apply Hk].
Qed.

Lemma preserves_except {A : Type} (m h : M A) (c : exn) :
  preserves R m -> preserves R h -> preserves R (except m c h).
Proof.
  intros Hm Hh w. unfold except. specialize (Hm w).
  destruct (m w) as [[a|e] w1]; simpl in *; [done|].
  destruct (exn_isa e c); [|done].
  eapply R_trans; [exact Hm|apply Hh].
Qed.

Lemma preserves_except_all {A : Type} (m h : M A) :
  preserves R m -> preserves R h -> preserves R (except_all m h).
Proof.
  intros Hm Hh w. unfold except_all. specialize (Hm w).
  destruct (m w) as [[a|e] w1]; simpl in *; [done|].
  eapply R_trans; [exact Hm|apply Hh].
Qed.

Lemma preserves_bind_ok {A B : Type} (a : A) (k : A -> M B) :
  preserves R (k a) -> preserves R (bind (lift (Ok a)) k).
Proof. intros Hk w. exact (Hk w). Qed.

Lemma preserves_send (c : call) : bounded_call c -> preserves R (send c).
Proof.
  intros Hc w. unfold send. destruct (faults w) as [|[] ?]; by apply R_sent.
Qed.

Lemma bounded_get (k : string) : bounded_call (Get k).
Proof. intros key ttl value H. discriminate H. Qed.

Lemma bounded_ttl (k : string) : bounded_call (Ttl k).
Proof. intros key ttl value H. discriminate H. Qed.

Lemma bounded_ping : bounded_call Ping.
Proof. intros key ttl value H. discriminate H. Qed.

Lemma bounded_setex (key : string) (ttl : Z) (value : string) :
  0 < ttl <= TTL_MAX_SECONDS -> bounded_call (Setex key ttl value).
Proof. intros Httl key' ttl' value' [= <- <- <-]. exact Httl. Qed.

Lemma preserves_redis_get (key : json) : preserves R (redis_get key).
Proof.
  unfold redis_get. destruct (redis_key key); [|apply preserves_raise].
  apply preserves_bind; [apply preserves_send, bounded_get|]. intros _ w. apply R_refl.
Qed.

Lemma preserves_redis_ttl (key : json) : preserves R (redis_ttl key).
Proof.
  unfold redis_ttl. destruct (redis_key key); [|apply preserves_raise].
  apply preserves_bind; [apply preserves_send, bounded_ttl|]. intros _ w. apply R_refl.
Qed.

Lemma preserves_metric (name : string) (value : Z) :
  preserves R (put_metrics_count_value_custom name value).
Proof. intros w. apply R_emitted. Qed.

Lemma preserves_logger (msg : string) : preserves R (logger_error msg).
Proof. intros w. apply R_logged. Qed.

(** One step of a proof that a handler keeps [R]: through the
    statement, by cases on what it tests. *)
Ltac preserve_step :=
  first
    [ apply preserves_ret | apply preserves_raise | apply preserves_lift
    | apply preserves_redis_get | apply preserves_redis_ttl
    | apply preserves_metric | apply preserves_logger
    | apply preserves_bind; [|intros ?]
    | apply preserves_except | apply preserves_except_all
    | match goal with
      | |- preserves _ (match ?x with _ => _ end) => destruct x
      end ].

Lemma preserves_health : preserves R handle_health_check.
Proof.
  unfold handle_health_check, redis_ping.
  apply preserves_bind; [apply preserves_send, bounded_ping|]. intros _ w. apply R_refl.
Qed.

Lemma preserves_get_parsed (key : json) (value : string) :
  preserves R (get_parsed key value).
Proof. unfold get_parsed, put_metrics_count_value_1. repeat preserve_step. Qed.

Lemma preserves_get (event : json) : preserves R (handle_get_request event).
Proof.
  unfold handle_get_request, put_metrics_count_value_1.
  repeat first [ apply preserves_get_parsed | preserve_step ].
Qed.

Lemma preserves_internal_error : preserves R internal_error.
Proof. unfold internal_error. repeat preserve_step. Qed.

(** The router keeps what the post handler keeps on the events routed
    to it. *)
Lemma preserves_handler (event : json) :
  (subscript event "path" = Ok (JStr "/cache") ->
   subscript event "httpMethod" = Ok (JStr "POST") ->
   preserves R (handle_post_request event)) ->
  preserves R (handler event).
Proof.
  intros Hpost. unfold handler, route.
  apply preserves_except_all; [|apply preserves_internal_error].
  destruct (subscript event "path") as [path|e] eqn:Hpath; [|intros w; apply R_refl].
  apply (preserves_bind_ok path).
  destruct (eq_str path "/cache/health"); [apply preserves_health|].
  destruct (eq_str path "/cache") eqn:Hc; simpl; [|apply preserves_ret].
  apply eq_str_true in Hc as ->.
  destruct (subscript event "httpMethod") as [m|e] eqn:Hm; [|intros w; apply R_refl].
  apply (preserves_bind_ok m).
  destruct (eq_str m "GET"); [apply preserves_get|].
  destruct (eq_str m "POST") eqn:Hp; [|apply preserves_ret].
  apply eq_str_true in Hp as ->. by apply Hpost.
Qed.

Section Writes.
Hypothesis R_drawn : forall w, R w (drawn w).
Hypothesis R_insert : forall key value ttl w,
  0 < ttl <= TTL_MAX_SECONDS -> R w (set_db (insert key (RStr value, ttl)) w).

Lemma preserves_setex (key : string) (ttl : Z) (value : string) :
  0 < ttl <= TTL_MAX_SECONDS -> preserves R (redis_setex key ttl value).
Proof.
  intros Httl. unfold redis_setex.
  apply preserves_bind; [by apply preserves_send, bounded_setex|]. intros _.
  destruct (ttl <=? 0) eqn:Hle; [apply preserves_raise|].
  intros w. by apply R_insert.
Qed.

Lemma preserves_store_item (item : json) : preserves R (store_item item).
Proof.
  unfold store_item.
  destruct (resolve_ttl item) as [ttl|e] eqn:Httl; [|intros w; apply R_refl].
  apply resolve_ttl_range in Httl.
  apply (preserves_bind_ok ttl).
  apply preserves_bind; [intros w; apply R_drawn|]. intros key.
  apply preserves_bind; [apply preserves_lift|]. intros cache_value.
  apply preserves_bind; [by apply preserves_setex|]. intros _.
  apply preserves_ret.
Qed.

Lemma preserves_store_items (items responses : list json) :
  preserves R (store_items items responses).
Proof.
  revert responses. induction items as [|item rest IH]; intros responses; simpl.
  - apply preserves_ret.
  - apply preserves_bind; [apply preserves_store_item|]. intros r. apply IH.
Qed.

Lemma preserves_post (event : json) : preserves R (handle_post_request event).
Proof.
  unfold handle_post_request, put_metrics_count_value_1.
  repeat first [ apply preserves_store_items | preserve_step ].
Qed.

Lemma preserves_all (event : json) : preserves R (handler event).
Proof. apply preserves_handler. intros _ _. apply preserves_post. Qed.

End Writes.

End Preservation.

(** ** What every invocation keeps *)

Section Invariants.
Context {RT : PyRuntime}.

Lemma keeps_keys_insert (key : string) (entry : rvalue * Z) (w : world) :
  keeps_keys w (set_db (insert key entry) w).
Proof. unfold keeps_keys. simpl. rewrite dom_insert. set_solver. Qed.

(** X1. No invocation removes a key from the cache: whatever the event
    and the state of the backend, every key present before the handler
    runs is present after it. *)
Theorem handler_never_deletes (event : json) (w : world) :
  dom (db w) ⊆ dom (db (handler event w).2).
Proof.
  apply (preserves_all keeps_keys); unfold keeps_keys; try done.
  - intros w1 w2 w3 H12 H23. set_solver.
  - intros key value ttl w0 _. apply keeps_keys_insert.
Qed.

Lemma reads_keep_db (event : json) (w : world) :
  (subscript event "path" = Ok (JStr "/cache") ->
   subscript event "httpMethod" = Ok (JStr "POST") -> False) ->
  db (handler event w).2 = db w.
Proof.
  intros Hno. apply (preserves_handler same_db); unfold same_db; try done.
  - intros w1 w2 w3 H12 H23. congruence.
  - intros Hpath Hmethod. destruct (Hno Hpath Hmethod).
Qed.

(** X2. Only a POST on [/cache] changes the cache: when an invocation
    leaves the cache different from what it was, the path of the event
    is [/cache] and its method is [POST]. *)
Theorem only_post_writes (event : json) (w : world) :
  db (handler event w).2 <> db w ->
  subscript event "path" = Ok (JStr "/cache")
  /\ subscript event "httpMethod" = Ok (JStr "POST").
Proof.
  intros Hdb.
  destruct (subscript event "path") as [path|e] eqn:Hpath; cycle 1.
  { exfalso. apply Hdb, reads_keep_db. rewrite Hpath. intros [=]. }
  destruct (eq_str path "/cache") eqn:Hc; cycle 1.
  { apply eq_str_false in Hc. exfalso. apply Hdb, reads_keep_db.
    rewrite Hpath. by intros [= ->]. }
  apply eq_str_true in Hc as ->. split; [done|].
  destruct (subscript event "httpMethod") as [method|e] eqn:Hm; cycle 1.
  { exfalso. apply Hdb, reads_keep_db. rewrite Hm. intros _ [=]. }
  destruct (eq_str method "POST") eqn:Hp; [by apply eq_str_true in Hp as ->|].
  apply eq_str_false in Hp. exfalso. apply Hdb, reads_keep_db.
  rewrite Hm. by intros _ [= ->].
Qed.

Lemma writes_bounded_db (event : json) :
  preserves
    (fun w w' => forall k entry, db w' !! k = Some entry ->
       db w !! k = Some entry
       \/ exists (text : string) (ttl : Z),
            entry = (RStr text, ttl) /\ 0 < ttl <= TTL_MAX_SECONDS)
    (handler event).
Proof.
  apply preserves_all; try (intros; simpl in *; by left).
  - intros w1 w2 w3 H12 H23 k entry H3.
    destruct (H23 k entry H3) as [H2|?]; [by apply H12|by right].
  - intros key value ttl w0 Httl k entry. simpl.
    destruct (decide (k = key)) as [->|Hne].
    + rewrite lookup_insert_eq. intros [= <-]. right. by exists value, ttl.
    + rewrite lookup_insert_ne by done. by left.
Qed.

Lemma sends_bounded_refl (w w' : world) : calls w' = calls w -> sends_bounded w w'.
Proof. intros Hc. exists []. by rewrite app_nil_r. Qed.

Lemma handler_sends_bounded (event : json) : preserves sends_bounded (handler event).
Proof.
  apply preserves_all; try (intros; by apply sends_bounded_refl).
  - intros w1 w2 w3 (cs1 & H1 & Hb1) (cs2 & H2 & Hb2).
    exists (cs1 ++ cs2)%list. split.
    + by rewrite H2, H1, app_assoc.
    + by apply Forall_app.
  - intros c w0 Hc. exists [c]. split; [done|by constructor].
Qed.

(** X3. The handler stores only with a lifetime above 0 and of at most
    [TTL_MAX_SECONDS] seconds, whatever the request. What an invocation
    leaves in the cache under a key is what was there before, or a text
    entry with such a lifetime; and the commands of the invocation are
    added after those sent before, every [SETEX] among them with such
    a lifetime. *)
Theorem handler_writes_bounded (event : json) (w : world) :
  (forall (k : string) (entry : rvalue * Z),
     db (handler event w).2 !! k = Some entry ->
     db w !! k = Some entry
     \/ exists (text : string) (ttl : Z),
          entry = (RStr text, ttl) /\ 0 < ttl <= TTL_MAX_SECONDS)
  /\ exists cs : list call,
       calls (handler event w).2 = (calls w ++ cs)%list
       /\ Forall
            (fun c =>
               forall (key : string) (ttl : Z) (value : string),
                 c = Setex key ttl value -> 0 < ttl <= TTL_MAX_SECONDS)
            cs.
Proof.
  split.
  - apply (writes_bounded_db event w).
  - apply (handler_sends_bounded event w).
Qed.

End Invariants.

(** ** The answers of the handler *)

Section Answers.
Context {RT : PyRuntime}.

Lemma returns_ret {A : Type} (P : A -> Prop) (a : A) : P a -> returns P (ret a).
Proof. by intros Ha w a' w' [= <- _]. Qed.

Lemma returns_raise {A : Type} (P : A -> Prop) (e : exn) : returns P (raise e).
Proof. by intros w a w'. Qed.

Lemma returns_bind {A B : Type} (P : B -> Prop) (m : M A) (k : A -> M B) :
  (forall a, returns P (k a)) -> returns P (bind m k).
Proof.
  intros Hk w b w'. unfold bind.
  destruct (m w) as [[a|e] w1]; [apply Hk|done].
Qed.

Lemma returns_except {A : Type} (P : A -> Prop) (m h : M A) (c : exn) :
  returns P m -> returns P h -> returns P (except m c h).
Proof.
  intros Hm Hh w a w'. unfold except.
  destruct (m w) as [[a1|e] w1] eqn:Hmw.
  - intros [= <- _]. by eapply Hm.
  - destruct (exn_isa e c); [apply Hh|done].
Qed.

Lemma returns_except_all {A : Type} (P : A -> Prop) (m h : M A) :
  returns P m -> returns P h -> returns P (except_all m h).
Proof.
  intros Hm Hh w a w'. unfold except_all.
  destruct (m w) as [[a1|e] w1] eqn:Hmw.
  - intros [= <- _]. by eapply Hm.
  - apply Hh.
Qed.

Lemma known_error (code : Z) (msg : string) :
  (code, msg) ∈ error_table -> known_response (error_response code msg).
Proof. intros Hin. right. by exists code, msg. Qed.

Ltac known_step :=
  first
    [ apply returns_ret; first [ by left | apply known_error; unfold error_table; by repeat constructor ]
    | apply returns_raise
    | apply returns_bind; intros ?
    | apply returns_except | apply returns_except_all
    | match goal with
      | |- returns _ (match ?x with _ => _ end) => destruct x
      | |- returns _ (if ?x then _ else _) => destruct x
      end ].

Lemma health_known : returns known_response handle_health_check.
Proof.
  unfold handle_health_check. apply returns_bind. intros _ w r w' [= <- _]. by left.
Qed.

Lemma get_known (event : json) : returns known_response (handle_get_request event).
Proof. unfold handle_get_request, get_parsed. repeat known_step. Qed.

Lemma post_known (event : json) : returns known_response (handle_post_request event).
Proof. unfold handle_post_request. repeat known_step. Qed.

Lemma handler_known (event : json) : returns known_response (handler event).
Proof.
  unfold handler, route, internal_error.
  repeat first [ apply health_known | apply get_known | apply post_known | known_step ].
Qed.

Lemma error_table_status (code : Z) (msg : string) :
  (code, msg) ∈ error_table -> code ∈ [400; 404; 405; 500].
Proof.
  unfold error_table. rewrite !elem_of_cons, elem_of_nil.
  intros H. repeat destruct H as [H|H]; try done; injection H as -> _; set_solver.
Qed.

(** X4. Every invocation returns a response, whatever the event and
    the state of the backend: one with status 200, or one of the eleven
    error answers of the module, whose body is the message under the key
    [error] and which carries no headers. The status is one of 200, 400,
    404, 405 and 500. *)
Theorem handler_answers (event : json) (w : world) :
  exists (r : response) (w' : world),
    handler event w = (Ok r, w')
    /\ (statusCode r = 200
        \/ exists (code : Z) (msg : string),
             (code, msg) ∈ error_table /\ r = error_response code msg)
    /\ statusCode r ∈ [200; 400; 404; 405; 500].
Proof.
  destruct (handler_total event w) as (r & w' & Hr). exists r, w'.
  pose proof (handler_known event w r w' Hr) as Hk.
  split_and!; [done|exact Hk|].
  destruct Hk as [H200|(code & msg & Hin & ->)].
  - rewrite H200. constructor.
  - constructor. exact (error_table_status _ _ Hin).
Qed.

(** X5. The health check, whatever the method of the event: when the
    backend answers the ping, the response is 200 with the statuses
    [healthy] and [connected] and the current time; when the ping
    fails, the failure is not reported as a health status but ends as
    the 500 [Internal server error] of the handler. Either way one
    [PING] is sent and nothing else changes besides the error log. *)
Theorem health_check_outcomes (event : json) (w : world) :
  subscript event "path" = Ok (JStr "/cache/health") ->
  handler event w =
    (if next_ok w
     then (Ok (Response 200 None (healthy_body (now w))), sent Ping w)
     else (Ok (error_response 500 "Internal server error"),
           logged "Unexpected error" (sent Ping w))).
Proof.
  intros Hpath. unfold handler, except_all. rewrite route_health by done.
  unfold handle_health_check, redis_ping, bind.
  destruct (next_ok w) eqn:Hok.
  - by rewrite send_ok.
  - by rewrite send_fault.
Qed.

(** X6. An event without a path, or an event for [/cache] without a
    method (and an event that is no object at all), is answered 500
    [Internal server error]: the failed lookup is logged and nothing is
    sent to the backend, no counter is emitted and the cache is left as
    it was. *)
Theorem missing_route_key (event : json) (e : exn) (w : world) :
  subscript event "path" = Raise e
  \/ (subscript event "path" = Ok (JStr "/cache")
      /\ subscript event "httpMethod" = Raise e) ->
  handler event w =
    (Ok (error_response 500 "Internal server error"), logged "Unexpected error" w)
  /\ (e = KeyError \/ e = TypeError).
Proof.
  intros [Hpath|[Hpath Hmethod]].
  - split.
    + unfold handler, except_all, route, bind, lift. by rewrite Hpath.
    + unfold subscript in Hpath. repeat case_match; simplify_eq; auto.
  - split.
    + unfold handler, except_all. rewrite route_cache by done. by rewrite Hmethod.
    + unfold subscript in Hmethod. repeat case_match; simplify_eq; auto.
Qed.

End Answers.

(** ** More on GET *)

Section GetOutcomes.
Context {RT : PyRuntime}.

Lemma except_bind_ok {A B : Type} (m : M A) (k : A -> M B) (h : M B) (c : exn)
    (w w1 : world) (a : A) :
  m w = (Ok a, w1) -> except (bind m k) c h w = except (k a) c h w1.
Proof. intros Hm. unfold except. by rewrite (bind_ok _ _ _ _ _ Hm). Qed.

(** What follows the read of an entry that has a text. *)
Lemma get_read_text (event : json) (q : list (string * json)) (key : json) (k : string)
    (raw : rvalue) (t : Z) (text : string) (w : world) :
  subscript event "path" = Ok (JStr "/cache") ->
  subscript event "httpMethod" = Ok (JStr "GET") ->
  subscript event "queryStringParameters" = Ok (JObj q) ->
  dict_lookup q "uuid" = Some key ->
  truthy key = true ->
  redis_key key = Some k ->
  next_ok w = true ->
  db w !! k = Some (raw, t) ->
  entry_text raw = Some text ->
  handler event w =
    except_all
      (except (get_parsed key text) RedisError
         (logger_error "Redis error" ;;;
          ret (error_response 500 "Cache error"))%py)
      internal_error (sent (Get k) w).
Proof.
  intros Hp Hm Hq Hk Ht Hkey Hup Hdb Htext.
  rewrite (handler_get _ _ Hp Hm).
  rewrite (except_all_ext _ _ _ _ (handle_get_with_key _ _ _ _ Hq Hk Ht)).
  unfold except_all.
  by rewrite (except_bind_ok _ _ _ _ _ _ _
                (redis_get_text _ _ _ _ _ _ Hkey Hup Hdb Htext)).
Qed.

(** The read of an entry that has no text: the client raises, and the
    error is none that [handle_get_request] catches. *)
Lemma get_read_undecodable (event : json) (q : list (string * json)) (key : json)
    (k : string) (raw : rvalue) (t : Z) (w : world) :
  subscript event "path" = Ok (JStr "/cache") ->
  subscript event "httpMethod" = Ok (JStr "GET") ->
  subscript event "queryStringParameters" = Ok (JObj q) ->
  dict_lookup q "uuid" = Some key ->
  truthy key = true ->
  redis_key key = Some k ->
  next_ok w = true ->
  db w !! k = Some (raw, t) ->
  entry_text raw = None ->
  handle_get_request event w = (Raise UnicodeDecodeError, sent (Get k) w)
  /\ handler event w =
       (Ok (error_response 500 "Internal server error"),
        logged "Unexpected error" (sent (Get k) w)).
Proof.
  intros Hp Hm Hq Hk Ht Hkey Hup Hdb Htext.
  assert (handle_get_request event w = (Raise UnicodeDecodeError, sent (Get k) w)) as Hrun.
  { rewrite (handle_get_with_key _ _ _ _ Hq Hk Ht).
    eapply except_passed;
      [apply bind_raise, (redis_get_undecodable _ _ _ _ _ Hkey Hup Hdb Htext)|done]. }
  split; [done|].
  rewrite (handler_get _ _ Hp Hm). by rewrite (except_all_caught _ _ _ _ _ Hrun).
Qed.

(** The client hands no bytes to the handler: the branch of
    [handle_get_request] under [isinstance(value, bytes)] is not
    taken. *)
Lemma redis_get_returns_text (key : json) (v : rvalue) (w w' : world) :
  redis_get key w = (Ok (Some v), w') -> exists s : string, v = RStr s.
Proof.
  unfold redis_get, bind, send, raise, get_reply, decode_reply, res_bind.
  repeat (case_match; simplify_eq/=); intros; simplify_eq; eauto.
Qed.

Lemma get_parsed_found (key : json) (k : string) (text : string)
    (d : list (string * json)) (ty v : json) (w : world) :
  redis_key key = Some k ->
  json_loads text = Ok (JObj d) ->
  dict_lookup d "type" = Some ty ->
  dict_lookup d "value" = Some v ->
  next_ok w = true ->
  get_parsed key text w =
    (Ok (Response 200
           (Some [("Cache-Control",
                   "max-age=" +:+ pretty (default (-2) (snd <$> db w !! k)));
                  ("Content-Type", "application/" +:+ format_value ty)])
           (json_dumps v)),
     emitted "GetSuccess" 1 (sent (Ttl k) w)).
Proof.
  intros Hk Hl Hty Hv Hup. unfold get_parsed.
  apply except_ok. rewrite (bind_lift_ok _ _ _ _ Hl). unfold has_key.
  rewrite Hty, Hv. simpl.
  rewrite (bind_ok _ _ _ _ _ (redis_ttl_ok _ _ _ Hk Hup)).
  unfold bind, put_metrics_count_value_1, put_metrics_count_value_custom, lift, ret.
  simpl. by rewrite Hty, Hv.
Qed.

Lemma get_parsed_ttl_fault (key : json) (k : string) (text : string)
    (d : list (string * json)) (w : world) :
  redis_key key = Some k ->
  json_loads text = Ok (JObj d) ->
  has_key d "type" && has_key d "value" = true ->
  next_ok w = false ->
  get_parsed key text w = (Raise RedisError, sent (Ttl k) w).
Proof.
  intros Hk Hl Hd Hup. unfold get_parsed.
  apply andb_true_iff in Hd as [Hty Hv].
  erewrite except_passed; [reflexivity| |done].
  rewrite (bind_lift_ok _ _ _ _ Hl). rewrite Hty, Hv. simpl.
  apply bind_raise. unfold redis_ttl. rewrite Hk.
  apply bind_raise. by apply send_fault.
Qed.

(** X7. A GET whose entry is a record is answered with what the record
    says, whatever that is: the entry may be text or bytes in UTF-8,
    its [type] is not checked again and goes into [Content-Type] as an
    f-string prints it, the [value] is serialised as JSON into the body
    (a string value is returned quoted), and [max-age] is the lifetime
    the backend reports. One [GET] and one [TTL] are sent and
    [GetSuccess] is counted once. *)
Theorem get_found (event : json) (q : list (string * json)) (key : json) (k : string)
    (raw : rvalue) (t : Z) (text : string) (d : list (string * json)) (ty v : json)
    (w : world) :
  subscript event "path" = Ok (JStr "/cache") ->
  subscript event "httpMethod" = Ok (JStr "GET") ->
  subscript event "queryStringParameters" = Ok (JObj q) ->
  dict_lookup q "uuid" = Some key ->
  truthy key = true ->
  redis_key key = Some k ->
  db w !! k = Some (raw, t) ->
  entry_text raw = Some text ->
  json_loads text = Ok (JObj d) ->
  dict_lookup d "type" = Some ty ->
  dict_lookup d "value" = Some v ->
  stored_count (faults w) 2 = 2%nat ->
  handler event w =
    (Ok (Response 200
           (Some [("Cache-Control", "max-age=" +:+ pretty t);
                  ("Content-Type", "application/" +:+ format_value ty)])
           (json_dumps v)),
     emitted "GetSuccess" 1 (sent (Ttl k) (sent (Get k) w))).
Proof.
  intros Hp Hm Hq Hk Ht Hkey Hdb Htext Hl Hty Hv Hup.
  destruct (stored_count_two w (Get k) Hup) as [Hup1 Hup2].
  rewrite (get_read_text _ _ _ _ _ _ _ _ Hp Hm Hq Hk Ht Hkey Hup1 Hdb Htext).
  apply except_all_ok, except_ok.
  rewrite (get_parsed_found _ _ _ _ _ _ _ Hkey Hl Hty Hv Hup2).
  simpl. by rewrite Hdb.
Qed.

(** X8. A GET that the backend fails is answered 500 [Cache error] and
    counted neither as a success nor as a miss, whether the failure is
    on the read of the entry or, after a record was read, on the read
    of its lifetime; the error is logged and the cache is left as it
    was. *)
Theorem get_backend_failure (event : json) (q : list (string * json)) (key : json)
    (k : string) (w : world) :
  subscript event "path" = Ok (JStr "/cache") ->
  subscript event "httpMethod" = Ok (JStr "GET") ->
  subscript event "queryStringParameters" = Ok (JObj q) ->
  dict_lookup q "uuid" = Some key ->
  truthy key = true ->
  redis_key key = Some k ->
  (next_ok w = false ->
   handler event w =
     (Ok (error_response 500 "Cache error"), logged "Redis error" (sent (Get k) w)))
  /\ (forall (raw : rvalue) (t : Z),
        next_ok w = true -> next_ok (sent (Get k) w) = false ->
        db w !! k = Some (raw, t) -> is_cached_record raw = true ->
        handler event w =
          (Ok (error_response 500 "Cache error"),
           logged "Redis error" (sent (Ttl k) (sent (Get k) w)))).
Proof.
  intros Hp Hm Hq Hk Ht Hkey. split.
  - intros Hup. rewrite (handler_get _ _ Hp Hm).
    rewrite (except_all_ext _ _ _ _ (handle_get_with_key _ _ _ _ Hq Hk Ht)).
    apply except_all_ok.
    erewrite except_caught;
      [reflexivity | apply bind_raise, (redis_get_fault _ _ _ Hkey Hup) | done].
  - intros raw t Hup1 Hup2 Hdb Hrec. unfold is_cached_record in Hrec.
    destruct (entry_text raw) as [text|] eqn:Htext; [|done].
    destruct (json_loads text) as [[| | | | | |d]|] eqn:Hl; try done.
    rewrite (get_read_text _ _ _ _ _ _ _ _ Hp Hm Hq Hk Ht Hkey Hup1 Hdb Htext).
    apply except_all_ok.
    erewrite except_caught;
      [reflexivity | apply (get_parsed_ttl_fault _ _ _ _ _ Hkey Hl Hrec Hup2) | done].
Qed.

(** X9. What a GET answers on an entry that is no record, with the
    backend working. Bytes that are not UTF-8 do not reach the handler:
    the client, which decodes the replies, raises [UnicodeDecodeError]
    inside [get], [handle_get_request] lets it through, and the answer
    is the 500 [Internal server error] of the router, logged as
    [Unexpected error] (not [Invalid encoding in cached value], whose
    branch the decoded replies never take). A text that is not JSON
    gives [Invalid cached value format]; JSON that is not an object
    with a [type] and a [value] gives [Invalid cached value
    structure]. In the three cases the status is 500, the lifetime is
    not asked for, and no counter is emitted. *)
Theorem get_corrupted_answers (event : json) (q : list (string * json)) (key : json)
    (k : string) (raw : rvalue) (t : Z) (w : world) :
  subscript event "path" = Ok (JStr "/cache") ->
  subscript event "httpMethod" = Ok (JStr "GET") ->
  subscript event "queryStringParameters" = Ok (JObj q) ->
  dict_lookup q "uuid" = Some key ->
  truthy key = true ->
  redis_key key = Some k ->
  next_ok w = true ->
  db w !! k = Some (raw, t) ->
  (entry_text raw = None ->
   handle_get_request event w = (Raise UnicodeDecodeError, sent (Get k) w)
   /\ handler event w =
        (Ok (error_response 500 "Internal server error"),
         logged "Unexpected error" (sent (Get k) w)))
  /\ (forall (text : string) (e : exn),
        entry_text raw = Some text ->
        json_loads text = Raise e -> exn_isa e JSONDecodeError = true ->
        handler event w =
          (Ok (error_response 500 "Invalid cached value format"), sent (Get k) w))
  /\ (forall (text : string) (parsed : json),
        entry_text raw = Some text ->
        json_loads text = Ok parsed ->
        match parsed with
        | JObj d => has_key d "type" && has_key d "value"
        | _ => false
        end = false ->
        handler event w =
          (Ok (error_response 500 "Invalid cached value structure"), sent (Get k) w))
  /\ (forall (v : rvalue) (w' : world),
        redis_get key w = (Ok (Some v), w') -> exists s : string, v = RStr s).
Proof.
  intros Hp Hm Hq Hk Ht Hkey Hup Hdb. split_and!.
  - intros Htext.
    exact (get_read_undecodable _ _ _ _ _ _ _ Hp Hm Hq Hk Ht Hkey Hup Hdb Htext).
  - intros text e Htext Hl He.
    rewrite (get_read_text _ _ _ _ _ _ _ _ Hp Hm Hq Hk Ht Hkey Hup Hdb Htext).
    apply except_all_ok, except_ok. unfold get_parsed.
    erewrite except_caught; [reflexivity | apply (bind_lift_raise _ _ _ _ Hl) | exact He].
  - intros text parsed Htext Hl Hbad.
    rewrite (get_read_text _ _ _ _ _ _ _ _ Hp Hm Hq Hk Ht Hkey Hup Hdb Htext).
    apply except_all_ok, except_ok. unfold get_parsed.
    apply except_ok. rewrite (bind_lift_ok _ _ _ _ Hl).
    destruct parsed as [| | | | | |d]; try reflexivity.
    apply andb_false_iff in Hbad.
    assert (negb (has_key d "type") || negb (has_key d "value") = true) as ->.
    { destruct Hbad as [->| ->]; simpl; [|rewrite orb_true_r]; reflexivity. }
    reflexivity.
  - intros v w'. apply redis_get_returns_text.
Qed.

Lemma returns_bind_ok {A B : Type} (P : B -> Prop) (a : A) (k : A -> M B) :
  returns P (k a) -> returns P (bind (lift (Ok a)) k).
Proof. intros Hk w. exact (Hk w). Qed.

Ltac status_step :=
  first
    [ apply returns_ret; done
    | apply returns_raise
    | apply returns_bind; intros ?
    | apply returns_except | apply returns_except_all
    | match goal with
      | |- returns _ (match ?x with _ => _ end) => destruct x
      | |- returns _ (if ?x then _ else _) => destruct x
      end ].

(** X10. A GET is answered 400 exactly when the query string gives no
    [uuid]: the parameters are absent from the event, or they have no
    [uuid], or an empty one. Then the answer is [Missing uuid
    parameter], nothing is sent to the backend and no counter is
    emitted. *)
Theorem get_bad_request_iff (event : json) (q : list (string * json))
    (r : response) (w w' : world) :
  subscript event "path" = Ok (JStr "/cache") ->
  subscript event "httpMethod" = Ok (JStr "GET") ->
  get_method event "queryStringParameters" (JObj []) = Ok (JObj q) ->
  handler event w = (Ok r, w') ->
  (statusCode r = 400 <-> truthy (default JNull (dict_lookup q "uuid")) = false)
  /\ (statusCode r = 400 ->
      r = error_response 400 "Missing uuid parameter" /\ w' = w).
Proof.
  intros Hp Hm Hq Hrun.
  destruct (truthy (default JNull (dict_lookup q "uuid"))) eqn:Ht.
  - assert (statusCode r <> 400) as Hne; [|by split].
    revert Hrun. rewrite (handler_get _ _ Hp Hm).
    revert w r w'.
    change (returns (fun r => statusCode r <> 400)
              (except_all (handle_get_request event) internal_error)).
    apply returns_except_all; [|unfold internal_error; by repeat status_step].
    unfold handle_get_request. rewrite Hq.
    apply returns_bind_ok. simpl. apply returns_bind_ok. rewrite Ht. simpl.
    unfold get_parsed. by repeat status_step.
  - rewrite (get_without_uuid _ _ _ Hp Hm Hq Ht) in Hrun.
    injection Hrun as <- <-. by repeat split.
Qed.

Lemma handle_get_metrics (event : json) (w : world) :
  metrics (handle_get_request event w).2 =
    (metrics w ++ match (handle_get_request event w).1 with
                  | Ok r => get_counter (statusCode r)
                  | Raise _ => []
                  end)%list.
Proof.
  unfold handle_get_request, get_parsed, redis_get, redis_ttl,
    put_metrics_count_value_1, put_metrics_count_value_custom, logger_error,
    bind, lift, ret, raise, except, send, has_key, subscript.
  repeat (case_match; simplify_eq/=); by rewrite ?app_nil_r.
Qed.

(** X11. The counters of a GET follow its status: [GetSuccess] is
    emitted once with a 200, [GetNotFound] once with a 404, and no
    counter with any other answer. *)
Theorem get_metrics (event : json) (r : response) (w w' : world) :
  subscript event "path" = Ok (JStr "/cache") ->
  subscript event "httpMethod" = Ok (JStr "GET") ->
  handler event w = (Ok r, w') ->
  metrics w' = (metrics w ++ get_counter (statusCode r))%list.
Proof.
  intros Hp Hm. rewrite (handler_get _ _ Hp Hm). unfold except_all.
  pose proof (handle_get_metrics event w) as Hmet.
  destruct (handle_get_request event w) as [[r1|e] w1]; simpl in Hmet.
  - by intros [= <- <-].
  - intros [= <- <-]. simpl. by rewrite Hmet.
Qed.

End GetOutcomes.

(** ** More on POST *)

Section PostOutcomes.
Context {RT : PyRuntime}.

Lemma body_text (event body request_data : json) :
  get_method event "body" JNull = Ok body ->
  truthy body = true ->
  loads_value body = Ok request_data ->
  exists b : string,
    body = JStr b /\ b <> "" /\ subscript event "body" = Ok (JStr b)
    /\ json_loads b = Ok request_data.
Proof.
  destruct event as [| | | | | |d]; try discriminate. simpl.
  destruct (dict_lookup d "body") as [bv|] eqn:Hd; simpl; intros [= <-]; [|discriminate].
  destruct bv as [| | | |b| |]; try discriminate. simpl.
  intros Ht Hl. exists b. split_and!; try done.
  intros ->. discriminate.
Qed.

Lemma stored_count_split (fs : list bool) (items : list json) :
  stored_count fs (length items) = length items
  \/ exists (pre : list json) (item : json) (post : list json),
       items = (pre ++ item :: post)%list
       /\ stored_count fs (length items) = length pre.
Proof.
  pose proof (stored_count_le fs (length items)) as Hle.
  destruct (decide (stored_count fs (length items) = length items)) as [Hc|Hc]; [by left|].
  right. set (c := stored_count fs (length items)) in *.
  destruct (lookup_lt_is_Some_2 items c) as [item Hitem]; [lia|].
  exists (take c items), item, (drop (S c) items). split.
  - by rewrite take_drop_middle.
  - rewrite length_take. lia.
Qed.

(** Every POST on [/cache] ends in one of the six outcomes. *)
Lemma post_outcome_of (event : json) (w : world) :
  subscript event "path" = Ok (JStr "/cache") ->
  subscript event "httpMethod" = Ok (JStr "POST") ->
  exists (r : response) (w' : world),
    handler event w = (Ok r, w') /\ post_outcome event w r w'.
Proof.
  intros Hp Hm.
  assert (exists body, get_method event "body" JNull = Ok body) as [body Hbody].
  { destruct (subscript_ok_dict _ _ _ Hp) as (d & -> & _). by eexists. }
  destruct (truthy body) eqn:Ht; cycle 1.
  { eexists _, _. split; [|by eapply post_missing].
    rewrite (handler_post _ _ Hp Hm). apply except_all_ok.
    unfold handle_post_request. rewrite (bind_lift_ok _ _ _ _ Hbody). by rewrite Ht. }
  destruct (loads_value body) as [rd|e] eqn:Hl; cycle 1.
  { eexists _, _. split; [|by eapply post_unparsed].
    rewrite (handler_post _ _ Hp Hm). erewrite except_all_caught; [done|].
    unfold handle_post_request. rewrite (bind_lift_ok _ _ _ _ Hbody). rewrite Ht. simpl.
    by rewrite (bind_lift_raise _ _ _ _ Hl). }
  destruct (body_text _ _ _ Hbody Ht Hl) as (b & -> & Hne & Hb & Hjl).
  destruct (validate_post_body rd) as [[]|e] eqn:Hv.
  - destruct (proj1 (validate_post_body_true rd) Hv) as (d & items & -> & Hd & _).
    assert (subscript (JObj d) "puts" = Ok (JList items)) as Hputs by (simpl; by rewrite Hd).
    rewrite (post_returns _ _ _ _ _ Hp Hm Hb Hne Hjl Hv Hputs).
    destruct (stored_count_split (faults w) items)
      as [Hc|(pre & item & post & -> & Hc)].
    + eexists _, _. split; [by apply (post_stored _ _ _ _ _ Hb Hne Hjl Hv Hputs)|].
      by eapply post_all_stored.
    + eexists _, _. split; [by apply (post_stopped _ _ _ _ _ _ _ Hb Hne Hjl Hv Hputs)|].
      by eapply post_interrupted.
  - eexists _, _. split; [by apply (post_refused _ _ _ _ Hp Hm Hb Hne Hjl)|].
    by eapply post_invalid.
  - eexists _, _. split; [by apply (post_validation_raises _ _ _ _ _ Hp Hm Hb Hne Hjl Hv)|].
    by eapply post_unvalidated.
Qed.

(** X12. The counters of a POST follow its answer. With a 200,
    [PostCount] with the number of items of [puts] in the body and then
    [PostSuccess]; with a 400, [PostFail] alone, and nothing was sent
    to the backend; with the 500 [Cache error], [PostCount] with the
    number of items of [puts] (not the number stored) and then
    [PostFail]; with the 500 [Internal server error], no counter at
    all, and nothing was sent to the backend. *)
Theorem post_counters (event : json) (r : response) (w w' : world) :
  subscript event "path" = Ok (JStr "/cache") ->
  subscript event "httpMethod" = Ok (JStr "POST") ->
  handler event w = (Ok r, w') ->
  (statusCode r = 200 ->
   exists (body request_data : json) (items : list json),
     get_method event "body" JNull = Ok body
     /\ loads_value body = Ok request_data
     /\ subscript request_data "puts" = Ok (JList items)
     /\ metrics w' =
          (metrics w ++ [("PostCount", Z.of_nat (length items)); ("PostSuccess", 1)])%list)
  /\ (statusCode r = 400 ->
      metrics w' = (metrics w ++ [("PostFail", 1)])%list
      /\ calls w' = calls w /\ db w' = db w)
  /\ (statusCode r = 500 ->
      (r = error_response 500 "Cache error"
       /\ exists (body request_data : json) (items : list json),
            get_method event "body" JNull = Ok body
            /\ loads_value body = Ok request_data
            /\ subscript request_data "puts" = Ok (JList items)
            /\ metrics w' =
                 (metrics w ++ [("PostCount", Z.of_nat (length items)); ("PostFail", 1)])%list)
      \/ (r = error_response 500 "Internal server error"
          /\ metrics w' = metrics w /\ calls w' = calls w /\ db w' = db w)).
Proof.
  intros Hp Hm Hrun.
  destruct (post_outcome_of event w Hp Hm) as (r0 & w0 & Hrun0 & Hout).
  rewrite Hrun in Hrun0. injection Hrun0 as <- <-.
  destruct Hout as [body Hb Ht|body e Hb Ht Hl|body rd Hb Ht Hl Hv
                   |body rd e Hb Ht Hl Hv|body rd items Hb Ht Hl Hv Hputs Hc
                   |body rd pre item post Hb Ht Hl Hv Hputs Hc];
    simpl; split_and!; try done.
  - intros _. right. done.
  - intros _. right. done.
  - intros _. exists body, rd, items. split_and!; try done.
    rewrite store_all_metrics. simpl. by rewrite <- app_assoc.
  - intros _. left. split; [done|].
    exists body, rd, (pre ++ item :: post)%list. split_and!; try done.
    rewrite store_all_metrics. simpl. by rewrite <- app_assoc.
Qed.

(** X13. A POST is answered 400 exactly when its body is absent, null
    or empty, or when it parses and the validation returns [False] on
    it. A body that does not parse and a body the validation raises on
    are not answered 400. *)
Theorem post_bad_request_iff (event body : json) (r : response) (w w' : world) :
  subscript event "path" = Ok (JStr "/cache") ->
  subscript event "httpMethod" = Ok (JStr "POST") ->
  get_method event "body" JNull = Ok body ->
  handler event w = (Ok r, w') ->
  statusCode r = 400 <->
  truthy body = false
  \/ exists request_data : json,
       loads_value body = Ok request_data
       /\ validate_post_body request_data = Ok false.
Proof.
  intros Hp Hm Hbody Hrun.
  destruct (post_outcome_of event w Hp Hm) as (r0 & w0 & Hrun0 & Hout).
  rewrite Hrun in Hrun0. injection Hrun0 as <- <-.
  destruct Hout as [body' Hb Ht|body' e Hb Ht Hl|body' rd Hb Ht Hl Hv
                   |body' rd e Hb Ht Hl Hv|body' rd items Hb Ht Hl Hv _ _
                   |body' rd pre item post Hb Ht Hl Hv _ _];
    rewrite Hbody in Hb; injection Hb as <-; simpl.
  - split; [by left|done].
  - split; [done|]. intros [Hf|(rd & Hrd & _)]; congruence.
  - split; [|done]. intros _. right. by exists rd.
  - split; [done|]. intros [Hf|(rd' & Hrd & Hv')]; congruence.
  - split; [done|]. intros [Hf|(rd' & Hrd & Hv')]; congruence.
  - split; [done|]. intros [Hf|(rd' & Hrd & Hv')]; congruence.
Qed.

(** X14. A 200 to a POST means that the whole batch is in the cache:
    the response lists one uuid for each item, in the order of the
    request; one [SETEX] was sent for each item, in that order; and,
    the uuids drawn being distinct, each item is found under the uuid
    at its position, as the record of its type in lower case and its
    value, with its lifetime. *)
Theorem post_ok_means_stored (event : json) (r : response) (w w' : world) :
  subscript event "path" = Ok (JStr "/cache") ->
  subscript event "httpMethod" = Ok (JStr "POST") ->
  handler event w = (Ok r, w') ->
  statusCode r = 200 ->
  exists (body request_data : json) (items : list json),
    get_method event "body" JNull = Ok body
    /\ loads_value body = Ok request_data
    /\ subscript request_data "puts" = Ok (JList items)
    /\ r = stored_response w (length items)
    /\ calls w' = (calls w ++ setex_calls w items)%list
    /\ uuid_next w' = (uuid_next w + length items)%nat
    /\ (NoDup (batch_keys w (length items)) ->
        forall (j : nat) (item : json),
          items !! j = Some item ->
          exists (ty : string) (v : json),
            subscript item "type" = Ok (JStr ty)
            /\ subscript item "value" = Ok v
            /\ ty ∈ ALLOWED_TYPES
            /\ db w' !! uuid_source w (uuid_next w + j)%nat =
                 Some (RStr (json_dumps (cached_record ty v)), effective_ttl item)).
Proof.
  intros Hp Hm Hrun H200.
  destruct (post_outcome_of event w Hp Hm) as (r0 & w0 & Hrun0 & Hout).
  rewrite Hrun in Hrun0. injection Hrun0 as <- <-.
  destruct Hout as [| | | |body rd items Hb Ht Hl Hv Hputs Hc|]; try done.
  exists body, rd, items. split_and!; try done.
  - simpl. by rewrite store_all_calls.
  - simpl. by rewrite (proj2 (store_all_uuid _ _)).
  - intros Hnd j item Hj.
    pose proof (valid_body_items _ _ Hv Hputs) as Hall.
    assert (validate_post_item item = Ok true) as Hitem.
    { rewrite Forall_forall in Hall. apply Hall. by eapply list_elem_of_lookup_2. }
    destruct (proj1 (validate_post_item_true item) Hitem)
      as (d & ty & v & t & n & -> & Hty & Hin & Hval & _).
    exists ty, v. split_and!; try done.
    + simpl. by rewrite Hty.
    + simpl. by rewrite Hval.
    + simpl.
      rewrite (store_all_db_lookup items
                 (emitted "PostCount" (Z.of_nat (length items)) w) j (JObj d) Hnd Hj).
      do 3 f_equal. unfold entry_of, cache_value_of. simpl.
      rewrite Hty, Hval. simpl. by rewrite (allowed_type_lower _ Hin).
Qed.

(** X15. An empty batch is a valid one: a body whose [puts] is the
    empty list is answered 200 with an empty list of responses, and is
    counted as a success of zero items. Nothing is sent to the backend,
    so that the answer is the same whether the backend works or not. *)
Theorem post_empty_batch (event : json) (b : string) (request_data : json) (w : world) :
  subscript event "path" = Ok (JStr "/cache") ->
  subscript event "httpMethod" = Ok (JStr "POST") ->
  subscript event "body" = Ok (JStr b) -> b <> "" ->
  json_loads b = Ok request_data ->
  subscript request_data "puts" = Ok (JList []) ->
  handler event w =
    (Ok (Response 200 None (json_dumps (JObj [("responses", JList [])]))),
     emitted "PostSuccess" 1 (emitted "PostCount" 0 w)).
Proof.
  intros Hp Hm Hb Hne Hl Hputs.
  destruct (subscript_ok_dict _ _ _ Hputs) as (d & -> & Hd).
  assert (validate_post_body (JObj d) = Ok true) as Hv.
  { apply validate_post_body_true. by exists d, []. }
  rewrite (post_returns _ _ _ _ _ Hp Hm Hb Hne Hl Hv Hputs).
  by rewrite (post_stored _ _ _ _ _ Hb Hne Hl Hv Hputs).
Qed.

End PostOutcomes.

(** ** More on the validation *)

Section ValidationOutcomes.
Context {RT : PyRuntime}.

(** X16. What the validation accepts: [validate_post_body] returns
    [True] exactly on an object whose [puts] is a list of objects, each
    with a [type] that is the string [xml] or [json] as written, with a
    [value], and with a [ttlseconds] that is present and that [int]
    converts to a number above 0 and of at most [TTL_MAX_SECONDS]. *)
Theorem validate_post_body_accepts (request_data : json) :
  validate_post_body request_data = Ok true <->
  exists (d : list (string * json)) (puts : list json),
    request_data = JObj d
    /\ dict_lookup d "puts" = Some (JList puts)
    /\ Forall
         (fun item =>
            exists (f : list (string * json)) (ty : string) (v t : json) (n : Z),
              item = JObj f
              /\ dict_lookup f "type" = Some (JStr ty)
              /\ (ty = "xml" \/ ty = "json")
              /\ dict_lookup f "value" = Some v
              /\ dict_lookup f "ttlseconds" = Some t
              /\ py_int t = Ok n /\ 0 < n <= TTL_MAX_SECONDS)
         puts.
Proof.
  rewrite validate_post_body_true.
  split; intros (d & puts & -> & Hd & Hputs); exists d, puts; split_and!; try done.
  - apply validate_post_puts_true in Hputs.
    eapply Forall_impl; [exact Hputs|]. simpl.
    intros item (f & ty & v & t & n & -> & Hty & Hin & Hv & Ht & Hn & Hr)%validate_post_item_true.
    exists f, ty, v, t, n. split_and!; try done; try apply Hr. by apply allowed_type_cases.
  - apply validate_post_puts_true.
    eapply Forall_impl; [exact Hputs|]. simpl.
    intros item (f & ty & v & t & n & -> & Hty & Hin & Hv & Ht & Hn & Hr).
    apply validate_post_item_true. exists f, ty, v, t, n. split_and!; try done; try apply Hr.
    unfold ALLOWED_TYPES. destruct Hin as [-> | ->]; set_solver.
Qed.

(** X17. The first item that is not valid decides the validation:
    after items that pass, an item on which the checks return [False]
    or raise gives its outcome to [validate_post_puts] and to
    [validate_post_body], and the items after it are not looked at. *)
Theorem validate_first_failure_decides (pre : list json) (item : json) (post : list json) :
  validate_post_puts pre = Ok true ->
  validate_post_item item <> Ok true ->
  validate_post_puts (pre ++ item :: post) = validate_post_item item
  /\ forall d : list (string * json),
       dict_lookup d "puts" = Some (JList (pre ++ item :: post)) ->
       validate_post_body (JObj d) = validate_post_item item.
Proof.
  intros Hpre Hitem.
  assert (validate_post_puts (pre ++ item :: post) = validate_post_item item) as Hputs.
  { apply validate_post_puts_true in Hpre.
    induction Hpre as [|a pre Ha _ IH]; simpl.
    - unfold res_bind. by destruct (validate_post_item item) as [[]|e].
    - by rewrite Ha. }
  split; [done|]. intros d Hd. simpl. rewrite Hd, Hputs.
  unfold res_bind. by destruct (validate_post_item item) as [[]|e].
Qed.

Lemma validate_post_item_raises (item : json) (e : exn) :
  validate_post_item item = Raise e -> e = TypeError \/ e = OverflowError.
Proof.
  unfold validate_post_item, validate_post_ttlseconds, res_except, res_bind,
    subscript, in_str_set, get_method, py_int, float_trunc, has_key.
  repeat (case_match; simplify_eq/=); intros; simplify_eq; auto.
Qed.

Lemma validate_post_puts_raises (puts : list json) (e : exn) :
  validate_post_puts puts = Raise e -> e = TypeError \/ e = OverflowError.
Proof.
  induction puts as [|item rest IH]; simpl; [done|].
  unfold res_bind. destruct (validate_post_item item) as [[]|e'] eqn:Hitem; simpl.
  - exact IH.
  - done.
  - intros [= ->]. by eapply validate_post_item_raises.
Qed.

(** X18. When the validation does not return, it raises a [TypeError]
    (a [type] that cannot be hashed, a [ttlseconds] that [int] does not
    take) or an [OverflowError] (an infinite [ttlseconds]), and nothing
    else: the POST is then answered 500 [Internal server error], it is
    not counted as a failed POST, and nothing is sent to the backend. *)
Theorem validation_raises_only (event : json) (b : string) (request_data : json)
    (e : exn) (w : world) :
  subscript event "path" = Ok (JStr "/cache") ->
  subscript event "httpMethod" = Ok (JStr "POST") ->
  subscript event "body" = Ok (JStr b) -> b <> "" ->
  json_loads b = Ok request_data ->
  validate_post_body request_data = Raise e ->
  (e = TypeError \/ e = OverflowError)
  /\ handler event w =
       (Ok (error_response 500 "Internal server error"), logged "Unexpected error" w)
  /\ metrics (logged "Unexpected error" w) = metrics w
  /\ calls (logged "Unexpected error" w) = calls w.
Proof.
  intros Hp Hm Hb Hne Hl Hv. split_and!; try done.
  - unfold validate_post_body in Hv.
    destruct request_data as [| | | | | |d]; try discriminate.
    destruct (dict_lookup d "puts") as [[| | | | |puts|]|]; try discriminate.
    unfold res_bind in Hv.
    destruct (validate_post_puts puts) as [[]|e'] eqn:Hputs; try discriminate.
    injection Hv as ->. by eapply validate_post_puts_raises.
  - by apply (post_validation_raises _ _ _ _ _ Hp Hm Hb Hne Hl Hv).
Qed.

End ValidationOutcomes.

(** ** A batch stored and read back *)

Section BatchRoundTrip.
Context {RT : PyRuntime}.

Lemma drop_S_tail {A : Type} (n : nat) (l : list A) : drop (S n) l = drop n (tail l).
Proof. destruct l; simpl; [by rewrite drop_nil|done]. Qed.

Lemma store_all_faults (items : list json) (w : world) :
  faults (store_all items w) = drop (length items) (faults w).
Proof.
  revert w. induction items as [|item rest IH]; intros w; simpl; [done|].
  rewrite IH. simpl. destruct (faults w); simpl; [by rewrite drop_nil|done].
Qed.

Lemma stored_count_add (fs : list bool) (n m : nat) :
  stored_count fs (n + m) = (n + m)%nat ->
  stored_count fs n = n /\ stored_count (drop n fs) m = m.
Proof.
  revert fs. induction n as [|n IH]; intros fs; [done|].
  change (S n + m)%nat with (S (n + m)).
  unfold stored_count; fold stored_count.
  destruct fs as [|[] fs]; simpl; try discriminate.
  - intros [= H]. destruct (IH [] H) as [H1 H2]. rewrite drop_nil in H2.
    by rewrite H1.
  - intros [= H]. destruct (IH fs H) as [H1 H2]. by rewrite H1.
Qed.

(** X19. A batch read back. After a valid batch is stored on a working
    backend, with distinct uuids, a GET of the uuid answered for the
    item at any position returns the value of that item as JSON, with
    the type of the item in [Content-Type] and its lifetime as
    [max-age], provided the record of the item reads back from its
    JSON text. *)
Theorem batch_round_trip
    (post_event get_event : json) (b : string) (request_data : json)
    (items : list json) (j : nat) (d q : list (string * json)) (ty : string) (v : json)
    (w : world) :
  subscript post_event "path" = Ok (JStr "/cache") ->
  subscript post_event "httpMethod" = Ok (JStr "POST") ->
  subscript post_event "body" = Ok (JStr b) -> b <> "" ->
  json_loads b = Ok request_data ->
  validate_post_body request_data = Ok true ->
  subscript request_data "puts" = Ok (JList items) ->
  stored_count (faults w) (length items + 2) = (length items + 2)%nat ->
  NoDup (batch_keys w (length items)) ->
  items !! j = Some (JObj d) ->
  dict_lookup d "type" = Some (JStr ty) ->
  dict_lookup d "value" = Some v ->
  uuid_source w (uuid_next w + j)%nat <> "" ->
  json_loads (json_dumps (cached_record ty v)) = Ok (cached_record ty v) ->
  subscript get_event "path" = Ok (JStr "/cache") ->
  subscript get_event "httpMethod" = Ok (JStr "GET") ->
  subscript get_event "queryStringParameters" = Ok (JObj q) ->
  dict_lookup q "uuid" = Some (JStr (uuid_source w (uuid_next w + j)%nat)) ->
  exists w1 w2 : world,
    handler post_event w = (Ok (stored_response w (length items)), w1)
    /\ handler get_event w1 =
         (Ok (Response 200
                (Some [("Cache-Control", "max-age=" +:+ pretty (effective_ttl (JObj d)));
                       ("Content-Type", "application/" +:+ ty)])
                (json_dumps v)),
          w2).
Proof.
  intros Hp Hm Hb Hne Hl Hv Hputs Hup Hnd Hj Hty Hval Hkey Hrt Hgp Hgm Hq Hu.
  destruct (stored_count_add _ _ _ Hup) as [Hc Hc2].
  set (key := uuid_source w (uuid_next w + j)%nat) in *.
  set (w1 := emitted "PostSuccess" 1
               (store_all items (emitted "PostCount" (Z.of_nat (length items)) w))).
  exists w1, (emitted "GetSuccess" 1 (sent (Ttl key) (sent (Get key) w1))).
  split.
  { rewrite (post_returns _ _ _ _ _ Hp Hm Hb Hne Hl Hv Hputs).
    by rewrite (post_stored _ _ _ _ _ Hb Hne Hl Hv Hputs Hc). }
  assert (validate_post_item (JObj d) = Ok true) as Hitem.
  { pose proof (valid_body_items _ _ Hv Hputs) as Hall.
    rewrite Forall_forall in Hall. apply Hall. by eapply list_elem_of_lookup_2. }
  destruct (proj1 (validate_post_item_true (JObj d)) Hitem)
    as (d' & ty' & v' & t & n & [= <-] & Hty' & Hin & _).
  rewrite Hty in Hty'. injection Hty' as <-.
  assert (entry_of (JObj d) = json_dumps (cached_record ty v)) as Hentry.
  { unfold entry_of, cache_value_of. simpl. rewrite Hty, Hval. simpl.
    by rewrite (allowed_type_lower _ Hin). }
  assert (db w1 !! key = Some (RStr (json_dumps (cached_record ty v)), effective_ttl (JObj d)))
    as Hdb.
  { unfold w1. simpl.
    rewrite (store_all_db_lookup items
               (emitted "PostCount" (Z.of_nat (length items)) w) j (JObj d) Hnd Hj).
    by rewrite Hentry. }
  assert (stored_count (faults w1) 2 = 2%nat) as Hup1.
  { unfold w1. simpl. by rewrite store_all_faults. }
  destruct (stored_count_two w1 (Get key) Hup1) as [Hok1 Hok2].
  rewrite (handler_get _ _ Hgp Hgm).
  rewrite (except_all_ext _ _ _ _
             (handle_get_with_key _ _ _ _ Hq Hu (truthy_str _ Hkey))).
  apply except_all_ok, except_ok.
  rewrite (bind_ok _ _ _ _ _
             (redis_get_text (JStr key) key _ _ _ w1 eq_refl Hok1 Hdb eq_refl)).
  by rewrite (get_parsed_record (JStr key) key _ ty v (effective_ttl (JObj d))
                (sent (Get key) w1) eq_refl Hrt Hok2 Hdb).
Qed.

End BatchRoundTrip.

(** * The properties at work *)

(** ** Inputs on which a claim of the specification fails *)

(** The examples run on the reference runtime [Ref.runtime], from a
    world with an empty cache; the body of a POST is the text
    [Ref.json_dumps] prints for the request. *)
Section Examples.
#[local] Existing Instance Ref.runtime.

(** Closes a side condition on concrete data by evaluation. *)
Ltac crunch :=
  lazymatch goal with
  | |- _ <> _ => let E := fresh in intros E; vm_compute in E; discriminate E
  | |- _ = _ => first [ reflexivity | vm_compute; reflexivity ]
  | |- _ ∈ _ => unfold ALLOWED_TYPES; set_solver
  | |- _ => unfold TTL_MAX_SECONDS; lia
  end.

Example ref_reads_fraction :
  json_loads (json_dumps (JFloat ten_and_a_half)) = Ok (JFloat ten_and_a_half)
  /\ json_dumps (JFloat ten_and_a_half) = "10.5"
  /\ py_int (JFloat ten_and_a_half) = Ok 10.
Proof. repeat split; vm_compute; reflexivity. Qed.

(** C1 as stated fails.  With the lifetime 10.5 the body passes
    validation and the item is stored, and the lifetime of the [setex]
    is 10: not the supplied 10.5, and not the default 300 that the claim
    gives to a value that is not an integer.  With the lifetimes 0, -5,
    99999 and "abc" the request is not stored with the default: the
    check of ["ttlseconds"] in the validation refuses it with 400, and
    no command goes to the backend. *)
Lemma ttl_fraction_counterexample :
  json_loads (Ref.json_dumps (batch [put "json" (JInt 1) (JFloat ten_and_a_half)]))
    = Ok (batch [put "json" (JInt 1) (JFloat ten_and_a_half)])
  /\ validate_post_body (batch [put "json" (JInt 1) (JFloat ten_and_a_half)]) = Ok true
  /\ (handler (post_event (batch [put "json" (JInt 1) (JFloat ten_and_a_half)])) quiet_world).1
       = Ok (stored_response quiet_world 1)
  /\ map call_ttl
       (calls (handler (post_event (batch [put "json" (JInt 1) (JFloat ten_and_a_half)]))
                 quiet_world).2)
       = [Some 10]
  /\ claimed_ttl (put "json" (JInt 1) (JFloat ten_and_a_half)) = 300
  /\ map call_ttl
       (calls (handler (post_event (batch [put "json" (JInt 1) (JFloat ten_and_a_half)]))
                 quiet_world).2)
       <> [Some (claimed_ttl (put "json" (JInt 1) (JFloat ten_and_a_half)))]
  /\ Forall
       (fun ttlseconds =>
          handler (post_event (batch [put "json" (JInt 1) ttlseconds])) quiet_world
          = (Ok (error_response 400 "Invalid request body"), emitted "PostFail" 1 quiet_world))
       [JInt 0; JInt (-5); JInt 99999; JStr "abc"]
  /\ calls (emitted "PostFail" 1 quiet_world) = [].
Proof.
  split_and!.
  - vm_compute; reflexivity.
  - vm_compute; reflexivity.
  - vm_compute; reflexivity.
  - vm_compute; reflexivity.
  - vm_compute; reflexivity.
  - intros E. vm_compute in E. discriminate E.
  - repeat constructor; vm_compute; reflexivity.
  - reflexivity.
Qed.

(** The POST of one item of type "json" with ["ttlseconds": 0] is
    answered 400, and nothing is stored. *)
Lemma zero_ttl_post_refused :
  handler (post_event (batch [put "json" test_value (JInt 0)])) quiet_world
    = (Ok (error_response 400 "Invalid request body"), emitted "PostFail" 1 quiet_world)
  /\ statusCode (error_response 400 "Invalid request body") = 400
  /\ db (emitted "PostFail" 1 quiet_world) = ∅.
Proof. repeat split; vm_compute; reflexivity. Qed.

(** The same happens to an item without ["ttlseconds"], which the
    storage step would take with the default: validation reads the
    absent value as 0. *)
Example post_without_ttlseconds_refused :
  handler (post_event (batch [JObj [("type", JStr "json"); ("value", test_value)]]))
    quiet_world
    = (Ok (error_response 400 "Invalid request body"), emitted "PostFail" 1 quiet_world).
Proof. vm_compute; reflexivity. Qed.

(** C10 as stated fails on an item that validation refuses before it
    looks at ["ttlseconds"]: with the type "csv" and the lifetime
    [null], on which [int()] raises [TypeError], the answer is the 400
    of a failed validation. *)
Lemma null_ttl_not_reached :
  py_int JNull = Raise TypeError
  /\ handler (post_event (batch [put "csv" (JInt 1) JNull])) quiet_world
     = (Ok (error_response 400 "Invalid request body"), emitted "PostFail" 1 quiet_world)
  /\ statusCode (error_response 400 "Invalid request body") = 400.
Proof. repeat split; vm_compute; reflexivity. Qed.

(** ** Inputs on which the code misses the specification *)

(** C5, at a body whose item has the type [["json"]], a list: the type
    is not in the allowed set, and the membership test raises
    [TypeError] on the unhashable value.  Validation does not return
    [False]; the router answers 500, no PostFail counter is emitted, and
    nothing is stored. *)
Theorem post_unhashable_type_is_500 :
  json_loads (Ref.json_dumps
                (batch [JObj [("type", JList [JStr "json"]); ("value", JInt 1);
                              ("ttlseconds", JInt 300)]]))
    = Ok (batch [JObj [("type", JList [JStr "json"]); ("value", JInt 1);
                       ("ttlseconds", JInt 300)]])
  /\ validate_post_body
       (batch [JObj [("type", JList [JStr "json"]); ("value", JInt 1);
                     ("ttlseconds", JInt 300)]])
     = Raise TypeError
  /\ handler
       (post_event
          (batch [JObj [("type", JList [JStr "json"]); ("value", JInt 1);
                        ("ttlseconds", JInt 300)]]))
       quiet_world
     = (Ok (error_response 500 "Internal server error"),
        logged "Unexpected error" quiet_world)
  /\ statusCode (error_response 500 "Internal server error") = 500
  /\ metrics (logged "Unexpected error" quiet_world) = []
  /\ calls (logged "Unexpected error" quiet_world) = [].
Proof. repeat split; vm_compute; reflexivity. Qed.

(** The same answer to a batch whose second item has the type "csv",
    when the first item has the lifetime [null]. *)
Example post_bad_type_after_null_ttl_is_500 :
  handler (post_event (batch [put "json" (JInt 1) JNull; put "csv" (JInt 2) (JInt 300)]))
    quiet_world
    = (Ok (error_response 500 "Internal server error"),
       logged "Unexpected error" quiet_world).
Proof. vm_compute; reflexivity. Qed.

(** ** The theorems on requests *)

Lemma post_effective_ttl_witness :
  (Forall
     (fun item =>
        resolve_ttl item = Ok (effective_ttl item)
        /\ forall ttlseconds : json,
             subscript item "ttlseconds" = Ok ttlseconds ->
             exists n : Z,
               py_int ttlseconds = Ok n /\ 0 < n <= TTL_MAX_SECONDS
               /\ effective_ttl item = n)
     [first_put; second_put; third_put]
   /\ map call_ttl
        (drop (length (calls quiet_world))
           (calls (handler (post_event (batch [first_put; second_put; third_put]))
                     quiet_world).2))
      = map (fun item => Some (effective_ttl item))
          (take (S (stored_count (faults quiet_world)
                      (length [first_put; second_put; third_put])))
             [first_put; second_put; third_put])
   /\ (stored_count (faults quiet_world) (length [first_put; second_put; third_put])
        = length [first_put; second_put; third_put] ->
       map call_ttl
         (drop (length (calls quiet_world))
            (calls (handler (post_event (batch [first_put; second_put; third_put]))
                      quiet_world).2))
       = map (fun item => Some (effective_ttl item)) [first_put; second_put; third_put]))
  /\ (handler (post_event (batch [first_put; put "json" (JInt 1) (JInt 99999)])) quiet_world
        = (Ok (error_response 400 "Invalid request body"), emitted "PostFail" 1 quiet_world)
      /\ statusCode (error_response 400 "Invalid request body") = 400
      /\ metrics (emitted "PostFail" 1 quiet_world)
           = (metrics quiet_world ++ [("PostFail", 1)])%list
      /\ calls (emitted "PostFail" 1 quiet_world) = calls quiet_world
      /\ db (emitted "PostFail" 1 quiet_world) = db quiet_world)
  /\ resolve_ttl (put "json" (JInt 1) (JInt 99999)) =
       Ok (if (0 <? 99999) && (99999 <=? TTL_MAX_SECONDS) then 99999
           else DEFAULT_TTL_SECONDS)
  /\ DEFAULT_TTL_SECONDS = 300 /\ TTL_MAX_SECONDS = 3600.
Proof.
  assert (Ref.json_dumps (batch [first_put; second_put; third_put]) <> "") as Hne1
    by crunch.
  assert (json_loads (Ref.json_dumps (batch [first_put; second_put; third_put]))
            = Ok (batch [first_put; second_put; third_put])) as Hl1 by crunch.
  assert (Ref.json_dumps (batch [first_put; put "json" (JInt 1) (JInt 99999)]) <> "")
    as Hne2 by crunch.
  assert (json_loads (Ref.json_dumps (batch [first_put; put "json" (JInt 1) (JInt 99999)]))
            = Ok (batch [first_put; put "json" (JInt 1) (JInt 99999)])) as Hl2 by crunch.
  split; [|split; [|split]].
  - apply (proj1 (post_effective_ttl
                    (post_event (batch [first_put; second_put; third_put]))
                    (Ref.json_dumps (batch [first_put; second_put; third_put]))
                    (batch [first_put; second_put; third_put]) quiet_world
                    eq_refl eq_refl eq_refl Hne1 Hl1)
             [first_put; second_put; third_put]); crunch.
  - apply (proj1 (proj2 (post_effective_ttl
                    (post_event (batch [first_put; put "json" (JInt 1) (JInt 99999)]))
                    (Ref.json_dumps (batch [first_put; put "json" (JInt 1) (JInt 99999)]))
                    (batch [first_put; put "json" (JInt 1) (JInt 99999)]) quiet_world
                    eq_refl eq_refl eq_refl Hne2 Hl2))
             [first_put]
             [("type", JStr "json"); ("value", JInt 1); ("ttlseconds", JInt 99999)]
             [] "json" (JInt 99999)); try crunch.
    left. exists 99999. split; [reflexivity|right; crunch].
  - apply (proj1 (proj2 (proj2 (post_effective_ttl
                    (post_event (batch [first_put; second_put; third_put]))
                    (Ref.json_dumps (batch [first_put; second_put; third_put]))
                    (batch [first_put; second_put; third_put]) quiet_world
                    eq_refl eq_refl eq_refl Hne1 Hl1)))
             [("type", JStr "json"); ("value", JInt 1); ("ttlseconds", JInt 99999)]
             (JInt 99999) 99999); reflexivity.
  - apply (proj2 (proj2 (proj2 (post_effective_ttl
                    (post_event (batch [first_put; second_put; third_put]))
                    (Ref.json_dumps (batch [first_put; second_put; third_put]))
                    (batch [first_put; second_put; third_put]) quiet_world
                    eq_refl eq_refl eq_refl Hne1 Hl1)))).
Defined.

Example stored_ttl_values :
  map call_ttl
    (calls (handler (post_event (batch [first_put; second_put; third_put])) quiet_world).2)
  = [Some 300; Some 45; Some 1].
Proof. vm_compute; reflexivity. Qed.

Lemma post_get_round_trip_witness :
  (exists w1 : world,
     handler (post_event (batch [first_put])) quiet_world =
       (Ok (Response 200 None
              (json_dumps
                 (JObj [("responses", JList [JObj [("uuid", JStr (next_key quiet_world))]])]))),
        w1)
     /\ db w1 !! next_key quiet_world
        = Some (RStr (json_dumps (cached_record "json" test_value)), 300))
  /\ (exists w3 : world,
        handler (get_event "uuid-0")
          (handler (post_event (batch [first_put])) quiet_world).2 =
          (Ok (Response 200
                 (Some [("Cache-Control", "max-age=" +:+ pretty 300);
                        ("Content-Type", "application/json")])
                 (json_dumps test_value)),
           w3)).
Proof.
  apply (post_get_round_trip
           (post_event (batch [first_put])) (get_event "uuid-0")
           (Ref.json_dumps (batch [first_put])) (batch [first_put])
           [("type", JStr "json"); ("value", test_value); ("ttlseconds", JInt 300)]
           [("uuid", JStr "uuid-0")] test_value (JInt 300) 300 300
           quiet_world (handler (post_event (batch [first_put])) quiet_world).2); crunch.
Defined.

Lemma routing_matrix_witness :
  handler (http_event "DELETE" "/cache/health" JNull JNull) quiet_world
    = except_all handle_health_check internal_error quiet_world
  /\ handler (http_event "GET" "/cache/other" JNull JNull) quiet_world
     = (Ok (error_response 404 "Not found"), quiet_world)
  /\ handler (get_event "uuid-0") quiet_world
     = except_all (handle_get_request (get_event "uuid-0")) internal_error quiet_world
  /\ handler (post_event (batch [first_put])) quiet_world
     = except_all (handle_post_request (post_event (batch [first_put]))) internal_error
         quiet_world
  /\ handler (http_event "PUT" "/cache" JNull JNull) quiet_world
     = (Ok (error_response 405 "Method not allowed"), quiet_world)
  /\ (subscript (post_event (batch [first_put])) "path" = Ok (JStr "/cache/health")
      \/ subscript (post_event (batch [first_put])) "path" = Ok (JStr "/cache")
         /\ (subscript (post_event (batch [first_put])) "httpMethod" = Ok (JStr "GET")
             \/ subscript (post_event (batch [first_put])) "httpMethod" = Ok (JStr "POST"))).
Proof.
  split_and!.
  - destruct (routing_matrix (http_event "DELETE" "/cache/health" JNull JNull) quiet_world)
      as (Hhealth & _).
    apply Hhealth. reflexivity.
  - destruct (routing_matrix (http_event "GET" "/cache/other" JNull JNull) quiet_world)
      as (_ & Hunknown & _).
    apply (Hunknown (JStr "/cache/other")); crunch.
  - destruct (routing_matrix (get_event "uuid-0") quiet_world) as (_ & _ & Hget & _).
    apply Hget; reflexivity.
  - destruct (routing_matrix (post_event (batch [first_put])) quiet_world)
      as (_ & _ & _ & Hpost & _).
    apply Hpost; reflexivity.
  - destruct (routing_matrix (http_event "PUT" "/cache" JNull JNull) quiet_world)
      as (_ & _ & _ & _ & Hother & _).
    apply (Hother (JStr "PUT")); crunch.
  - destruct (routing_matrix (post_event (batch [first_put])) quiet_world)
      as (_ & _ & _ & _ & _ & Hdefined).
    apply (Hdefined (stored_response quiet_world 1)
             (handler (post_event (batch [first_put])) quiet_world).2); crunch.
Defined.

Lemma get_not_found_vs_corrupted_witness :
  (handler (get_event "uuid-9") quiet_world
     = (Ok (error_response 404 "Uuid not found"),
        emitted "GetNotFound" 1 (sent (Get "uuid-9") quiet_world))
   /\ statusCode (error_response 404 "Uuid not found") = 404)
  /\ (exists (r : response) (w' : world),
        handler (get_event "broken") corrupted_world = (Ok r, w') /\ statusCode r = 500).
Proof.
  split.
  - apply (get_not_found_vs_corrupted (get_event "uuid-9") [("uuid", JStr "uuid-9")]
             (JStr "uuid-9") "uuid-9" quiet_world); crunch.
  - apply (proj2 (get_not_found_vs_corrupted (get_event "broken") [("uuid", JStr "broken")]
                    (JStr "broken") "broken" corrupted_world
                    eq_refl eq_refl eq_refl eq_refl eq_refl eq_refl)
             (RStr "<html>") 60); crunch.
Defined.

Example corrupted_entry_response :
  (handler (get_event "broken") corrupted_world).1
  = Ok (error_response 500 "Invalid cached value format").
Proof. vm_compute; reflexivity. Qed.


Example first_item_survives :
  db (handler (post_event (batch [first_put; second_put; third_put])) (failing_after 1)).2
    !! "uuid-0"
  = Some (RStr (json_dumps (cached_record "json" test_value)), 300)
  /\ db (handler (post_event (batch [first_put; second_put; third_put])) (failing_after 1)).2
       !! "uuid-1" = None.
Proof. split; vm_compute; reflexivity. Qed.

Lemma get_null_parameters_witness :
  handle_get_request (http_event "GET" "/cache" JNull JNull) quiet_world
    = (Raise AttributeError, quiet_world)
  /\ handler (http_event "GET" "/cache" JNull JNull) quiet_world
     = (Ok (error_response 500 "Internal server error"),
        logged "Unexpected error" quiet_world)
  /\ statusCode (error_response 500 "Internal server error") = 500
  /\ handler (http_event "GET" "/cache" JNull JNull) quiet_world
     <> (Ok (error_response 400 "Missing uuid parameter"), quiet_world).
Proof.
  apply (get_null_parameters (http_event "GET" "/cache" JNull JNull) quiet_world);
    reflexivity.
Defined.

Lemma post_malformed_json_witness :
  handle_post_request (http_event "POST" "/cache" JNull (JStr "invalid json")) quiet_world
    = (Raise JSONDecodeError, quiet_world)
  /\ handler (http_event "POST" "/cache" JNull (JStr "invalid json")) quiet_world
     = (Ok (error_response 500 "Internal server error"),
        logged "Unexpected error" quiet_world)
  /\ statusCode (error_response 500 "Internal server error") = 500
  /\ metrics (handler (http_event "POST" "/cache" JNull (JStr "invalid json")) quiet_world).2
     = metrics quiet_world
  /\ (forall w' : world,
        handler (http_event "POST" "/cache" JNull (JStr "invalid json")) quiet_world
        <> (Ok (error_response 400 "Invalid request body"), w')).
Proof.
  apply (post_malformed_json (http_event "POST" "/cache" JNull (JStr "invalid json"))
           "invalid json" JSONDecodeError quiet_world); crunch.
Defined.

Lemma ttl_type_error_escapes_witness :
  validate_post_ttlseconds JNull = Raise TypeError
  /\ validate_post_body (batch [first_put; put "json" (JInt 1) JNull]) = Raise TypeError
  /\ handler (post_event (batch [first_put; put "json" (JInt 1) JNull])) quiet_world
     = (Ok (error_response 500 "Internal server error"),
        logged "Unexpected error" quiet_world)
  /\ statusCode (error_response 500 "Internal server error") = 500
  /\ (forall w' : world,
        handler (post_event (batch [first_put; put "json" (JInt 1) JNull])) quiet_world
        <> (Ok (error_response 400 "Invalid request body"), w')).
Proof.
  apply (ttl_type_error_escapes
           (post_event (batch [first_put; put "json" (JInt 1) JNull]))
           (Ref.json_dumps (batch [first_put; put "json" (JInt 1) JNull]))
           (batch [first_put; put "json" (JInt 1) JNull])
           [first_put]
           [("type", JStr "json"); ("value", JInt 1); ("ttlseconds", JNull)]
           [] "json" JNull quiet_world); crunch.
Defined.

(** ** The further properties on requests *)

(** Closes a side condition of the examples below. *)
Ltac settle :=
  lazymatch goal with
  | |- NoDup _ =>
      vm_compute; repeat (apply NoDup_cons_2 || apply NoDup_nil_2);
      rewrite ?elem_of_cons, ?elem_of_nil; intuition discriminate
  | |- _ => crunch
  end.

Lemma only_post_writes_witness :
  subscript (post_event (batch [first_put])) "path" = Ok (JStr "/cache")
  /\ subscript (post_event (batch [first_put])) "httpMethod" = Ok (JStr "POST").
Proof.
  apply (only_post_writes (post_event (batch [first_put])) quiet_world). settle.
Defined.

Lemma handler_writes_bounded_witness :
  (db quiet_world !! "uuid-0"
     = Some (RStr (json_dumps (cached_record "json" test_value)), 300)
   \/ exists (text : string) (ttl : Z),
        (RStr (json_dumps (cached_record "json" test_value)), 300) = (RStr text, ttl)
        /\ 0 < ttl <= TTL_MAX_SECONDS)
  /\ exists cs : list call,
       calls (handler (post_event (batch [first_put])) quiet_world).2
         = (calls quiet_world ++ cs)%list
       /\ Forall
            (fun c =>
               forall (key : string) (ttl : Z) (value : string),
                 c = Setex key ttl value -> 0 < ttl <= TTL_MAX_SECONDS)
            cs.
Proof.
  split.
  - apply (proj1 (handler_writes_bounded (post_event (batch [first_put])) quiet_world)
             "uuid-0"). settle.
  - apply (proj2 (handler_writes_bounded (post_event (batch [first_put])) quiet_world)).
Defined.

Lemma health_check_outcomes_witness :
  handler (http_event "DELETE" "/cache/health" JNull JNull) quiet_world
    = (Ok (Response 200 None (healthy_body "2024-01-01 00:00:00 UTC")),
       sent Ping quiet_world)
  /\ handler (http_event "GET" "/cache/health" JNull JNull) (failing_after 0)
     = (Ok (error_response 500 "Internal server error"),
        logged "Unexpected error" (sent Ping (failing_after 0))).
Proof.
  split.
  - exact (health_check_outcomes (http_event "DELETE" "/cache/health" JNull JNull)
             quiet_world eq_refl).
  - exact (health_check_outcomes (http_event "GET" "/cache/health" JNull JNull)
             (failing_after 0) eq_refl).
Defined.

Lemma missing_route_key_witness :
  (handler (JObj [("httpMethod", JStr "GET")]) quiet_world
     = (Ok (error_response 500 "Internal server error"),
        logged "Unexpected error" quiet_world)
   /\ (KeyError = KeyError \/ KeyError = TypeError))
  /\ (handler (JObj [("path", JStr "/cache")]) quiet_world
        = (Ok (error_response 500 "Internal server error"),
           logged "Unexpected error" quiet_world)
      /\ (KeyError = KeyError \/ KeyError = TypeError)).
Proof.
  split.
  - apply (missing_route_key (JObj [("httpMethod", JStr "GET")]) KeyError quiet_world).
    left. reflexivity.
  - apply (missing_route_key (JObj [("path", JStr "/cache")]) KeyError quiet_world).
    right. split; reflexivity.
Defined.

Lemma get_found_witness :
  handler (get_event "ad-1") stocked_world =
    (Ok (Response 200
           (Some [("Cache-Control", "max-age=" +:+ pretty 120);
                  ("Content-Type", "application/" +:+ format_value (JStr "xml"))])
           (json_dumps (JStr "<ad/>"))),
     emitted "GetSuccess" 1 (sent (Ttl "ad-1") (sent (Get "ad-1") stocked_world))).
Proof.
  apply (get_found (get_event "ad-1") [("uuid", JStr "ad-1")] (JStr "ad-1") "ad-1"
           (RBytes (list_byte_of_string (Ref.json_dumps ad_record))) 120
           (Ref.json_dumps ad_record)
           [("type", JStr "xml"); ("value", JStr "<ad/>"); ("source", JInt 7)]
           (JStr "xml") (JStr "<ad/>") stocked_world); settle.
Defined.

Lemma get_backend_failure_witness :
  handler (get_event "ad-1") (set_faults [true] stocked_world)
    = (Ok (error_response 500 "Cache error"),
       logged "Redis error" (sent (Get "ad-1") (set_faults [true] stocked_world)))
  /\ handler (get_event "ad-1") (set_faults [false; true] stocked_world)
     = (Ok (error_response 500 "Cache error"),
        logged "Redis error"
          (sent (Ttl "ad-1") (sent (Get "ad-1") (set_faults [false; true] stocked_world)))).
Proof.
  split.
  - apply (get_backend_failure (get_event "ad-1") [("uuid", JStr "ad-1")] (JStr "ad-1")
             "ad-1" (set_faults [true] stocked_world)); settle.
  - apply (proj2 (get_backend_failure (get_event "ad-1") [("uuid", JStr "ad-1")]
                    (JStr "ad-1") "ad-1" (set_faults [false; true] stocked_world)
                    eq_refl eq_refl eq_refl eq_refl eq_refl eq_refl)
             (RBytes (list_byte_of_string (Ref.json_dumps ad_record))) 120); settle.
Defined.

Lemma get_corrupted_answers_witness :
  (handle_get_request (get_event "raw") stocked_world
     = (Raise UnicodeDecodeError, sent (Get "raw") stocked_world)
   /\ handler (get_event "raw") stocked_world
      = (Ok (error_response 500 "Internal server error"),
         logged "Unexpected error" (sent (Get "raw") stocked_world)))
  /\ handler (get_event "broken") stocked_world
     = (Ok (error_response 500 "Invalid cached value format"),
        sent (Get "broken") stocked_world)
  /\ handler (get_event "list") stocked_world
     = (Ok (error_response 500 "Invalid cached value structure"),
        sent (Get "list") stocked_world).
Proof.
  split_and!.
  - assert (db stocked_world !! "raw" = Some (RBytes [Byte.xff], 60)) as Hdb by settle.
    apply (proj1 (get_corrupted_answers (get_event "raw") [("uuid", JStr "raw")]
                    (JStr "raw") "raw" (RBytes [Byte.xff]) 60 stocked_world
                    eq_refl eq_refl eq_refl eq_refl eq_refl eq_refl eq_refl Hdb)); settle.
  - assert (db stocked_world !! "raw" = Some (RBytes [Byte.xff], 60)) as Hdb by settle.
    apply (proj1 (get_corrupted_answers (get_event "raw") [("uuid", JStr "raw")]
                    (JStr "raw") "raw" (RBytes [Byte.xff]) 60 stocked_world
                    eq_refl eq_refl eq_refl eq_refl eq_refl eq_refl eq_refl Hdb)); settle.
  - assert (db stocked_world !! "broken" = Some (RStr "<html>", 60)) as Hdb by settle.
    apply (proj1 (proj2 (get_corrupted_answers (get_event "broken")
                           [("uuid", JStr "broken")] (JStr "broken") "broken"
                           (RStr "<html>") 60 stocked_world
                           eq_refl eq_refl eq_refl eq_refl eq_refl eq_refl eq_refl Hdb))
             "<html>" JSONDecodeError); settle.
  - assert (db stocked_world !! "list" = Some (RStr "[1, 2]", 60)) as Hdb by settle.
    apply (proj1 (proj2 (proj2 (get_corrupted_answers (get_event "list")
                           [("uuid", JStr "list")] (JStr "list") "list"
                           (RStr "[1, 2]") 60 stocked_world
                           eq_refl eq_refl eq_refl eq_refl eq_refl eq_refl eq_refl Hdb)))
             "[1, 2]" (JList [JInt 1; JInt 2])); settle.
Defined.

Lemma get_bad_request_iff_witness :
  (statusCode (error_response 400 "Missing uuid parameter") = 400
   <-> truthy (default JNull (dict_lookup [] "uuid")) = false)
  /\ (statusCode (error_response 400 "Missing uuid parameter") = 400 ->
      error_response 400 "Missing uuid parameter"
        = error_response 400 "Missing uuid parameter"
      /\ quiet_world = quiet_world).
Proof.
  apply (get_bad_request_iff
           (JObj [("httpMethod", JStr "GET"); ("path", JStr "/cache")]) []
           (error_response 400 "Missing uuid parameter") quiet_world quiet_world); settle.
Defined.

Lemma get_metrics_witness :
  metrics (emitted "GetNotFound" 1 (sent (Get "uuid-9") quiet_world))
    = (metrics quiet_world ++ get_counter (statusCode (error_response 404 "Uuid not found")))%list.
Proof.
  apply (get_metrics (get_event "uuid-9") (error_response 404 "Uuid not found")
           quiet_world (emitted "GetNotFound" 1 (sent (Get "uuid-9") quiet_world))); settle.
Defined.

Lemma post_counters_witness :
  (statusCode (error_response 500 "Cache error") = 200 ->
   exists (body request_data : json) (items : list json),
     get_method (post_event (batch [first_put; second_put])) "body" JNull = Ok body
     /\ loads_value body = Ok request_data
     /\ subscript request_data "puts" = Ok (JList items)
     /\ metrics (handler (post_event (batch [first_put; second_put])) (failing_after 1)).2 =
          (metrics (failing_after 1)
             ++ [("PostCount", Z.of_nat (length items)); ("PostSuccess", 1)])%list)
  /\ (statusCode (error_response 500 "Cache error") = 400 ->
      metrics (handler (post_event (batch [first_put; second_put])) (failing_after 1)).2 =
        (metrics (failing_after 1) ++ [("PostFail", 1)])%list
      /\ calls (handler (post_event (batch [first_put; second_put])) (failing_after 1)).2 =
           calls (failing_after 1)
      /\ db (handler (post_event (batch [first_put; second_put])) (failing_after 1)).2 =
           db (failing_after 1))
  /\ (statusCode (error_response 500 "Cache error") = 500 ->
      (error_response 500 "Cache error" = error_response 500 "Cache error"
       /\ exists (body request_data : json) (items : list json),
            get_method (post_event (batch [first_put; second_put])) "body" JNull = Ok body
            /\ loads_value body = Ok request_data
            /\ subscript request_data "puts" = Ok (JList items)
            /\ metrics (handler (post_event (batch [first_put; second_put]))
                          (failing_after 1)).2 =
                 (metrics (failing_after 1)
                    ++ [("PostCount", Z.of_nat (length items)); ("PostFail", 1)])%list)
      \/ (error_response 500 "Cache error" = error_response 500 "Internal server error"
          /\ metrics (handler (post_event (batch [first_put; second_put])) (failing_after 1)).2 =
               metrics (failing_after 1)
          /\ calls (handler (post_event (batch [first_put; second_put])) (failing_after 1)).2 =
               calls (failing_after 1)
          /\ db (handler (post_event (batch [first_put; second_put])) (failing_after 1)).2 =
               db (failing_after 1))).
Proof.
  apply (post_counters (post_event (batch [first_put; second_put]))
           (error_response 500 "Cache error") (failing_after 1)
           (handler (post_event (batch [first_put; second_put])) (failing_after 1)).2);
    settle.
Defined.

Lemma post_bad_request_iff_witness :
  statusCode (error_response 400 "Missing request body") = 400 <->
  truthy JNull = false
  \/ exists request_data : json,
       loads_value JNull = Ok request_data
       /\ validate_post_body request_data = Ok false.
Proof.
  apply (post_bad_request_iff (http_event "POST" "/cache" JNull JNull) JNull
           (error_response 400 "Missing request body") quiet_world
           (emitted "PostFail" 1 quiet_world)); settle.
Defined.

Lemma post_ok_means_stored_witness :
  exists (body request_data : json) (items : list json),
    get_method (post_event (batch [first_put; second_put])) "body" JNull = Ok body
    /\ loads_value body = Ok request_data
    /\ subscript request_data "puts" = Ok (JList items)
    /\ stored_response quiet_world 2 = stored_response quiet_world (length items)
    /\ calls (handler (post_event (batch [first_put; second_put])) quiet_world).2 =
         (calls quiet_world ++ setex_calls quiet_world items)%list
    /\ uuid_next (handler (post_event (batch [first_put; second_put])) quiet_world).2 =
         (uuid_next quiet_world + length items)%nat
    /\ (NoDup (batch_keys quiet_world (length items)) ->
        forall (j : nat) (item : json),
          items !! j = Some item ->
          exists (ty : string) (v : json),
            subscript item "type" = Ok (JStr ty)
            /\ subscript item "value" = Ok v
            /\ ty ∈ ALLOWED_TYPES
            /\ db (handler (post_event (batch [first_put; second_put])) quiet_world).2
                 !! uuid_source quiet_world (uuid_next quiet_world + j)%nat =
                 Some (RStr (json_dumps (cached_record ty v)), effective_ttl item)).
Proof.
  apply (post_ok_means_stored (post_event (batch [first_put; second_put]))
           (stored_response quiet_world 2) quiet_world
           (handler (post_event (batch [first_put; second_put])) quiet_world).2); settle.
Defined.

Lemma post_empty_batch_witness :
  handler (post_event (batch [])) (failing_after 0) =
    (Ok (Response 200 None (json_dumps (JObj [("responses", JList [])]))),
     emitted "PostSuccess" 1 (emitted "PostCount" 0 (failing_after 0))).
Proof.
  apply (post_empty_batch (post_event (batch [])) (Ref.json_dumps (batch []))
           (batch []) (failing_after 0)); settle.
Defined.

Lemma validate_first_failure_decides_witness :
  validate_post_puts ([first_put] ++ put "csv" (JInt 1) (JInt 300) :: [list_typed_put])
    = validate_post_item (put "csv" (JInt 1) (JInt 300))
  /\ forall d : list (string * json),
       dict_lookup d "puts"
         = Some (JList ([first_put] ++ put "csv" (JInt 1) (JInt 300) :: [list_typed_put])) ->
       validate_post_body (JObj d) = validate_post_item (put "csv" (JInt 1) (JInt 300)).
Proof.
  apply (validate_first_failure_decides [first_put] (put "csv" (JInt 1) (JInt 300))
           [list_typed_put]); settle.
Defined.

Lemma validation_raises_only_witness :
  (OverflowError = TypeError \/ OverflowError = OverflowError)
  /\ handler (post_event (batch [endless_put])) quiet_world =
       (Ok (error_response 500 "Internal server error"),
        logged "Unexpected error" quiet_world)
  /\ metrics (logged "Unexpected error" quiet_world) = metrics quiet_world
  /\ calls (logged "Unexpected error" quiet_world) = calls quiet_world.
Proof.
  apply (validation_raises_only (post_event (batch [endless_put]))
           (Ref.json_dumps (batch [endless_put])) (batch [endless_put])
           OverflowError quiet_world); settle.
Defined.

Lemma batch_round_trip_witness :
  exists w1 w2 : world,
    handler (post_event (batch [first_put; second_put])) quiet_world
      = (Ok (stored_response quiet_world (length [first_put; second_put])), w1)
    /\ handler (get_event "uuid-1") w1 =
         (Ok (Response 200
                (Some [("Cache-Control", "max-age=" +:+ pretty (effective_ttl second_put));
                       ("Content-Type", "application/" +:+ "xml")])
                (json_dumps (JStr "<ad/>"))),
          w2).
Proof.
  apply (batch_round_trip (post_event (batch [first_put; second_put])) (get_event "uuid-1")
           (Ref.json_dumps (batch [first_put; second_put])) (batch [first_put; second_put])
           [first_put; second_put] 1
           [("type", JStr "xml"); ("value", JStr "<ad/>"); ("ttlseconds", JStr "45")]
           [("uuid", JStr "uuid-1")] "xml" (JStr "<ad/>") quiet_world); settle.
Defined.

Lemma post_without_ttlseconds_is_400_witness :
  handler (post_event (batch [JObj [("type", JStr "json"); ("value", test_value)]]))
    quiet_world =
    (Ok (error_response 400 "Invalid request body"), emitted "PostFail" 1 quiet_world)
  /\ statusCode (error_response 400 "Invalid request body") = 400
  /\ calls (emitted "PostFail" 1 quiet_world) = calls quiet_world
  /\ db (emitted "PostFail" 1 quiet_world) = db quiet_world
  /\ uuid_next (emitted "PostFail" 1 quiet_world) = uuid_next quiet_world
  /\ get_method (JObj [("type", JStr "json"); ("value", test_value)]) "ttlseconds" (JInt 0)
     = Ok (JInt 0)
  /\ validate_post_ttlseconds (JInt 0) = Ok false
  /\ validate_post_body (batch [JObj [("type", JStr "json"); ("value", test_value)]])
     = Ok false
  /\ resolve_ttl (JObj [("type", JStr "json"); ("value", test_value)])
     = Ok 300
  /\ (next_ok quiet_world = true ->
      store_item (JObj [("type", JStr "json"); ("value", test_value)]) quiet_world =
        (Ok (JObj [("uuid", JStr (next_key quiet_world))]),
         set_db
           (insert (next_key quiet_world)
              (RStr (json_dumps (cached_record "json" test_value)), 300))
           (sent (Setex (next_key quiet_world) 300
                    (json_dumps (cached_record "json" test_value)))
              (drawn quiet_world)))).
Proof.
  apply (post_without_ttlseconds_is_400
           (post_event (batch [JObj [("type", JStr "json"); ("value", test_value)]]))
           (Ref.json_dumps (batch [JObj [("type", JStr "json"); ("value", test_value)]]))
           (batch [JObj [("type", JStr "json"); ("value", test_value)]])
           [("type", JStr "json"); ("value", test_value)] test_value quiet_world);
    crunch.
Defined.

End Examples.
